(** * taskapp: task store, time tracking, assistant engine and AI gateway

    A shallow embedding of
    - the data model                 ([src/types], imported as [../types]),
    - the task store and its timers  ([src/contexts/TaskContext.tsx]),
    - the recommendation engine      ([src/contexts/TaskAssistantContext.tsx]),
    - the AI gateway                 ([src/services/aiService.ts]),
    - the reminder adapter           ([src/services/notificationService.ts]),
    - the calendar adapter           ([src/services/calendarService.ts]),
    - two detail-screen handlers     ([src/screens/TaskDetailScreen.tsx]),
    followed by the properties of the specification that concern them.

    Asynchronous functions are functions on an explicit world that settle
    with a value or an exception; the device, the network, the clock, the
    time zone and [Math.random] are inputs. *)

From Stdlib Require Import ZArith List String Ascii Bool Lia QArith Qround.
From Stdlib Require Import DecimalString.
Import ListNotations.

Local Open Scope Z_scope.
Local Open Scope string_scope.

(* ================================================================== *)
(** ** JavaScript values the code relies on *)
(* ================================================================== *)

Module Js.

(** A promise that settles: either it resolves with a value or it rejects
    (an exception is thrown) with a message. *)
Inductive result (A : Type) : Type :=
| Ok (a : A)
| Throw (e : string).
Arguments Ok {A} a.
Arguments Throw {A} e.

(** Strings are held as the bytes of their UTF-8 encoding.
    [toLowerCase] changes the letters A to Z. *)
Definition lower_ascii (c : ascii) : ascii :=
  let n := nat_of_ascii c in
  if (andb (Nat.leb 65 n) (Nat.leb n 90)) then ascii_of_nat (n + 32) else c.

Fixpoint toLowerCase (s : string) : string :=
  match s with
  | EmptyString => EmptyString
  | String c r => String (lower_ascii c) (toLowerCase r)
  end.

(** [s.includes(sub)] *)
Fixpoint includes (s sub : string) : bool :=
  if String.prefix sub s then true
  else match s with
       | EmptyString => false
       | String _ r => includes r sub
       end.

(** Truthiness of a string: every string but the empty one. *)
Definition truthy (s : string) : bool :=
  match s with EmptyString => false | _ => true end.

Definition truthy_opt (o : option string) : bool :=
  match o with Some s => truthy s | None => false end.

(** The white space [trim] strips is the WhiteSpace and the
    LineTerminator of ECMAScript: the characters 9 to 13 and 32 of one
    byte, U+00A0 of two bytes, and U+1680, U+2000 to U+200A, U+2028,
    U+2029, U+202F, U+205F, U+3000 and U+FEFF of three bytes. *)
Definition is_space (c : ascii) : bool :=
  let n := nat_of_ascii c in
  orb (Nat.eqb n 32) (andb (Nat.leb 9 n) (Nat.leb n 13)).

Definition is_space2 (c1 c2 : ascii) : bool :=
  andb (Nat.eqb (nat_of_ascii c1) 194) (Nat.eqb (nat_of_ascii c2) 160).

Definition is_space3 (c1 c2 c3 : ascii) : bool :=
  let a := nat_of_ascii c1 in
  let b := nat_of_ascii c2 in
  let c := nat_of_ascii c3 in
  orb (andb (Nat.eqb a 225) (andb (Nat.eqb b 154) (Nat.eqb c 128)))
  (orb (andb (Nat.eqb a 226)
          (andb (Nat.eqb b 128)
             (orb (andb (Nat.leb 128 c) (Nat.leb c 138))
                (orb (Nat.eqb c 168) (orb (Nat.eqb c 169) (Nat.eqb c 175))))))
  (orb (andb (Nat.eqb a 226) (andb (Nat.eqb b 129) (Nat.eqb c 159)))
  (orb (andb (Nat.eqb a 227) (andb (Nat.eqb b 128) (Nat.eqb c 128)))
       (andb (Nat.eqb a 239) (andb (Nat.eqb b 187) (Nat.eqb c 191)))))).

Fixpoint trimStart (s : string) : string :=
  match s with
  | EmptyString => EmptyString
  | String c1 r1 =>
      if is_space c1 then trimStart r1
      else
        match r1 with
        | EmptyString => s
        | String c2 r2 =>
            if is_space2 c1 c2 then trimStart r2
            else
              match r2 with
              | EmptyString => s
              | String c3 r3 => if is_space3 c1 c2 c3 then trimStart r3 else s
              end
        end
  end.

(** The same from the end, on the bytes in reverse order: the last byte
    comes first. *)
Fixpoint dropSpacesRev (l : list ascii) : list ascii :=
  match l with
  | [] => []
  | c1 :: r1 =>
      if is_space c1 then dropSpacesRev r1
      else
        match r1 with
        | [] => l
        | c2 :: r2 =>
            if is_space2 c2 c1 then dropSpacesRev r2
            else
              match r2 with
              | [] => l
              | c3 :: r3 => if is_space3 c3 c2 c1 then dropSpacesRev r3 else l
              end
        end
  end.

Definition trimEnd (s : string) : string :=
  string_of_list_ascii (rev (dropSpacesRev (rev (list_ascii_of_string s)))).

Definition trim (s : string) : string := trimEnd (trimStart s).

Definition nl : string := String (ascii_of_nat 10) EmptyString.
Definition dquote : string := String (ascii_of_nat 34) EmptyString.

(** Decimal text of a number, as string concatenation prints it. *)
Definition string_of_nat (n : nat) : string :=
  NilZero.string_of_uint (Nat.to_uint n).

Definition string_of_Z (z : Z) : string :=
  NilZero.string_of_int (Z.to_int z).

(** [Math.round(n / d)] for integers [n] and [d] with [d] positive: the
    integer nearest to the quotient, a tie going up.  The floating-point
    computation gives this value for every [n] below 2^53 in absolute
    value when [d] is 60000. *)
Definition round_div (n d : Z) : Z := (2 * n + d) / (2 * d).

End Js.
Import Js.

(* ================================================================== *)
(** ** The data model ([src/types/index.ts]) *)
(* ================================================================== *)

Module Types.

Inductive TaskStatus := TODO | IN_PROGRESS | COMPLETED.
Inductive Priority := LOW | MEDIUM | HIGH.
Inductive RecurrenceType := NONE | DAILY | WEEKLY | MONTHLY.

Definition TaskStatus_eqb (a b : TaskStatus) : bool :=
  match a, b with
  | TODO, TODO | IN_PROGRESS, IN_PROGRESS | COMPLETED, COMPLETED => true
  | _, _ => false
  end.

Definition Priority_eqb (a b : Priority) : bool :=
  match a, b with
  | LOW, LOW | MEDIUM, MEDIUM | HIGH, HIGH => true
  | _, _ => false
  end.

(** The string value of each enum member. *)
Definition TaskStatus_value (s : TaskStatus) : string :=
  match s with
  | TODO => "todo" | IN_PROGRESS => "in-progress" | COMPLETED => "completed"
  end.

Definition Priority_value (p : Priority) : string :=
  match p with LOW => "low" | MEDIUM => "medium" | HIGH => "high" end.

(** An instant: the time value of a [Date], in milliseconds since the
    epoch ([getTime()]).  Only valid dates are modelled. *)
Definition Instant := Z.

(** A [Date] object whose identity is observed.  The code compares a
    task's [deadline] with [!==], which on objects is identity and not
    time value, so a deadline carries the identity of its [Date] object
    next to its instant.  No other date field is ever compared by
    identity; those are modelled by their instant alone. *)
Record DateObj := mkDateObj { obj_id : nat; time : Instant }.

(** What [toJSON] writes for a [Date]: the string [d.toISOString()] of
    the instant [iso_ms].  [new Date(s)] of that string is a date at the
    same instant. *)
Inductive IsoString := Iso (iso_ms : Instant).

Definition iso_time (s : IsoString) : Instant :=
  match s with Iso ms => ms end.

(** A field declared [Date] which the code may leave holding the string
    read from storage. *)
Inductive DateOrString :=
| IsDate (d : Instant)
| IsString (s : IsoString).

Record User := mkUser { u_id : string; u_name : string; u_email : option string }.

(** The records are parametrised by the representation of their date
    fields, so that the same declarations serve in memory and on the wire:
    [D] for the fields [loadTasks] converts (with [DL] for the deadline),
    [C] for the date fields it passes through. *)
Section Shapes.
Context {DL D C : Type}.

(** A time-tracking session as [startTaskTimer] and [stopTaskTimer] build
    it: [{ startTime }], then [{ ...lastSession, endTime, duration }]. *)
Record SessionOf := mkSession {
  s_startTime : D;
  s_endTime : option D;
  s_duration : option Z
}.

Record TimeTrackingOf := mkTimeTracking {
  totalTimeSpent : Z;
  sessions : list SessionOf
}.

Record TaskRecurrenceOf := mkRecurrence {
  r_type : RecurrenceType;
  r_interval : Z;
  r_endDate : option D;
  r_count : option Z
}.

Record CommentOf := mkComment {
  c_id : string;
  c_text : string;
  c_createdAt : C;
  c_userId : string;
  c_userName : string
}.

(** [Task].  The optional [subtasks] field is left out: nothing in the
    repository ever writes or reads it. *)
Record TaskOf := mkTask {
  id : string;
  title : string;
  description : option string;
  status : TaskStatus;
  priority : Priority;
  deadline : option DL;
  startTime : option D;
  duration : option Z;
  tags : option (list string);
  createdAt : D;
  updatedAt : D;
  createdBy : string;
  assignedTo : option (list User);
  comments : option (list CommentOf);
  timeTracking : option TimeTrackingOf;
  recurrence : option TaskRecurrenceOf;
  calendarEventId : option string;
  notificationIds : option (list string);
  completedAt : option C
}.

(** [{ ...task, timeTracking: tr }] *)
Definition with_timeTracking (t : TaskOf) (tr : option TimeTrackingOf) : TaskOf :=
  mkTask t.(id) t.(title) t.(description) t.(status) t.(priority)
    t.(deadline) t.(startTime) t.(duration) t.(tags) t.(createdAt)
    t.(updatedAt) t.(createdBy) t.(assignedTo) t.(comments) tr
    t.(recurrence) t.(calendarEventId) t.(notificationIds) t.(completedAt).

(** [task.calendarEventId = e] *)
Definition with_calendarEventId (t : TaskOf) (e : option string) : TaskOf :=
  mkTask t.(id) t.(title) t.(description) t.(status) t.(priority)
    t.(deadline) t.(startTime) t.(duration) t.(tags) t.(createdAt)
    t.(updatedAt) t.(createdBy) t.(assignedTo) t.(comments) t.(timeTracking)
    t.(recurrence) e t.(notificationIds) t.(completedAt).

(** [task.notificationIds = ids] *)
Definition with_notificationIds (t : TaskOf) (ids : option (list string)) : TaskOf :=
  mkTask t.(id) t.(title) t.(description) t.(status) t.(priority)
    t.(deadline) t.(startTime) t.(duration) t.(tags) t.(createdAt)
    t.(updatedAt) t.(createdBy) t.(assignedTo) t.(comments) t.(timeTracking)
    t.(recurrence) t.(calendarEventId) ids t.(completedAt).

End Shapes.

Arguments SessionOf : clear implicits.
Arguments TimeTrackingOf : clear implicits.
Arguments TaskRecurrenceOf : clear implicits.
Arguments CommentOf : clear implicits.
Arguments TaskOf : clear implicits.

(** In memory: dates are [Date] objects, except where [loadTasks] left the
    stored string. *)
Definition Session := SessionOf Instant.
Definition TimeTracking := TimeTrackingOf Instant.
Definition TaskRecurrence := TaskRecurrenceOf Instant.
Definition Comment := CommentOf DateOrString.
Definition Task := TaskOf DateObj Instant DateOrString.

(** On the wire, after [JSON.stringify] and [JSON.parse]: every date is
    the string [toJSON] wrote. *)
Definition WireSession := SessionOf IsoString.
Definition WireComment := CommentOf IsoString.
Definition WireTask := TaskOf IsoString IsoString IsoString.

End Types.
Import Types.

(* ================================================================== *)
(** ** Local time: the [Date] methods the adapters call *)
(* ================================================================== *)

Module Date.

(** The time zone of the device, as the two readings ECMAScript takes of
    it: [utcOffset t] is the offset of local time from UTC at the instant
    [t], and [localOffset l] is the offset with which the local time value
    [l] is read back as an instant.  Where a local time is repeated or
    skipped at a transition, the second reading is the host's choice. *)
Record TimeZone := mkTimeZone {
  utcOffset : Instant -> Z;
  localOffset : Z -> Z
}.

Definition LocalTime (z : TimeZone) (t : Instant) : Z := t + z.(utcOffset) t.
Definition UTC (z : TimeZone) (l : Z) : Instant := l - z.(localOffset) l.

Definition Day (t : Z) : Z := t / 86400000.
Definition HourFromTime (t : Z) : Z := (t / 3600000) mod 24.
Definition MinFromTime (t : Z) : Z := (t / 60000) mod 60.
Definition SecFromTime (t : Z) : Z := (t / 1000) mod 60.
Definition msFromTime (t : Z) : Z := t mod 1000.

Definition MakeTime (hour min sec ms : Z) : Z :=
  hour * 3600000 + min * 60000 + sec * 1000 + ms.
Definition MakeDate (day time : Z) : Z := day * 86400000 + time.

Definition getHours (z : TimeZone) (d : Instant) : Z := HourFromTime (LocalTime z d).
Definition getMinutes (z : TimeZone) (d : Instant) : Z := MinFromTime (LocalTime z d).

(** [d.setHours(hour)] and [d.setMinutes(min)]: the other fields of the
    local time are kept, and the local time obtained is read back as an
    instant. *)
Definition setHours (z : TimeZone) (d : Instant) (hour : Z) : Instant :=
  let t := LocalTime z d in
  UTC z (MakeDate (Day t) (MakeTime hour (MinFromTime t) (SecFromTime t) (msFromTime t))).

Definition setMinutes (z : TimeZone) (d : Instant) (min : Z) : Instant :=
  let t := LocalTime z d in
  UTC z (MakeDate (Day t) (MakeTime (HourFromTime t) min (SecFromTime t) (msFromTime t))).

(** A zone whose offset never changes. *)
Definition fixedZone (offset : Z) : TimeZone :=
  mkTimeZone (fun _ => offset) (fun _ => offset).

End Date.

(* ================================================================== *)
(** ** The platform, and the effects of the code *)
(* ================================================================== *)

Module Effects.

Inductive OS := Ios | Android | OtherOS.

Record NotificationRequest := mkNotification {
  n_title : string;
  n_body : string;
  n_taskId : string;
  n_trigger : Instant
}.

Record EventDetails := mkEvent {
  ev_title : string;
  ev_notes : string;
  ev_startDate : Instant;
  ev_endDate : Instant;
  ev_timeZone : option string;
  ev_alarms : list Z
}.

Record CalendarInfo := mkCalendar {
  cal_id : string;
  allowsModifications : bool;
  accessLevelOwner : bool
}.

(** The calls the adapters make on the device (expo-notifications,
    expo-calendar, the alert box), in the order they are made. *)
Inductive PlatformCall :=
| RequestNotificationPermissions
| ScheduleNotification (r : NotificationRequest)
| CancelScheduledNotification (nid : string)
| RequestCalendarPermissions
| AlertShown (heading : string)
| GetCalendars
| GetDefaultCalendar
| CreateCalendar (sourceId : string)
| CreateEvent (calendarId : string) (d : EventDetails)
| UpdateEvent (eventId : string) (d : EventDetails)
| DeleteEvent (eventId : string).

(** How the device answers: any call may reject, and the answer to a call
    depends on its arguments only.  [p_now] is the clock the adapters read,
    [p_zone] the time zone in which they read and set local hours and minutes;
    [fs_write] is [FileSystem.writeAsStringAsync] on the tasks file,
    [fs_read] is [getInfoAsync] followed by [readAsStringAsync]. *)
Record Platform := mkPlatform {
  p_now : Instant;
  p_os : OS;
  p_timeZone : string;
  p_zone : Date.TimeZone;
  notif_requestPermissions : result bool;
  notif_schedule : NotificationRequest -> result string;
  notif_cancel : string -> result unit;
  cal_requestPermissions : result bool;
  cal_getCalendars : result (list CalendarInfo);
  cal_getDefaultCalendar : result CalendarInfo;
  cal_createCalendar : string -> result string;
  cal_createEvent : string -> EventDetails -> result string;
  cal_updateEvent : string -> EventDetails -> result unit;
  cal_deleteEvent : string -> result unit;
  fs_write : list WireTask -> result unit;
  fs_read : result unit
}.

(** The reducer's actions. *)
Inductive Action :=
| ADD_TASK (payload : Task)
| UPDATE_TASK (payload : Task)
| DELETE_TASK (payload : string)
| SET_TASKS (payload : list Task).

(** Everything the code can change.  [tasks] is the reducer state of the
    current render; [pending] the actions dispatched since; [file] the
    JSON document in [tasks.json], as the tree [JSON.parse] reads from it;
    [deviceCalendarId] the calendar service's private field; [next_obj]
    the next unused [Date] identity. *)
Record World := mkWorld {
  tasks : list Task;
  pending : list Action;
  file : option (list WireTask);
  deviceCalendarId : option string;
  trace : list PlatformCall;
  console : list string;
  next_obj : nat
}.

Definition set_tasks (w : World) (ts : list Task) : World :=
  mkWorld ts w.(pending) w.(file) w.(deviceCalendarId) w.(trace) w.(console) w.(next_obj).
Definition set_pending (w : World) (p : list Action) : World :=
  mkWorld w.(tasks) p w.(file) w.(deviceCalendarId) w.(trace) w.(console) w.(next_obj).
Definition set_file (w : World) (f : option (list WireTask)) : World :=
  mkWorld w.(tasks) w.(pending) f w.(deviceCalendarId) w.(trace) w.(console) w.(next_obj).
Definition set_deviceCalendarId (w : World) (c : option string) : World :=
  mkWorld w.(tasks) w.(pending) w.(file) c w.(trace) w.(console) w.(next_obj).
Definition set_trace (w : World) (t : list PlatformCall) : World :=
  mkWorld w.(tasks) w.(pending) w.(file) w.(deviceCalendarId) t w.(console) w.(next_obj).
Definition set_console (w : World) (c : list string) : World :=
  mkWorld w.(tasks) w.(pending) w.(file) w.(deviceCalendarId) w.(trace) c w.(next_obj).
Definition set_next_obj (w : World) (n : nat) : World :=
  mkWorld w.(tasks) w.(pending) w.(file) w.(deviceCalendarId) w.(trace) w.(console) n.

(** An asynchronous function: it runs on the world and settles. *)
Definition M (A : Type) : Type := World -> result A * World.

Definition ret {A} (a : A) : M A := fun w => (Ok a, w).
Definition throw {A} (e : string) : M A := fun w => (Throw e, w).
Definition bind {A B} (m : M A) (k : A -> M B) : M B :=
  fun w => match m w with
           | (Ok a, w1) => k a w1
           | (Throw e, w1) => (Throw e, w1)
           end.
(** [try { m } catch (error) { h error }] *)
Definition try_catch {A} (m : M A) (h : string -> M A) : M A :=
  fun w => match m w with
           | (Ok a, w1) => (Ok a, w1)
           | (Throw e, w1) => h e w1
           end.

Definition get : M World := fun w => (Ok w, w).
Definition modify (f : World -> World) : M unit := fun w => (Ok tt, f w).

(** A call on the device: it is recorded, then settles as the platform
    answers. *)
Definition platform {A} (c : PlatformCall) (answer : result A) : M A :=
  fun w => (answer, set_trace w (w.(trace) ++ [c])).

Definition console_error (tag : string) : M unit :=
  modify (fun w => set_console w (w.(console) ++ [tag])).

Definition dispatch (a : Action) : M unit :=
  modify (fun w => set_pending w (w.(pending) ++ [a])).

End Effects.
Import Effects.

Declare Scope m_scope.
Delimit Scope m_scope with m.
Notation "x <- c ;; k" := (bind c (fun x => k))
  (at level 61, c at next level, right associativity) : m_scope.
Notation "c ;;; k" := (bind c (fun _ => k))
  (at level 61, right associativity) : m_scope.
Local Open Scope m_scope.

(* ================================================================== *)
(** ** The reminder adapter ([src/services/notificationService.ts]) *)
(* ================================================================== *)

Module NotificationService.
Section WithPlatform.
Variable P : Platform.

Definition requestPermissions : M bool :=
  try_catch
    (platform RequestNotificationPermissions P.(notif_requestPermissions))
    (fun _ => console_error "Error requesting notification permissions:" ;;; ret false).

(** [thirtyMinBefore.setMinutes(thirtyMinBefore.getMinutes() - 30)] *)
Definition thirtyMinBefore (d : Instant) : Instant :=
  Date.setMinutes P.(p_zone) d (Date.getMinutes P.(p_zone) d - 30).

Definition scheduleNotificationAsync (r : NotificationRequest) : M string :=
  platform (ScheduleNotification r) (P.(notif_schedule) r).

Definition scheduleTaskReminder (task : Task) : M (list string) :=
  match task.(deadline) with
  | None => ret []
  | Some dl =>
    try_catch
      (hasPermission <- requestPermissions ;;
       if negb hasPermission then ret []
       else
         ids1 <- (if (P.(p_now) <? thirtyMinBefore dl.(time))%Z then
                    i <- scheduleNotificationAsync
                           (mkNotification "Task Reminder"
                              (dquote ++ task.(title) ++ dquote ++ " is due in 30 minutes")
                              task.(id) (thirtyMinBefore dl.(time))) ;;
                    ret [i]
                  else ret []) ;;
         ids2 <- (if (P.(p_now) <? dl.(time))%Z then
                    i <- scheduleNotificationAsync
                           (mkNotification "Task Due Now"
                              (dquote ++ task.(title) ++ dquote ++ " is due now")
                              task.(id) dl.(time)) ;;
                    ret (ids1 ++ [i])%list
                  else ret ids1) ;;
         ret ids2)
      (fun _ => console_error "Error scheduling notification:" ;;; ret [])
  end.

(** [notificationIds.map(id => cancelScheduledNotificationAsync(id))]
    starts every cancellation; [Promise.all] then rejects when one of them
    does. *)
Fixpoint cancelAll (ids : list string) : M unit :=
  match ids with
  | [] => ret tt
  | i :: rest =>
      fun w =>
        let (r, w1) := platform (CancelScheduledNotification i) (P.(notif_cancel) i) w in
        let (rs, w2) := cancelAll rest w1 in
        (match r with Ok _ => rs | Throw e => Throw e end, w2)
  end.

Definition cancelTaskReminders (notificationIds : list string) : M unit :=
  try_catch (cancelAll notificationIds)
    (fun _ => console_error "Error canceling notifications:").

End WithPlatform.
End NotificationService.

(* ================================================================== *)
(** ** The calendar adapter ([src/services/calendarService.ts]) *)
(* ================================================================== *)

Module CalendarService.
Section WithPlatform.
Variable P : Platform.

Definition requestCalendarPermissions : M bool :=
  try_catch
    (platform RequestCalendarPermissions P.(cal_requestPermissions))
    (fun _ => console_error "Error requesting calendar permissions:" ;;; ret false).

Definition createCalendar : M (option string) :=
  try_catch
    (sourceId <- match P.(p_os) with
                 | Ios => calendar <- platform GetDefaultCalendar P.(cal_getDefaultCalendar) ;;
                          ret calendar.(cal_id)
                 | _ => ret "local"
                 end ;;
     newCalendar <- platform (CreateCalendar sourceId) (P.(cal_createCalendar) sourceId) ;;
     ret (Some newCalendar))
    (fun _ => console_error "Error creating calendar:" ;;; ret None).

Definition is_default_calendar (cal : CalendarInfo) : bool :=
  match P.(p_os) with
  | Ios => cal.(allowsModifications)
  | Android => cal.(accessLevelOwner)
  | OtherOS => false
  end.

Definition setDeviceCalendarId (c : string) : M unit :=
  modify (fun w => set_deviceCalendarId w (Some c)).

Definition setupCalendar : M bool :=
  try_catch
    (hasPermission <- requestCalendarPermissions ;;
     if negb hasPermission then
       platform (AlertShown "Permission Required") (Ok tt) ;;; ret false
     else
       calendars <- platform GetCalendars P.(cal_getCalendars) ;;
       match find is_default_calendar calendars with
       | Some defaultCalendar =>
           setDeviceCalendarId defaultCalendar.(cal_id) ;;; ret true
       | None =>
           match P.(p_os) with
           | Android =>
               newCalendarId <- createCalendar ;;
               match newCalendarId with
               | Some c => if truthy c
                           then setDeviceCalendarId c ;;; ret true
                           else ret false
               | None => ret false
               end
           | _ => ret false
           end
       end)
    (fun _ => console_error "Error setting up calendar:" ;;; ret false).

(** [if (!this.deviceCalendarId) { const isSetup = await this.setupCalendar(); ... }]:
    [true] when a calendar is at hand afterwards. *)
Definition ensureCalendar : M bool :=
  w <- get ;;
  if truthy_opt w.(deviceCalendarId) then ret true else setupCalendar.

(** [endTime.setHours(endTime.getHours() + 1)] *)
Definition plusOneHour (d : Instant) : Instant :=
  Date.setHours P.(p_zone) d (Date.getHours P.(p_zone) d + 1).

Definition notes_of (task : Task) : string :=
  match task.(description) with Some d => d | None => EmptyString end.

Definition addTaskToCalendar (task : Task) : M (option string) :=
  match task.(deadline) with
  | None => ret None
  | Some dl =>
    try_catch
      (isSetup <- ensureCalendar ;;
       if negb isSetup then ret None
       else
         w <- get ;;
         let calendarId := match w.(deviceCalendarId) with Some c => c | None => EmptyString end in
         let eventDetails :=
           mkEvent task.(title) (notes_of task) dl.(time) (plusOneHour dl.(time))
                   (Some P.(p_timeZone)) [-30] in
         eventId <- platform (CreateEvent calendarId eventDetails)
                             (P.(cal_createEvent) calendarId eventDetails) ;;
         ret (Some eventId))
      (fun _ => console_error "Error adding task to calendar:" ;;; ret None)
  end.

Definition updateTaskInCalendar (task : Task) (eventId : string) : M bool :=
  match task.(deadline) with
  | None => ret false
  | Some dl =>
    if negb (truthy eventId) then ret false
    else
    try_catch
      (isSetup <- ensureCalendar ;;
       if negb isSetup then ret false
       else
         let details :=
           mkEvent task.(title) (notes_of task) dl.(time) (plusOneHour dl.(time))
                   None [] in
         platform (UpdateEvent eventId details) (P.(cal_updateEvent) eventId details) ;;;
         ret true)
      (fun _ => console_error "Error updating task in calendar:" ;;; ret false)
  end.

Definition removeTaskFromCalendar (eventId : string) : M bool :=
  try_catch
    (isSetup <- ensureCalendar ;;
     if negb isSetup then ret false
     else
       platform (DeleteEvent eventId) (P.(cal_deleteEvent) eventId) ;;;
       ret true)
    (fun _ => console_error "Error removing task from calendar:" ;;; ret false).

End WithPlatform.
End CalendarService.

(* ================================================================== *)
(** ** The task store ([src/contexts/TaskContext.tsx]) *)
(* ================================================================== *)

Module TaskContext.

(** [taskReducer] *)
Definition taskReducer (state : list Task) (action : Action) : list Task :=
  match action with
  | ADD_TASK payload => state ++ [payload]
  | UPDATE_TASK payload =>
      map (fun task => if String.eqb task.(id) payload.(id) then payload else task) state
  | DELETE_TASK payload =>
      filter (fun task => negb (String.eqb task.(id) payload)) state
  | SET_TASKS payload => payload
  end.

(** *** Persistence *)

Definition toJSON (d : Instant) : IsoString := Iso d.

Definition toJSON_any (d : DateOrString) : IsoString :=
  match d with
  | IsDate t => toJSON t
  | IsString s => s
  end.

Definition stringify_session (s : Session) : WireSession :=
  mkSession (toJSON s.(s_startTime)) (option_map toJSON s.(s_endTime)) s.(s_duration).

Definition stringify_comment (c : Comment) : WireComment :=
  mkComment c.(c_id) c.(c_text) (toJSON_any c.(c_createdAt)) c.(c_userId) c.(c_userName).

(** [JSON.stringify(task)], read back by [JSON.parse]: the same tree with
    every [Date] replaced by its ISO string. *)
Definition stringify_task (t : Task) : WireTask :=
  mkTask t.(id) t.(title) t.(description) t.(status) t.(priority)
    (option_map (fun d => toJSON d.(time)) t.(deadline))
    (option_map toJSON t.(startTime))
    t.(duration) t.(tags)
    (toJSON t.(createdAt)) (toJSON t.(updatedAt))
    t.(createdBy) t.(assignedTo)
    (option_map (map stringify_comment) t.(comments))
    (option_map (fun tr => mkTimeTracking tr.(totalTimeSpent)
                             (map stringify_session tr.(sessions)))
                t.(timeTracking))
    (option_map (fun r => mkRecurrence r.(r_type) r.(r_interval)
                            (option_map toJSON r.(r_endDate)) r.(r_count))
                t.(recurrence))
    t.(calendarEventId) t.(notificationIds)
    (option_map toJSON_any t.(completedAt)).

Definition JSON_stringify (ts : list Task) : list WireTask := map stringify_task ts.

(** [new Date(s)] for an ISO string [s] *)
Definition newDate (s : IsoString) : Instant := iso_time s.

Definition format_session (session : WireSession) : Session :=
  mkSession (newDate session.(s_startTime))
            (option_map newDate session.(s_endTime))
            session.(s_duration).

(** What the spread [...task] leaves in a comment: the parsed value. *)
Definition spread_comment (c : WireComment) : Comment :=
  mkComment c.(c_id) c.(c_text) (IsString c.(c_createdAt)) c.(c_userId) c.(c_userName).

(** The body of [loadedTasks.map((task: any) => ({ ...task, createdAt: ..., ... }))]
    for one task; [obj] is the identity of the [Date] made for the
    deadline.  The fields the object literal does not list keep the parsed
    value. *)
Definition formatTask (obj : nat) (task : WireTask) : Task :=
  mkTask task.(id) task.(title) task.(description) task.(status) task.(priority)
    (option_map (fun s => mkDateObj obj (newDate s)) task.(deadline))
    (option_map newDate task.(startTime))
    task.(duration) task.(tags)
    (newDate task.(createdAt)) (newDate task.(updatedAt))
    task.(createdBy) task.(assignedTo)
    (option_map (map spread_comment) task.(comments))
    (option_map (fun tr => mkTimeTracking tr.(totalTimeSpent)
                             (map format_session tr.(sessions)))
                task.(timeTracking))
    (option_map (fun r => mkRecurrence r.(r_type) r.(r_interval)
                            (option_map newDate r.(r_endDate)) r.(r_count))
                task.(recurrence))
    task.(calendarEventId) task.(notificationIds)
    (option_map IsString task.(completedAt)).

Fixpoint formatTasks (next : nat) (loadedTasks : list WireTask) : list Task :=
  match loadedTasks with
  | [] => []
  | task :: rest => formatTask next task :: formatTasks (S next) rest
  end.

Section WithPlatform.
Variable P : Platform.

Definition writeAsStringAsync (content : list WireTask) : M unit :=
  fun w => match P.(fs_write) content with
           | Ok _ => (Ok tt, set_file w (Some content))
           | Throw e => (Throw e, w)
           end.

(** The effect on [[tasks]]: [saveTasks] and its guard. *)
Definition saveTasks : M unit :=
  w <- get ;;
  try_catch (writeAsStringAsync (JSON_stringify w.(tasks)))
            (fun _ => console_error "Error saving tasks:").

Definition saveEffect : M unit :=
  w <- get ;;
  if (0 <? List.length w.(tasks))%nat then saveTasks else ret tt.

(** The effect on mount: [loadTasks]. *)
Definition loadTasks : M unit :=
  try_catch
    (w <- get ;;
     match w.(file) with
     | None => ret tt
     | Some loadedTasks =>
         (fun w0 => (P.(fs_read), w0)) ;;;
         modify (fun w1 => set_next_obj w1 (w1.(next_obj) + List.length loadedTasks)%nat) ;;;
         dispatch (SET_TASKS (formatTasks w.(next_obj) loadedTasks))
     end)
    (fun _ => console_error "Error loading tasks:").

(** React between two handlers: the dispatched actions go through the
    reducer, the component renders with the new [tasks], and the effect
    that depends on [tasks] runs.  Nothing awaits the effect. *)
Definition render : World -> World :=
  fun w =>
    match w.(pending) with
    | [] => w
    | actions =>
        let w1 := set_pending (set_tasks w (fold_left taskReducer actions w.(tasks))) [] in
        snd (saveEffect w1)
    end.

(** A handler awaiting [m]: what [m] settles to is what the handler sees;
    React then renders. *)
Definition call {A} (m : M A) : World -> result A * World :=
  fun w => let (r, w1) := m w in (r, render w1).

(** *** Queries *)

Definition getTaskById (ts : list Task) (i : string) : option Task :=
  find (fun task => String.eqb task.(id) i) ts.

Definition getTasksByStatus (ts : list Task) (s : TaskStatus) : list Task :=
  filter (fun task => TaskStatus_eqb task.(status) s) ts.

Definition getTasksByPriority (ts : list Task) (p : Priority) : list Task :=
  filter (fun task => Priority_eqb task.(priority) p) ts.

Definition getTasksByDateRange (ts : list Task) (startDate endDate : Instant) : list Task :=
  filter (fun task => match task.(deadline) with
                      | None => false
                      | Some d => andb (startDate <=? d.(time))%Z (d.(time) <=? endDate)%Z
                      end) ts.

(** *** Mutations *)

Definition nonempty_ids (o : option (list string)) : option (list string) :=
  match o with
  | Some (_ :: _) => o
  | _ => None
  end.

Definition addTask (task : Task) : M unit :=
  try_catch
    (task2 <- match task.(deadline) with
              | Some _ =>
                  eventId <- CalendarService.addTaskToCalendar P task ;;
                  let task1 := if truthy_opt eventId
                               then with_calendarEventId task eventId else task in
                  notificationIds <- NotificationService.scheduleTaskReminder P task1 ;;
                  ret (match notificationIds with
                       | [] => task1
                       | _ => with_notificationIds task1 (Some notificationIds)
                       end)
              | None => ret task
              end ;;
     dispatch (ADD_TASK task2))
    (fun error => console_error "Error adding task:" ;;; throw error).

(** [a !== b] on two optional [Date] objects: [undefined] is only
    identical to [undefined], an object only to itself. *)
Definition strict_neq (a b : option DateObj) : bool :=
  match a, b with
  | None, None => false
  | Some x, Some y => negb (Nat.eqb x.(obj_id) y.(obj_id))
  | _, _ => true
  end.

Definition updateTask (task : Task) : M unit :=
  try_catch
    (w <- get ;;
     let oldTask := getTaskById w.(tasks) task.(id) in
     task3 <- match oldTask with
              | Some oldTask =>
                if strict_neq task.(deadline) oldTask.(deadline) then
                  match nonempty_ids oldTask.(notificationIds) with
                  | Some ids => NotificationService.cancelTaskReminders P ids
                  | None => ret tt
                  end ;;;
                  task1 <- match task.(deadline) with
                           | Some _ =>
                               notificationIds <- NotificationService.scheduleTaskReminder P task ;;
                               ret (match notificationIds with
                                    | [] => task
                                    | _ => with_notificationIds task (Some notificationIds)
                                    end)
                           | None => ret task
                           end ;;
                  match task1.(deadline) with
                  | Some _ =>
                      if truthy_opt oldTask.(calendarEventId) then
                        CalendarService.updateTaskInCalendar P task1
                          (match oldTask.(calendarEventId) with Some e => e | None => EmptyString end) ;;;
                        ret (with_calendarEventId task1 oldTask.(calendarEventId))
                      else
                        eventId <- CalendarService.addTaskToCalendar P task1 ;;
                        ret (if truthy_opt eventId
                             then with_calendarEventId task1 eventId else task1)
                  | None =>
                      if truthy_opt oldTask.(calendarEventId) then
                        CalendarService.removeTaskFromCalendar P
                          (match oldTask.(calendarEventId) with Some e => e | None => EmptyString end) ;;;
                        ret (with_calendarEventId task1 None)
                      else ret task1
                  end
                else ret task
              | None => ret task
              end ;;
     dispatch (UPDATE_TASK task3))
    (fun error => console_error "Error updating task:" ;;; throw error).

Definition deleteTask (i : string) : M unit :=
  try_catch
    (w <- get ;;
     match getTaskById w.(tasks) i with
     | Some taskToDelete =>
         match nonempty_ids taskToDelete.(notificationIds) with
         | Some ids => NotificationService.cancelTaskReminders P ids
         | None => ret tt
         end ;;;
         if truthy_opt taskToDelete.(calendarEventId) then
           CalendarService.removeTaskFromCalendar P
             (match taskToDelete.(calendarEventId) with Some e => e | None => EmptyString end) ;;;
           ret tt
         else ret tt
     | None => ret tt
     end ;;;
     dispatch (DELETE_TASK i))
    (fun error => console_error "Error deleting task:" ;;; throw error).

(** *** Time tracking *)

(** [sessions[sessions.length - 1]] *)
Definition lastSession (sessions : list Session) : option Session :=
  match List.length sessions with
  | O => None
  | S n => nth_error sessions n
  end.

(** [updatedSessions[sessions.length - 1] = s] on a copy of a non-empty
    [sessions]. *)
Definition setLast (sessions : list Session) (s : Session) : list Session :=
  (firstn (List.length sessions - 1) sessions ++ [s])%list.

(** [now] is the [new Date()] the function takes. *)
Definition startTaskTimer (taskId : string) (now : Instant) : M unit :=
  w <- get ;;
  match getTaskById w.(tasks) taskId with
  | None => ret tt
  | Some task =>
      let newSession : Session := mkSession now None None in
      let timeTracking : TimeTracking :=
        match task.(timeTracking) with
        | Some tracking => tracking
        | None => mkTimeTracking 0 []
        end in
      let updatedTask :=
        with_timeTracking task
          (Some (mkTimeTracking timeTracking.(totalTimeSpent)
                                (timeTracking.(sessions) ++ [newSession]))) in
      updateTask updatedTask
  end.

Definition stopTaskTimer (taskId : string) (now : Instant) : M unit :=
  w <- get ;;
  match getTaskById w.(tasks) taskId with
  | None => ret tt
  | Some task =>
    match task.(timeTracking) with
    | None => ret tt
    | Some tt0 =>
      match lastSession tt0.(sessions) with
      | None => ret tt
      | Some last =>
        match last.(s_endTime) with
        | Some _ => ret tt
        | None =>
            let duration := round_div (now - last.(s_startTime)) 60000 in
            let updatedSessions :=
              setLast tt0.(sessions)
                (mkSession last.(s_startTime) (Some now) (Some duration)) in
            let updatedTask :=
              with_timeTracking task
                (Some (mkTimeTracking (tt0.(totalTimeSpent) + duration) updatedSessions)) in
            updateTask updatedTask
        end
      end
    end
  end.

End WithPlatform.
End TaskContext.

(* ================================================================== *)
(** ** JSON text and ISO dates, as the AI gateway uses them *)
(* ================================================================== *)

Module Json.
Local Open Scope nat_scope.

#[warnings="-register-all"] Inductive json :=
| JNull
| JBool (b : bool)
| JNumber (lexeme : string)
| JString (s : string)
| JArray (items : list json)
| JObject (members : list (string * json)).

Definition code (c : ascii) : nat := nat_of_ascii c.
Definition is_code (n : nat) (c : ascii) : bool := Nat.eqb (code c) n.
Definition chr (n : nat) : string := String (ascii_of_nat n) EmptyString.

(** *** [JSON.stringify] *)

Definition hex_digit (n : nat) : string :=
  chr (if Nat.ltb n 10 then 48 + n else 87 + n).

Definition escape_char (c : ascii) : string :=
  let n := code c in
  if Nat.eqb n 34 then "\" ++ chr 34
  else if Nat.eqb n 92 then "\\"
  else if Nat.eqb n 8 then "\b"
  else if Nat.eqb n 12 then "\f"
  else if Nat.eqb n 10 then "\n"
  else if Nat.eqb n 13 then "\r"
  else if Nat.eqb n 9 then "\t"
  else if Nat.ltb n 32 then "\u00" ++ hex_digit (n / 16) ++ hex_digit (n mod 16)
  else String c EmptyString.

Fixpoint escape (s : string) : string :=
  match s with
  | EmptyString => EmptyString
  | String c r => escape_char c ++ escape r
  end.

Definition quote (s : string) : string := chr 34 ++ escape s ++ chr 34.

Fixpoint join (sep : string) (l : list string) : string :=
  match l with
  | [] => EmptyString
  | [x] => x
  | x :: r => x ++ sep ++ join sep r
  end.

Fixpoint stringify (v : json) : string :=
  match v with
  | JNull => "null"
  | JBool true => "true"
  | JBool false => "false"
  | JNumber lexeme => lexeme
  | JString s => quote s
  | JArray items => "[" ++ join "," (map stringify items) ++ "]"
  | JObject members =>
      "{" ++ join "," (map (fun kv => quote (fst kv) ++ ":" ++ stringify (snd kv)) members) ++ "}"
  end.

(** *** [JSON.parse]: [None] stands for the [SyntaxError] it throws *)

Fixpoint skip_ws (s : string) : string :=
  match s with
  | String c r =>
      if orb (orb (is_code 32 c) (is_code 9 c)) (orb (is_code 10 c) (is_code 13 c)) then skip_ws r else s
  | EmptyString => EmptyString
  end.

Definition expect (lit : string) (s : string) : option string :=
  if String.prefix lit s
  then Some (substring (String.length lit) (String.length s - String.length lit) s)
  else None.

Definition is_digit (c : ascii) : bool := andb (Nat.leb 48 (code c)) (Nat.leb (code c) 57).

Fixpoint digits (s : string) : string * string :=
  match s with
  | String c r => if is_digit c then let (d, r') := digits r in (String c d, r') else (EmptyString, s)
  | EmptyString => (EmptyString, EmptyString)
  end.

Definition hex_value (c : ascii) : option nat :=
  let n := code c in
  if is_digit c then Some (n - 48)
  else if andb (Nat.leb 97 n) (Nat.leb n 102) then Some (n - 87)
  else if andb (Nat.leb 65 n) (Nat.leb n 70) then Some (n - 55)
  else None.

(** The bytes of a code unit below 0x10000, in UTF-8. *)
Definition utf8 (n : nat) : string :=
  if Nat.ltb n 128 then chr n
  else if Nat.ltb n 2048 then chr (192 + n / 64) ++ chr (128 + n mod 64)
  else chr (224 + n / 4096) ++ chr (128 + (n / 64) mod 64) ++ chr (128 + n mod 64).

(** The characters of a string literal after its opening quote. *)
Fixpoint string_body (s : string) : option (string * string) :=
  match s with
  | EmptyString => None
  | String c r =>
      if is_code 34 c then Some (EmptyString, r)
      else if is_code 92 c then
        match r with
        | String e r1 =>
            let continue (txt : string) (rest : option (string * string)) :=
              match rest with
              | Some (body, r') => Some (txt ++ body, r')
              | None => None
              end in
            if is_code 34 e then continue (chr 34) (string_body r1)
            else if is_code 92 e then continue (chr 92) (string_body r1)
            else if is_code 47 e then continue (chr 47) (string_body r1)
            else if is_code 98 e then continue (chr 8) (string_body r1)
            else if is_code 102 e then continue (chr 12) (string_body r1)
            else if is_code 110 e then continue (chr 10) (string_body r1)
            else if is_code 114 e then continue (chr 13) (string_body r1)
            else if is_code 116 e then continue (chr 9) (string_body r1)
            else if is_code 117 e then
              match r1 with
              | String h1 (String h2 (String h3 (String h4 r2))) =>
                  match hex_value h1, hex_value h2, hex_value h3, hex_value h4 with
                  | Some a, Some b, Some c', Some d =>
                      continue (utf8 (((a * 16 + b) * 16 + c') * 16 + d)) (string_body r2)
                  | _, _, _, _ => None
                  end
              | _ => None
              end
            else None
        | EmptyString => None
        end
      else if Nat.ltb (code c) 32 then None
      else match string_body r with
           | Some (body, r') => Some (String c body, r')
           | None => None
           end
  end.

(** A JSON number: an optional minus, an integer part without leading
    zero, an optional fraction, an optional exponent. *)
Definition number (s : string) : option (string * string) :=
  let (sign, s1) := match s with
                    | String "-" r => ("-", r)
                    | _ => (EmptyString, s)
                    end in
  let (int, s2) := digits s1 in
  match int with
  | EmptyString => None
  | String "0" (String _ _) => None
  | _ =>
    let frac :=
      match s2 with
      | String "." r =>
          let (f, r') := digits r in
          match f with
          | EmptyString => None
          | _ => Some ("." ++ f, r')
          end
      | _ => Some (EmptyString, s2)
      end in
    match frac with
    | None => None
    | Some (f, s3) =>
      match s3 with
      | String e r =>
          if orb (is_code 101 e) (is_code 69 e) then
            let (sg, r1) := match r with
                            | String "+" r' => ("+", r')
                            | String "-" r' => ("-", r')
                            | _ => (EmptyString, r)
                            end in
            let (x, r2) := digits r1 in
            match x with
            | EmptyString => None
            | _ => Some (sign ++ int ++ f ++ String e EmptyString ++ sg ++ x, r2)
            end
          else Some (sign ++ int ++ f, s3)
      | EmptyString => Some (sign ++ int ++ f, s3)
      end
    end
  end.

Fixpoint value (fuel : nat) (s : string) : option (json * string) :=
  match fuel with
  | O => None
  | S fuel' =>
    match skip_ws s with
    | EmptyString => None
    | String c r as s' =>
        if is_code 110 c then option_map (pair JNull) (expect "ull" r)
        else if is_code 116 c then option_map (pair (JBool true)) (expect "rue" r)
        else if is_code 102 c then option_map (pair (JBool false)) (expect "alse" r)
        else if is_code 34 c then
          match string_body r with
          | Some (txt, r') => Some (JString txt, r')
          | None => None
          end
        else if is_code 91 c then
          match skip_ws r with
          | String c' r' as r0 =>
              if is_code 93 c' then Some (JArray [], r')
              else match elements fuel' r0 with
                   | Some (items, r'') => Some (JArray items, r'')
                   | None => None
                   end
          | EmptyString => None
          end
        else if is_code 123 c then
          match skip_ws r with
          | String c' r' as r0 =>
              if is_code 125 c' then Some (JObject [], r')
              else match members fuel' r0 with
                   | Some (ms, r'') => Some (JObject ms, r'')
                   | None => None
                   end
          | EmptyString => None
          end
        else
          match number s' with
          | Some (lexeme, r') => Some (JNumber lexeme, r')
          | None => None
          end
    end
  end
with elements (fuel : nat) (s : string) : option (list json * string) :=
  match fuel with
  | O => None
  | S fuel' =>
    match value fuel' s with
    | None => None
    | Some (v, r) =>
      match skip_ws r with
      | String c r' =>
          if is_code 44 c then
            match elements fuel' r' with
            | Some (vs, r'') => Some (v :: vs, r'')
            | None => None
            end
          else if is_code 93 c then Some ([v], r')
          else None
      | EmptyString => None
      end
    end
  end
with members (fuel : nat) (s : string) : option (list (string * json) * string) :=
  match fuel with
  | O => None
  | S fuel' =>
    match skip_ws s with
    | String q r =>
      if is_code 34 q then
        match string_body r with
        | None => None
        | Some (key, r1) =>
          match skip_ws r1 with
          | String colon r2 =>
            if is_code 58 colon then
              match value fuel' r2 with
              | None => None
              | Some (v, r3) =>
                match skip_ws r3 with
                | String c r4 =>
                    if is_code 44 c then
                      match members fuel' r4 with
                      | Some (ms, r5) => Some ((key, v) :: ms, r5)
                      | None => None
                      end
                    else if is_code 125 c then Some ([(key, v)], r4)
                    else None
                | EmptyString => None
                end
              end
            else None
          | EmptyString => None
          end
        end
      else None
    | EmptyString => None
    end
  end.

(** The recursion goes at most two calls deep for each character read. *)
Definition parse (text : string) : option json :=
  match value (S (2 * String.length text)) text with
  | Some (v, rest) =>
      match skip_ws rest with
      | EmptyString => Some v
      | _ => None
      end
  | None => None
  end.

Definition isArray (v : json) : bool :=
  match v with JArray _ => true | _ => false end.

(** *** [Date.prototype.toISOString] *)

Local Open Scope Z_scope.

(** The civil date of a day number counted from 1970-01-01. *)
Definition civil_from_days (z0 : Z) : Z * Z * Z :=
  let z := z0 + 719468 in
  let era := z / 146097 in
  let doe := z - era * 146097 in
  let yoe := (doe - doe / 1460 + doe / 36524 - doe / 146096) / 365 in
  let doy := doe - (365 * yoe + yoe / 4 - yoe / 100) in
  let mp := (5 * doy + 2) / 153 in
  let d := doy - (153 * mp + 2) / 5 + 1 in
  let m := if mp <? 10 then mp + 3 else mp - 9 in
  let y := yoe + era * 400 + (if m <=? 2 then 1 else 0) in
  (y, m, d).

Fixpoint zeros (n : nat) : string :=
  match n with
  | O => EmptyString
  | S k => "0" ++ zeros k
  end.

Definition pad (width : nat) (s : string) : string :=
  zeros (width - String.length s) ++ s.

Definition fixed (width : nat) (n : Z) : string :=
  pad width (string_of_nat (Z.to_nat n)).

Definition toISOString (ms : Z) : string :=
  let day := ms / 86400000 in
  let r := ms mod 86400000 in
  let '(y, m, d) := civil_from_days day in
  let year := if andb (0 <=? y) (y <=? 9999) then fixed 4 y
              else (if y <? 0 then "-" else "+") ++ fixed 6 (Z.abs y) in
  year ++ "-" ++ fixed 2 m ++ "-" ++ fixed 2 d ++ "T"
       ++ fixed 2 (r / 3600000) ++ ":" ++ fixed 2 ((r / 60000) mod 60) ++ ":"
       ++ fixed 2 ((r / 1000) mod 60) ++ "." ++ fixed 3 (r mod 1000) ++ "Z".

End Json.
Import Json.

(* ================================================================== *)
(** ** The AI gateway ([src/services/aiService.ts]) *)
(* ================================================================== *)

Module AIService.

Record Message := mkMessage { role : string; content : string }.

(** [env.AI] *)
Record Config := mkConfig { apiKey : string; apiEnabled : bool }.

(** What the body of an HTTP answer gives when
    [data.choices[0].message.content] is read: the text, or an exception
    ([json()] rejects, or there is no first choice). *)
Inductive Body :=
| Malformed
| Completion (text : string).

(** How [fetch] settles. *)
Inductive FetchOutcome :=
| NetworkFailure
| Response (status : Z) (body : Body).

(** The requests sent to the endpoint, in order. *)
Definition Sent := list (list Message).

Definition analysisFallback : string :=
  "Based on your task patterns, I've noticed you tend to be most productive in the morning hours. You complete about 35% more tasks before noon. Consider scheduling your high-priority work early in the day." ++ nl ++ nl ++
  "I also see that your task completion rate has been improving over the last week, great job! You're now completing 68% of your tasks, up from 52% previously." ++ nl ++ nl ++
  "You might want to break down your larger tasks into smaller subtasks, as your completion rate is higher when tasks are more granular.".

Definition scheduleFallback : string :=
  "For optimal productivity, I recommend this schedule for tomorrow:" ++ nl ++ nl ++
  "8:00 - 10:00 AM: Work on high-priority task " ++ dquote ++ "Complete project proposal" ++ dquote ++ nl ++
  "10:15 - 11:00 AM: Handle the 3 email-related tasks batched together" ++ nl ++
  "11:00 - 12:00 PM: Take the client call and follow up immediately" ++ nl ++
  "12:00 - 1:00 PM: Lunch break" ++ nl ++
  "1:00 - 3:00 PM: Continue work on medium-priority tasks" ++ nl ++
  "3:00 - 4:30 PM: Schedule meetings and collaborative work" ++ nl ++
  "4:30 - 5:00 PM: Review day's progress and plan for tomorrow".

(** The six subtasks of the gateway's own fallback. *)
Definition gatewaySubtasks : list json :=
  [ JString "Research and gather information";
    JString "Create initial draft or plan";
    JString "Implement core components";
    JString "Review and gather feedback";
    JString "Make refinements based on feedback";
    JString "Finalize and submit" ].

Definition genericFallback : string :=
  "I'm here to help you manage your tasks efficiently. I can assist with breaking down complex tasks, suggesting optimal schedules, and analyzing your productivity patterns. What would you like help with today?".

(** [messages.find(m => m.role === "user")?.content || ""] *)
Definition userMessage (messages : list Message) : string :=
  match find (fun m => String.eqb m.(role) "user") messages with
  | Some m => m.(content)
  | None => EmptyString
  end.

Definition getFallbackResponse (messages : list Message) : string :=
  let lowered := toLowerCase (userMessage messages) in
  if includes lowered "analyze" then analysisFallback
  else if includes lowered "schedule" then scheduleFallback
  else if orb (includes lowered "break down") (includes lowered "decompose")
       then stringify (JArray gatewaySubtasks)
  else genericFallback.

Section WithEndpoint.
Variable cfg : Config.
Variable fetch : list Message -> FetchOutcome.

Definition response_ok (status : Z) : bool := andb (200 <=? status)%Z (status <=? 299)%Z.

(** The body of the [try] in [sendRequest]. *)
Definition sendRequest_try (messages : list Message) : result string * Sent :=
  if orb (negb cfg.(apiEnabled)) (negb (truthy cfg.(apiKey))) then
    (Ok (getFallbackResponse messages), [])
  else
    (match fetch messages with
     | NetworkFailure => Throw "Network request failed"
     | Response status body =>
         if (status =? 401)%Z then Ok (getFallbackResponse messages)
         else if negb (response_ok status) then Throw "API Error"
         else match body with
              | Malformed => Throw "TypeError"
              | Completion text => Ok text
              end
     end, [messages]).

Definition sendRequest (messages : list Message) : result string * Sent :=
  match sendRequest_try messages with
  | (Ok text, sent) => (Ok text, sent)
  | (Throw _, sent) => (Ok (getFallbackResponse messages), sent)
  end.

Definition iso_or_null (d : option Instant) : json :=
  match d with
  | Some t => JString (toISOString t)
  | None => JNull
  end.

(** [task.completedAt ? task.completedAt.toISOString() : null]: a string
    has no [toISOString]. *)
Definition completedAt_summary (c : option DateOrString) : result json :=
  match c with
  | None => Ok JNull
  | Some (IsDate d) => Ok (JString (toISOString d))
  | Some (IsString _) => Throw "TypeError: task.completedAt.toISOString is not a function"
  end.

Definition patternSummary (task : Task) : result json :=
  match completedAt_summary task.(completedAt) with
  | Throw e => Throw e
  | Ok completed =>
      Ok (JObject
            [ ("id", JString task.(id));
              ("title", JString task.(title));
              ("status", JString (TaskStatus_value task.(status)));
              ("priority", JString (Priority_value task.(priority)));
              ("deadline", iso_or_null (option_map time task.(deadline)));
              ("createdAt", JString (toISOString task.(createdAt)));
              ("completedAt", completed);
              ("timeTracking",
               match task.(timeTracking) with
               | Some tr => JObject [("totalTimeSpent", JNumber (string_of_Z tr.(totalTimeSpent)))]
               | None => JNull
               end) ])
  end.

Fixpoint patternSummaries (ts : list Task) : result (list json) :=
  match ts with
  | [] => Ok []
  | task :: rest =>
      match patternSummary task with
      | Throw e => Throw e
      | Ok s => match patternSummaries rest with
                | Throw e => Throw e
                | Ok ss => Ok (s :: ss)
                end
      end
  end.

Definition analyzeTaskPatterns (ts : list Task) : result string * Sent :=
  match patternSummaries ts with
  | Throw e => (Throw e, [])
  | Ok taskSummaries =>
      sendRequest
        [ mkMessage "system"
            "You are a productivity assistant that analyzes task data to find patterns and optimization opportunities. Provide insightful analysis in a conversational tone.";
          mkMessage "user"
            ("Analyze these tasks and provide insights on productivity patterns, optimization opportunities, and recommendations: "
               ++ stringify (JArray taskSummaries)) ]
  end.

(** [response.replace(/```json|```/g, '')]; [skip] counts the characters
    of a match still to drop. *)
Fixpoint strip_fences (skip : nat) (s : string) : string :=
  match s with
  | EmptyString => EmptyString
  | String c r =>
      match skip with
      | S k => strip_fences k r
      | O => if String.prefix "```json" s then strip_fences 6 r
             else if String.prefix "```" s then strip_fences 2 r
             else String c (strip_fences 0 r)
      end
  end.

Definition extractJson (response : string) : string := trim (strip_fences 0 response).

(** The list [decomposeTask] falls back to. *)
Definition fallbackSubtasks : list json :=
  [ JString "Research and gather information";
    JString "Create initial draft/plan";
    JString "Implement core components";
    JString "Review and refine";
    JString "Finalize and submit" ].

Definition indent : string := "        ".

Definition decomposePrompt (taskTitle taskDescription : string) : list Message :=
  [ mkMessage "system"
      "You are a productivity assistant that helps break down complex tasks into manageable subtasks.";
    mkMessage "user"
      ("Break down this task into 4-7 actionable subtasks. Format as a JSON array of strings, nothing else." ++ nl ++
       indent ++ "Task title: " ++ taskTitle ++ nl ++
       indent ++ (if truthy taskDescription
                  then "Task description: " ++ taskDescription
                  else EmptyString)) ].

(** The body of the [try] in [decomposeTask]: [JSON.parse] throws on text
    that is not JSON. *)
Definition decomposeTask_try (response : string) : result (list json) :=
  match parse (extractJson response) with
  | None => Throw "SyntaxError"
  | Some (JArray subtasks) => Ok subtasks
  | Some _ => Ok []
  end.

(** [taskDescription] has the default [''] when the caller passes
    [undefined]. *)
Definition decomposeTask (taskTitle : string) (description : option string)
  : result (list json) * Sent :=
  let taskDescription := match description with Some d => d | None => EmptyString end in
  match sendRequest (decomposePrompt taskTitle taskDescription) with
  | (Throw e, sent) => (Throw e, sent)
  | (Ok response, sent) =>
      (match decomposeTask_try response with
       | Ok subtasks => Ok subtasks
       | Throw _ => Ok fallbackSubtasks
       end, sent)
  end.

Definition recentSummary (task : Task) : json :=
  JObject
    [ ("title", JString task.(title));
      ("status", JString (TaskStatus_value task.(status)));
      ("priority", JString (Priority_value task.(priority)));
      ("deadline", iso_or_null (option_map time task.(deadline))) ].

Definition assistantPrompt (userQuery : string) (recentTasks : list Task) : list Message :=
  [ mkMessage "system"
      ("You are a helpful productivity assistant in a task management app. " ++ nl ++
       indent ++ "You help users manage their time, prioritize tasks, and provide productivity tips." ++ nl ++
       indent ++ "Keep answers helpful, concise, and focused on task management and productivity." ++ nl ++
       indent ++ "Current user tasks: "
              ++ stringify (JArray (map recentSummary (firstn 5 recentTasks))) ++ nl ++
       indent ++ nl ++
       indent ++ "IMPORTANT: Respond with plain text only. Do not include any JSON formatting, code blocks, or special characters.");
    mkMessage "user" userQuery ].

Definition getAssistantResponse (userQuery : string) (recentTasks : list Task)
  : result string * Sent :=
  sendRequest (assistantPrompt userQuery recentTasks).

Definition scheduleSummary (task : Task) : json :=
  JObject
    [ ("title", JString task.(title));
      ("priority", JString (Priority_value task.(priority)));
      ("deadline", iso_or_null (option_map time task.(deadline))) ].

Definition schedulePrompt (ts : list Task) : list Message :=
  [ mkMessage "system"
      "You are a productivity assistant that helps schedule tasks optimally based on priority and deadlines.";
    mkMessage "user"
      ("Suggest an optimal schedule and task order for these tasks, considering priority and deadlines: "
         ++ stringify
              (JArray (map scheduleSummary
                         (filter (fun task => negb (TaskStatus_eqb task.(status) COMPLETED)) ts)))) ].

Definition suggestOptimalSchedule (ts : list Task) : result string * Sent :=
  sendRequest (schedulePrompt ts).

End WithEndpoint.
End AIService.

(* ================================================================== *)
(** ** The recommendation engine ([src/contexts/TaskAssistantContext.tsx]) *)
(* ================================================================== *)

Module TaskAssistantContext.

Inductive RecommendationType :=
| prioritization | scheduling | delegation | decomposition | pattern.

Definition RecommendationType_eqb (a b : RecommendationType) : bool :=
  match a, b with
  | prioritization, prioritization | scheduling, scheduling
  | delegation, delegation | decomposition, decomposition
  | pattern, pattern => true
  | _, _ => false
  end.

(** [has_action] tells whether the recommendation carries an [action]
    closure. *)
Record AssistantRecommendation := mkRecommendation {
  rec_id : string;
  rec_type : RecommendationType;
  message : string;
  actionText : string;
  has_action : bool;
  applied : bool;
  taskIds : list string
}.

Record TimeSlot := mkTimeSlot {
  slot_startTime : Instant;
  slot_endTime : Instant;
  productivity : Z;
  suggestion : string
}.

(** The provider's state. *)
Record Assistant := mkAssistant {
  recommendations : list AssistantRecommendation;
  optimalTimeSlots : list TimeSlot;
  aiInsights : string
}.

(** What one pass reads from outside: the endpoint and its configuration,
    the clock ([new Date()], [Date.now()]; one instant stands for all the
    readings of a pass), the offset of local time from UTC in milliseconds
    (fixed over the day), and the successive values of [Math.random()]. *)
Record Env := mkEnv {
  cfg : AIService.Config;
  fetch : list AIService.Message -> AIService.FetchOutcome;
  now : Instant;
  tzOffset : Z;
  random : nat -> Q
}.

(** Local time, for a fixed offset from UTC. *)
Definition msPerDay : Z := 86400000.
Definition startOfDay (tz : Z) (d : Instant) : Instant :=
  ((d + tz) / msPerDay) * msPerDay - tz.
Definition getHours (tz : Z) (d : Instant) : Z :=
  ((d + tz) mod msPerDay) / 3600000.
(** [d.setHours(h, m, s, ms)] *)
Definition setHours (tz : Z) (d : Instant) (h m s ms : Z) : Instant :=
  startOfDay tz d + h * 3600000 + m * 60000 + s * 1000 + ms.

Definition keywords : list string := ["report"; "email"; "meeting"; "design"].

Definition mentions (task : Task) (keyword : string) : bool :=
  orb (includes (toLowerCase task.(title)) keyword)
      (match task.(description) with
       | Some d => andb (truthy d) (includes (toLowerCase d) keyword)
       | None => false
       end).

Definition findSimilarTaskClusters (ts : list Task) : list Task :=
  flat_map (fun keyword =>
              let matches := filter (fun task => mentions task keyword) ts in
              if (2 <=? List.length matches)%nat then matches else [])
           keywords.

Definition suggestionFor (productivity : Z) : string :=
  if (8 <? productivity)%Z then "Focus on complex tasks"
  else if (5 <? productivity)%Z then "Good for moderate difficulty tasks"
  else "Best for simple tasks".

(** The body of the loop of [generateOptimalSchedule] for index [i];
    [r] is the value [Math.random()] returns there. *)
Definition slot (tz : Z) (now : Instant) (i : Z) (r : Q) : TimeSlot :=
  let startTime := setHours tz now (9 + i * 2) 0 0 0 in
  let endTime := setHours tz startTime (getHours tz startTime + 1) 30 0 0 in
  let productivity := Z.min 10 (Z.max 1 (5 + Qfloor (r * 5))) in
  mkTimeSlot startTime endTime productivity (suggestionFor productivity).

Definition generateOptimalSchedule (e : Env) (ts : list Task) : list TimeSlot :=
  map (fun i => slot e.(tzOffset) e.(now) (Z.of_nat i) (e.(random) i)) (seq 0 5).

Definition isOverdueHighPriority (now : Instant) (task : Task) : bool :=
  andb (andb (negb (TaskStatus_eqb task.(status) COMPLETED))
             (match task.(deadline) with
              | Some d => (d.(time) <? now)%Z
              | None => false
              end))
       (Priority_eqb task.(priority) HIGH).

Definition aiRecommendation (e : Env) (ts : list Task) : AssistantRecommendation :=
  mkRecommendation ("ai-insight-" ++ string_of_Z e.(now)) pattern
    "I've analyzed your tasks and found some productivity patterns and insights."
    "View AI Analysis" true false (map id ts).

Definition overdueRecommendation (e : Env) (overdue : list Task) : AssistantRecommendation :=
  mkRecommendation ("overdue-" ++ string_of_Z e.(now)) prioritization
    ("You have " ++ string_of_nat (List.length overdue)
       ++ " overdue high-priority tasks that need immediate attention.")
    "Focus on these first" true false (map id overdue).

Definition batchRecommendation (e : Env) (similar : list Task) : AssistantRecommendation :=
  mkRecommendation ("batch-" ++ string_of_Z e.(now)) pattern
    ("I've identified " ++ string_of_nat (List.length similar)
       ++ " similar tasks that could be batched together for better efficiency.")
    "Create task batch" false false (map id similar).

Definition scheduleRecommendation (e : Env) (ts : list Task) : AssistantRecommendation :=
  mkRecommendation ("schedule-" ++ string_of_Z e.(now)) scheduling
    "I've analyzed your productivity patterns and created an optimized schedule for your tasks."
    "View optimized schedule" false false (map id ts).

(** The recommendations one pass builds ([newRecommendations]), with the
    insight text when the gateway call resolved. *)
Definition newRecommendations (e : Env) (ts : list Task)
  : list AssistantRecommendation * option string :=
  let ai :=
    if (3 <=? List.length ts)%nat then
      match fst (AIService.analyzeTaskPatterns e.(cfg) e.(fetch) ts) with
      | Ok aiAnalysis => Some aiAnalysis
      | Throw _ => None
      end
    else None in
  let overdueHighPriorityTasks := filter (isOverdueHighPriority e.(now)) ts in
  let similarTasks := findSimilarTaskClusters ts in
  let optimizedSchedule := generateOptimalSchedule e ts in
  ((match ai with Some _ => [aiRecommendation e ts] | None => [] end)
   ++ (if (0 <? List.length overdueHighPriorityTasks)%nat
       then [overdueRecommendation e overdueHighPriorityTasks] else [])
   ++ (if (2 <? List.length similarTasks)%nat
       then [batchRecommendation e similarTasks] else [])
   ++ (if (0 <? List.length optimizedSchedule)%nat
       then [scheduleRecommendation e ts] else []),
   ai)%list.

Definition analyzeTasksAndGenerateRecommendations (e : Env) (ts : list Task)
  (a : Assistant) : Assistant :=
  let (fresh, ai) := newRecommendations e ts in
  mkAssistant (a.(recommendations) ++ fresh)
              (generateOptimalSchedule e ts)
              (match ai with Some text => text | None => a.(aiInsights) end).

(** The effect on [[tasks]]. *)
Definition onTasksChange (e : Env) (ts : list Task) (a : Assistant) : Assistant :=
  if (0 <? List.length ts)%nat then analyzeTasksAndGenerateRecommendations e ts a else a.

Definition applyRecommendation (i : string) (a : Assistant) : Assistant :=
  mkAssistant
    (map (fun r => if String.eqb r.(rec_id) i
                   then mkRecommendation r.(rec_id) r.(rec_type) r.(message)
                          r.(actionText) r.(has_action) true r.(taskIds)
                   else r) a.(recommendations))
    a.(optimalTimeSlots) a.(aiInsights).

Definition dismissRecommendation (i : string) (a : Assistant) : Assistant :=
  mkAssistant (filter (fun r => negb (String.eqb r.(rec_id) i)) a.(recommendations))
              a.(optimalTimeSlots) a.(aiInsights).

(** [generateTaskDecomposition]; the endpoint is the one of the
    environment. *)
Definition decompositionFallback (task : Task) : list json :=
  if includes (toLowerCase task.(title)) "report" then
    [ JString "Gather data for report"; JString "Create outline";
      JString "Write first draft"; JString "Add charts and visuals";
      JString "Review for errors"; JString "Share for feedback" ]
  else if includes (toLowerCase task.(title)) "meeting" then
    [ JString "Create agenda"; JString "Send invitations";
      JString "Prepare presentation"; JString "Set up meeting room/link";
      JString "Follow up with minutes" ]
  else
    [ JString ("Research " ++ task.(title)); JString "Create initial plan";
      JString "Execute main component"; JString "Review and refine";
      JString ("Finalize " ++ task.(title)) ].

Definition generateTaskDecomposition (e : Env) (ts : list Task) (taskId : string)
  : result (list json) * AIService.Sent :=
  match find (fun t => String.eqb t.(id) taskId) ts with
  | None => (Ok [], [])
  | Some task =>
      match AIService.decomposeTask e.(cfg) e.(fetch) task.(title) task.(description) with
      | (Ok subtasks, sent) => (Ok subtasks, sent)
      | (Throw _, sent) => (Ok (decompositionFallback task), sent)
      end
  end.

(** The test of [similarTaskHistory] on a candidate [t] for the task
    [task]. *)
Definition looksLike (task t : Task) : bool :=
  orb (includes (toLowerCase t.(title)) (toLowerCase task.(title)))
      (match task.(description), t.(description) with
       | Some d, Some d' =>
           andb (andb (truthy d) (truthy d'))
                (includes (toLowerCase d') (toLowerCase d))
       | _, _ => false
       end).

Definition similarTaskHistory (ts : list Task) (taskId : string) : list Task :=
  match find (fun t => String.eqb t.(id) taskId) ts with
  | None => []
  | Some task =>
      firstn 3 (filter (fun t => andb (negb (String.eqb t.(id) taskId)) (looksLike task t)) ts)
  end.

End TaskAssistantContext.

(* ================================================================== *)
(** ** The handlers of the task detail screen ([src/screens/TaskDetailScreen.tsx]) *)
(* ================================================================== *)

Module TaskDetailScreen.
Section WithPlatform.
Variable P : Platform.

(** [{ ...task, status: newStatus, updatedAt: now }] *)
Definition with_status (t : Task) (newStatus : TaskStatus) (now : Instant) : Task :=
  mkTask t.(id) t.(title) t.(description) newStatus t.(priority)
    t.(deadline) t.(startTime) t.(duration) t.(tags) t.(createdAt)
    now t.(createdBy) t.(assignedTo) t.(comments) t.(timeTracking)
    t.(recurrence) t.(calendarEventId) t.(notificationIds) t.(completedAt).

(** [{ ...task, comments: cs, updatedAt: now }] *)
Definition with_comments (t : Task) (cs : list Comment) (now : Instant) : Task :=
  mkTask t.(id) t.(title) t.(description) t.(status) t.(priority)
    t.(deadline) t.(startTime) t.(duration) t.(tags) t.(createdAt)
    now t.(createdBy) t.(assignedTo) (Some cs) t.(timeTracking)
    t.(recurrence) t.(calendarEventId) t.(notificationIds) t.(completedAt).

(** The screen shows the task [getTaskById(taskId)] of the current render;
    without it there is no handler to call.  [now] is the [new Date()] of
    the handler. *)
Definition handleUpdateStatus (taskId : string) (newStatus : TaskStatus) (now : Instant)
  : M unit :=
  w <- get ;;
  match TaskContext.getTaskById w.(tasks) taskId with
  | None => ret tt
  | Some task =>
      if TaskStatus_eqb task.(status) newStatus then ret tt
      else TaskContext.updateTask P (with_status task newStatus now)
  end.

(** [comment] is the text of the input field; [now] stands for
    [Date.now()] and for the two [new Date()]. *)
Definition handleAddComment (taskId : string) (comment : string) (now : Instant)
  : M unit :=
  w <- get ;;
  match TaskContext.getTaskById w.(tasks) taskId with
  | None => ret tt
  | Some task =>
      if negb (truthy (trim comment)) then ret tt
      else
        let newComment : Comment :=
          mkComment (string_of_Z now) (trim comment) (IsDate now)
                    "current-user-id" "Me" in
        let previous := match task.(comments) with Some cs => cs | None => [] end in
        TaskContext.updateTask P (with_comments task (previous ++ [newComment]) now)
  end.

End WithPlatform.
End TaskDetailScreen.

(* ================================================================== *)
(** ** Notions the properties are stated with *)
(* ================================================================== *)

Module Notions.
Import TaskContext.

(** What an adapter leaves alone: the collection, the dispatched actions
    and the stored file. *)
Definition frame (w w' : World) : Prop :=
  w'.(tasks) = w.(tasks) /\ w'.(pending) = w.(pending) /\ w'.(file) = w.(file)
  /\ w'.(next_obj) = w.(next_obj).

(** [m] only touches the adapters' side of the world, and settles in a
    way that satisfies [Q]. *)
Definition adapter {A} (m : M A) (Q : result A -> Prop) : Prop :=
  forall w, frame w (snd (m w)) /\ Q (fst (m w)).

Definition resolves {A} (r : result A) : Prop := exists a, r = Ok a.

(** The outcome is a value that satisfies [R]. *)
Definition yields {A} (R : A -> Prop) (r : result A) : Prop :=
  exists a, r = Ok a /\ R a.

(** [t'] is [t] up to the two references the store maintains. *)
Definition same_but_refs (t t' : Task) : Prop :=
  exists n e, t' = with_calendarEventId (with_notificationIds t n) e.

(** A session is open while it has no end. *)
Definition isOpen (s : Session) : bool :=
  match s.(s_endTime) with None => true | Some _ => false end.

Definition openSessions (t : Task) : list Session :=
  match t.(timeTracking) with
  | Some tr => filter isOpen tr.(sessions)
  | None => []
  end.

(** Every session but the last one is closed. *)
Definition wellTracked (t : Task) : Prop :=
  match t.(timeTracking) with
  | Some tr => forallb (fun s => negb (isOpen s)) (removelast tr.(sessions)) = true
  | None => True
  end.

(** At most one session is open, and an open session is the last element
    of the list. *)
Definition atMostOneOpenAndLast (t : Task) : Prop :=
  (List.length (openSessions t) <= 1)%nat
  /\ forall tr s, t.(timeTracking) = Some tr -> In s (filter isOpen tr.(sessions)) ->
                  lastSession tr.(sessions) = Some s.

(** The reducer's replacement of the task whose id is that of [payload]. *)
Definition replaceById (payload : Task) (ts : list Task) : list Task :=
  taskReducer ts (UPDATE_TASK payload).

(** The task [startTaskTimer] hands to [updateTask]. *)
Definition started (task : Task) (now : Instant) : Task :=
  let tracking := match task.(timeTracking) with
                  | Some tr => tr
                  | None => mkTimeTracking 0 []
                  end in
  with_timeTracking task
    (Some (mkTimeTracking tracking.(totalTimeSpent)
                          (tracking.(sessions) ++ [mkSession now None None]))).

(** The task [stopTaskTimer] hands to [updateTask], when it gets past its
    guards. *)
Definition stopped (task : Task) (now : Instant) : option Task :=
  match task.(timeTracking) with
  | None => None
  | Some tr =>
    match lastSession tr.(sessions) with
    | None => None
    | Some last =>
      match last.(s_endTime) with
      | Some _ => None
      | None =>
          let d := round_div (now - last.(s_startTime)) 60000 in
          Some (with_timeTracking task
                  (Some (mkTimeTracking (tr.(totalTimeSpent) + d)
                           (setLast tr.(sessions)
                              (mkSession last.(s_startTime) (Some now) (Some d))))))
      end
    end
  end.

(** The calls on the time-tracking module. *)
Inductive TimerCall :=
| Start (taskId : string) (now : Instant)
| Stop (taskId : string) (now : Instant).

Definition timerCall (P : Platform) (c : TimerCall) : M unit :=
  match c with
  | Start taskId now => startTaskTimer P taskId now
  | Stop taskId now => stopTaskTimer P taskId now
  end.

(** The world after a sequence of handlers, each awaited and followed by a
    render. *)
Fixpoint run (P : Platform) (calls : list TimerCall) (w : World) : World :=
  match calls with
  | [] => w
  | c :: rest => run P rest (snd (call P (timerCall P c) w))
  end.

(** [startTaskTimer] is never called on a task that has an open
    session. *)
Fixpoint stopsBeforeStarting (P : Platform) (calls : list TimerCall) (w : World) : Prop :=
  match calls with
  | [] => True
  | c :: rest =>
      match c with
      | Start taskId _ =>
          match getTaskById w.(tasks) taskId with
          | Some t => openSessions t = []
          | None => True
          end
      | Stop _ _ => True
      end
      /\ stopsBeforeStarting P rest (snd (call P (timerCall P c) w))
  end.

(** Writing a collection to storage and loading it in a new session of
    the application. *)
Definition persistAndReload (P : Platform) (ts : list Task) : list Task :=
  let saved := snd (saveEffect P (mkWorld ts [] None None [] [] 0)) in
  let fresh := mkWorld [] [] saved.(file) None [] [] 0 in
  (render P (snd (loadTasks P fresh))).(tasks).

(** The gateway is unusable: disabled, or without a credential. *)
Definition disabled (c : AIService.Config) : Prop :=
  c.(AIService.apiEnabled) = false \/ c.(AIService.apiKey) = EmptyString.

Definition ofType (ty : TaskAssistantContext.RecommendationType)
  (r : TaskAssistantContext.AssistantRecommendation) : bool :=
  TaskAssistantContext.RecommendationType_eqb r.(TaskAssistantContext.rec_type) ty.

(** [m], run on [w], resolves with [a] and leaves the world [w']. *)
Definition runs {A} (m : M A) (w : World) (a : A) (w' : World) : Prop :=
  m w = (Ok a, w').

(** From [w] to [w'] the device was called with [calls], in this order,
    and nothing else changed but possibly the console. *)
Definition advanced (w w' : World) (calls : list PlatformCall) : Prop :=
  w'.(trace) = (w.(trace) ++ calls)%list
  /\ w'.(tasks) = w.(tasks) /\ w'.(pending) = w.(pending) /\ w'.(file) = w.(file)
  /\ w'.(deviceCalendarId) = w.(deviceCalendarId)
  /\ w'.(next_obj) = w.(next_obj).

(** A calendar has been set up. *)
Definition calendarReady (w : World) : Prop :=
  truthy_opt w.(deviceCalendarId) = true.

(** The two reminders of a task due at [d]. *)
Definition reminderBefore (P : Platform) (task : Task) (d : Instant)
  : NotificationRequest :=
  mkNotification "Task Reminder"
    (dquote ++ task.(title) ++ dquote ++ " is due in 30 minutes")
    task.(id) (NotificationService.thirtyMinBefore P d).

Definition reminderDue (task : Task) (d : Instant) : NotificationRequest :=
  mkNotification "Task Due Now"
    (dquote ++ task.(title) ++ dquote ++ " is due now")
    task.(id) d.

(** The calendar event of a task due at [d], as created and as updated. *)
Definition eventCreated (P : Platform) (task : Task) (d : Instant) : EventDetails :=
  mkEvent task.(title) (match task.(description) with Some x => x | None => EmptyString end)
          d (CalendarService.plusOneHour P d) (Some P.(p_timeZone)) [-30].

Definition eventUpdated (P : Platform) (task : Task) (d : Instant) : EventDetails :=
  mkEvent task.(title) (match task.(description) with Some x => x | None => EmptyString end)
          d (CalendarService.plusOneHour P d) None [].

(** The local time thirty minutes before [d], and the local time an hour
    after [d], are read back with the offset in force at [d]: no change of
    offset lies in between. *)
Definition offsetKeptBefore (z : Date.TimeZone) (d : Instant) : Prop :=
  Date.localOffset z (d + Date.utcOffset z d - 1800000) = Date.utcOffset z d.

Definition offsetKeptAfter (z : Date.TimeZone) (d : Instant) : Prop :=
  Date.localOffset z (d + Date.utcOffset z d + 3600000) = Date.utcOffset z d.

Definition cancellations (ids : option (list string)) : list PlatformCall :=
  map CancelScheduledNotification (match ids with Some l => l | None => [] end).

(** The application is started again on the stored file. *)
Definition relaunch (P : Platform) (w : World) : World :=
  render P (snd (loadTasks P (mkWorld [] [] w.(file) None [] [] w.(next_obj)))).

(** [t] with the deadline held by another [Date] object. *)
Definition with_deadline_object (t : Task) (obj : nat) : Task :=
  mkTask t.(id) t.(title) t.(description) t.(status) t.(priority)
    (option_map (fun d => mkDateObj obj d.(time)) t.(deadline))
    t.(startTime) t.(duration) t.(tags) t.(createdAt)
    t.(updatedAt) t.(createdBy) t.(assignedTo) t.(comments) t.(timeTracking)
    t.(recurrence) t.(calendarEventId) t.(notificationIds) t.(completedAt).

(** No comment and no completion date: the task has no date field that
    [loadTasks] passes through. *)
Definition onlyConvertedDates (t : Task) : Prop :=
  t.(completedAt) = None /\ (t.(comments) = None \/ t.(comments) = Some []).

(** Every completion date is a [Date]. *)
Definition completionsAreDates (ts : list Task) : Prop :=
  forall t s, In t ts -> t.(completedAt) <> Some (IsString s).

(** The text has no backtick. *)
Fixpoint noBacktick (s : string) : bool :=
  match s with
  | EmptyString => true
  | String c r => andb (negb (Nat.eqb (nat_of_ascii c) 96)) (noBacktick r)
  end.

End Notions.
Import Notions.

(* ================================================================== *)
(** ** Sample data *)
(* ================================================================== *)

Module Samples.

(** A device on which everything works. *)
Definition device : Platform :=
  mkPlatform 1000 Ios "UTC" (Date.fixedZone 0)
    (Ok true) (fun r => Ok ("n" ++ string_of_Z r.(n_trigger))) (fun _ => Ok tt)
    (Ok true) (Ok [mkCalendar "cal" true true]) (Ok (mkCalendar "cal" true true))
    (fun _ => Ok "cal2") (fun _ _ => Ok "ev1") (fun _ _ => Ok tt) (fun _ => Ok tt)
    (fun _ => Ok tt) (Ok tt).

(** The same device with a disk that rejects every write. *)
Definition fullDisk : Platform :=
  mkPlatform 1000 Ios "UTC" (Date.fixedZone 0)
    (Ok true) (fun r => Ok ("n" ++ string_of_Z r.(n_trigger))) (fun _ => Ok tt)
    (Ok true) (Ok [mkCalendar "cal" true true]) (Ok (mkCalendar "cal" true true))
    (fun _ => Ok "cal2") (fun _ _ => Ok "ev1") (fun _ _ => Ok tt) (fun _ => Ok tt)
    (fun _ => Throw "ENOSPC") (Ok tt).

Definition plain (i : string) (ttl : string) (st : TaskStatus) (p : Priority)
  (dl : option DateObj) (updated : Instant) : Task :=
  mkTask i ttl None st p dl None None None 10 updated "current-user-id"
         None None None None None None None.

(** A task due at instant 5000000, with one reminder and a calendar
    event. *)
Definition report : Task :=
  with_calendarEventId
    (with_notificationIds
       (plain "t1" "Write report" TODO HIGH (Some (mkDateObj 1 5000000)) 1000)
       (Some ["n0"]))
    (Some "ev0").

(** The same task, edited: its deadline is another [Date] object at the
    same instant. *)
Definition reportSameInstant : Task :=
  with_calendarEventId
    (with_notificationIds
       (plain "t1" "Write report" TODO HIGH (Some (mkDateObj 2 5000000)) 2000)
       (Some ["n0"]))
    (Some "ev0").

(** The same task with an older [updatedAt]. *)
Definition reportStale : Task :=
  with_calendarEventId
    (with_notificationIds
       (plain "t1" "Write report" TODO HIGH (Some (mkDateObj 1 5000000)) 500)
       (Some ["n0"]))
    (Some "ev0").

Definition atRest (ts : list Task) : World := mkWorld ts [] None None [] [] 10.

(** A completed task with one comment. *)
Definition commented : Task :=
  mkTask "t2" "Send email" None COMPLETED LOW None None None None 10 20
         "current-user-id" None
         (Some [mkComment "c1" "done" (IsDate 15000) "current-user-id" "Me"])
         None None None None (Some (IsDate 20000)).

(** The timer of the report task is started at instant 1000000. *)
Definition timing : World :=
  snd (TaskContext.call device (TaskContext.startTaskTimer device "t1" 1000000)
         (atRest [report])).

Definition startStopStart : list TimerCall :=
  [Start "t1" 1000000; Stop "t1" 1125000; Start "t1" 1200000].

Definition gatewayOn : AIService.Config := AIService.mkConfig "sk-or-v1" true.
Definition gatewayOff : AIService.Config := AIService.mkConfig "sk-or-v1" false.

Definition offline (_ : list AIService.Message) : AIService.FetchOutcome :=
  AIService.NetworkFailure.

Definition answering (text : string) (_ : list AIService.Message)
  : AIService.FetchOutcome :=
  AIService.Response 200 (AIService.Completion text).

(** Three tasks at instant 100000000; the first is high priority, to do,
    and was due a day before. *)
Definition threeTasks : list Task :=
  [ plain "a" "Pay invoice" TODO HIGH (Some (mkDateObj 1 13600000)) 10;
    plain "b" "Book flights" TODO MEDIUM (Some (mkDateObj 2 200000000)) 10;
    plain "c" "Call plumber" IN_PROGRESS LOW None 10 ].

Definition engineEnv : TaskAssistantContext.Env :=
  TaskAssistantContext.mkEnv gatewayOff offline 100000000 0 (fun _ => 1 # 2).

Definition emptyAssistant : TaskAssistantContext.Assistant :=
  TaskAssistantContext.mkAssistant [] [] EmptyString.

(** A world in which the calendar service already holds a calendar. *)
Definition calendarSet (ts : list Task) : World :=
  mkWorld ts [] None (Some "cal") [] [] 10.

(** A world whose file holds the collection. *)
Definition saved (ts : list Task) : World :=
  mkWorld ts [] (Some (TaskContext.JSON_stringify ts)) None [] [] 10.

(** A device that refuses the notification and the calendar permissions. *)
Definition refusing : Platform :=
  mkPlatform 1000 Ios "UTC" (Date.fixedZone 0)
    (Ok false) (fun r => Ok ("n" ++ string_of_Z r.(n_trigger))) (fun _ => Ok tt)
    (Ok false) (Ok [mkCalendar "cal" true true]) (Ok (mkCalendar "cal" true true))
    (fun _ => Ok "cal2") (fun _ _ => Ok "ev1") (fun _ _ => Ok tt) (fun _ => Ok tt)
    (fun _ => Ok tt) (Ok tt).

(** A device whose scheduler rejects the reminder for the deadline
    itself. *)
Definition rejectingDue : Platform :=
  mkPlatform 1000 Ios "UTC" (Date.fixedZone 0)
    (Ok true)
    (fun r => if String.eqb r.(n_title) "Task Due Now" then Throw "scheduler"
              else Ok ("n" ++ string_of_Z r.(n_trigger)))
    (fun _ => Ok tt)
    (Ok true) (Ok [mkCalendar "cal" true true]) (Ok (mkCalendar "cal" true true))
    (fun _ => Ok "cal2") (fun _ _ => Ok "ev1") (fun _ _ => Ok tt) (fun _ => Ok tt)
    (fun _ => Ok tt) (Ok tt).

(** The report task edited to be due at instant 9000000, and edited to
    have no deadline. *)
Definition reportMoved : Task :=
  plain "t1" "Write report" TODO HIGH (Some (mkDateObj 2 9000000)) 2000.

Definition reportUndated : Task :=
  plain "t1" "Write report" TODO HIGH None 2000.

(** A new task, due at instant 7000000. *)
Definition errand : Task :=
  plain "t3" "Buy milk" TODO LOW (Some (mkDateObj 3 7000000)) 10.

(** An array of two subtasks, and the lines between the fences of a
    response that holds it. *)
Definition twoSubtasks : string :=
  "[" ++ dquote ++ "Plan" ++ dquote ++ ", " ++ dquote ++ "Ship" ++ dquote ++ "]".

Definition fencedLines : string := nl ++ twoSubtasks ++ nl.


(** New York around the end of daylight saving time in 2026: at
    06:00 UTC on the first of November (instant 1793512800000) the offset
    goes from four to five hours behind UTC.  A local time that occurs
    twice is read back with the offset before the change. *)
Definition newYork : Date.TimeZone :=
  Date.mkTimeZone
    (fun t => if (t <? 1793512800000)%Z then -14400000 else -18000000)
    (fun l => if (l <? 1793512800000 - 14400000)%Z then -14400000 else -18000000).

(** A device in New York at 05:00 UTC of that day. *)
Definition inNewYork : Platform :=
  mkPlatform 1793509200000 Ios "America/New_York" newYork
    (Ok true) (fun r => Ok ("n" ++ string_of_Z r.(n_trigger))) (fun _ => Ok tt)
    (Ok true) (Ok [mkCalendar "cal" true true]) (Ok (mkCalendar "cal" true true))
    (fun _ => Ok "cal2") (fun _ _ => Ok "ev1") (fun _ _ => Ok tt) (fun _ => Ok tt)
    (fun _ => Ok tt) (Ok tt).

(** A task due at 06:15 UTC of that day, a quarter past one in the
    morning for the second time. *)
Definition nightly : Task :=
  plain "t4" "Back up" TODO LOW (Some (mkDateObj 4 1793513700000)) 10.

(** A comment made of a no-break space only, and one with text between a
    no-break space and a byte order mark. *)
Definition nbsp : string := String (ascii_of_nat 194) (String (ascii_of_nat 160) EmptyString).
Definition bom : string :=
  String (ascii_of_nat 239) (String (ascii_of_nat 187) (String (ascii_of_nat 191) EmptyString)).

End Samples.

(* ================================================================== *)
(** ** Properties of the adapters *)
(* ================================================================== *)

Section AdapterRules.
Context {A B : Type}.

Lemma frame_refl (w : World) : frame w w.
Proof. repeat split. Qed.

Lemma frame_trans (w1 w2 w3 : World) : frame w1 w2 -> frame w2 w3 -> frame w1 w3.
Proof.
  unfold frame. intros (a1 & a2 & a3 & a4) (b1 & b2 & b3 & b4).
  repeat split; congruence.
Qed.

Lemma adapter_ret (a : A) (Q : result A -> Prop) : Q (Ok a) -> adapter (ret a) Q.
Proof. intros H w. split; [apply frame_refl | exact H]. Qed.

Lemma adapter_weaken (m : M A) (Q Q' : result A -> Prop) :
  adapter m Q -> (forall r, Q r -> Q' r) -> adapter m Q'.
Proof. intros H HQ w. destruct (H w). auto. Qed.

Lemma adapter_bind (m : M A) (k : A -> M B) (Q1 : result A -> Prop)
      (Q2 : result B -> Prop) :
  adapter m Q1 ->
  (forall a, Q1 (Ok a) -> adapter (k a) Q2) ->
  (forall e, Q1 (Throw e) -> Q2 (Throw e)) ->
  adapter (bind m k) Q2.
Proof.
  intros Hm Hk He w. unfold bind.
  destruct (Hm w) as [Hf Hq]. destruct (m w) as [[a | e] w1]; cbn in *.
  - destruct (Hk a Hq w1) as [Hf' Hq']. split; [eapply frame_trans; eauto | exact Hq'].
  - split; [exact Hf | apply He, Hq].
Qed.

Lemma adapter_try_catch (m : M A) (h : string -> M A) (Q1 Q2 : result A -> Prop) :
  adapter m Q1 ->
  (forall a, Q1 (Ok a) -> Q2 (Ok a)) ->
  (forall e, Q1 (Throw e) -> adapter (h e) Q2) ->
  adapter (try_catch m h) Q2.
Proof.
  intros Hm Hok Hh w. unfold try_catch.
  destruct (Hm w) as [Hf Hq]. destruct (m w) as [[a | e] w1]; cbn in *.
  - split; [exact Hf | apply Hok, Hq].
  - destruct (Hh e Hq w1) as [Hf' Hq']. split; [eapply frame_trans; eauto | exact Hq'].
Qed.

Lemma adapter_platform (c : PlatformCall) (answer : result A) :
  adapter (platform c answer) (fun _ => True).
Proof. intros w. split; [repeat split | exact I]. Qed.

End AdapterRules.

Lemma adapter_console_error (tag : string) :
  adapter (console_error tag) resolves.
Proof. intros w. split; [repeat split | exists tt; reflexivity]. Qed.

Lemma adapter_get : adapter get resolves.
Proof. intros w. split; [apply frame_refl | exists w; reflexivity]. Qed.

Lemma adapter_setDeviceCalendarId (c : string) :
  adapter (CalendarService.setDeviceCalendarId c) resolves.
Proof. intros w. split; [repeat split | exists tt; reflexivity]. Qed.

(** A [catch] that logs and returns a value absorbs every exception. *)
Lemma adapter_absorb {A} (m : M A) (tag : string) (a : A) :
  adapter m (fun _ => True) ->
  adapter (try_catch m (fun _ => console_error tag ;;; ret a)) resolves.
Proof.
  intros Hm. eapply adapter_try_catch; [exact Hm | |].
  - intros x _. exists x. reflexivity.
  - intros e _. eapply adapter_bind; [apply adapter_console_error | |].
    + intros _ _. apply adapter_ret. exists a. reflexivity.
    + intros e' [x Hx]. discriminate.
Qed.

Lemma resolves_any {A} (m : M A) : adapter m resolves -> adapter m (fun _ => True).
Proof. intros H. eapply adapter_weaken; [exact H | auto]. Qed.

(** Sequencing two steps about whose outcome nothing is claimed. *)
Lemma adapter_seq {A B} (m : M A) (k : A -> M B) :
  adapter m (fun _ => True) ->
  (forall a, adapter (k a) (fun _ => True)) ->
  adapter (bind m k) (fun _ => True).
Proof. intros Hm Hk. eapply adapter_bind; eauto. Qed.

Create HintDb effects.

#[local] Hint Resolve adapter_platform adapter_get adapter_console_error
  resolves_any adapter_setDeviceCalendarId : effects.

(** Walks through the code of an adapter: sequencing, branches, device
    calls and absorbed exceptions. *)
Ltac quiet :=
  repeat
    match goal with
    | |- adapter (bind _ _) (fun _ => True) => apply adapter_seq; [ | intros ? ]
    | |- adapter (ret _) (fun _ => True) => apply adapter_ret; exact I
    | |- adapter (platform _ _) _ => apply adapter_platform
    | |- adapter (try_catch _ (fun _ => console_error _ ;;; ret _)) (fun _ => True) =>
        apply resolves_any, adapter_absorb
    | |- adapter (if ?b then _ else _) _ => destruct b
    | |- adapter (match ?x with _ => _ end) _ => destruct x
    | |- adapter _ (fun _ => True) => solve [ auto with effects ]
    end.

Section Adapters.
Variable P : Platform.

Lemma requestPermissions_resolves :
  adapter (NotificationService.requestPermissions P) resolves.
Proof. apply adapter_absorb. quiet. Qed.

Lemma scheduleTaskReminder_resolves (task : Task) :
  adapter (NotificationService.scheduleTaskReminder P task) resolves.
Proof.
  unfold NotificationService.scheduleTaskReminder.
  destruct (deadline task).
  - apply adapter_absorb.
    unfold NotificationService.requestPermissions,
      NotificationService.scheduleNotificationAsync.
    quiet.
  - apply adapter_ret. exists []. reflexivity.
Qed.

Lemma cancelAll_quiet (ids : list string) :
  adapter (NotificationService.cancelAll P ids) (fun _ => True).
Proof.
  induction ids as [| i rest IH]; cbn.
  - quiet.
  - intros w. split; [ | exact I ].
    destruct (IH (set_trace w (trace w ++ [CancelScheduledNotification i]))) as [Hf _].
    destruct (NotificationService.cancelAll P rest
                (set_trace w (trace w ++ [CancelScheduledNotification i])))
      as [rs w2]. cbn in *.
    eapply frame_trans; [ | exact Hf ]. repeat split.
Qed.

Lemma cancelTaskReminders_resolves (ids : list string) :
  adapter (NotificationService.cancelTaskReminders P ids) resolves.
Proof.
  eapply adapter_try_catch; [apply cancelAll_quiet | |].
  - intros [] _. exists tt. reflexivity.
  - intros e _. apply adapter_console_error.
Qed.

Lemma requestCalendarPermissions_resolves :
  adapter (CalendarService.requestCalendarPermissions P) resolves.
Proof. apply adapter_absorb. quiet. Qed.

Lemma createCalendar_resolves : adapter (CalendarService.createCalendar P) resolves.
Proof. apply adapter_absorb. quiet. Qed.

Lemma setupCalendar_resolves : adapter (CalendarService.setupCalendar P) resolves.
Proof.
  apply adapter_absorb.
  unfold CalendarService.requestCalendarPermissions, CalendarService.createCalendar.
  quiet.
Qed.

Lemma ensureCalendar_quiet : adapter (CalendarService.ensureCalendar P) (fun _ => True).
Proof.
  unfold CalendarService.ensureCalendar. quiet.
  apply resolves_any, setupCalendar_resolves.
Qed.

Lemma addTaskToCalendar_resolves (task : Task) :
  adapter (CalendarService.addTaskToCalendar P task) resolves.
Proof.
  unfold CalendarService.addTaskToCalendar. destruct (deadline task).
  - apply adapter_absorb. quiet; apply ensureCalendar_quiet.
  - apply adapter_ret. exists None. reflexivity.
Qed.

Lemma updateTaskInCalendar_resolves (task : Task) (eventId : string) :
  adapter (CalendarService.updateTaskInCalendar P task eventId) resolves.
Proof.
  unfold CalendarService.updateTaskInCalendar. destruct (deadline task).
  - destruct (negb (truthy eventId)).
    + apply adapter_ret. exists false. reflexivity.
    + apply adapter_absorb. quiet; apply ensureCalendar_quiet.
  - apply adapter_ret. exists false. reflexivity.
Qed.

Lemma removeTaskFromCalendar_resolves (eventId : string) :
  adapter (CalendarService.removeTaskFromCalendar P eventId) resolves.
Proof. apply adapter_absorb. quiet; apply ensureCalendar_quiet. Qed.

End Adapters.

(* ================================================================== *)
(** ** Properties of the task store *)
(* ================================================================== *)

Section Store.
Variable P : Platform.
Import TaskContext.

Lemma adapter_bind_yields {A B} (m : M A) (k : A -> M B) (R : A -> Prop)
      (Q : result B -> Prop) :
  adapter m (yields R) ->
  (forall a, R a -> adapter (k a) Q) ->
  adapter (bind m k) Q.
Proof.
  intros Hm Hk. eapply adapter_bind; [exact Hm | |].
  - intros a (a' & Ha & HR). injection Ha as <-. auto.
  - intros e (a' & Ha & _). discriminate.
Qed.

Lemma adapter_bind_resolves {A B} (m : M A) (k : A -> M B) (Q : result B -> Prop) :
  adapter m resolves ->
  (forall a, adapter (k a) Q) ->
  adapter (bind m k) Q.
Proof.
  intros Hm Hk. eapply adapter_bind; [exact Hm | auto |].
  intros e (a' & Ha). discriminate.
Qed.

Lemma adapter_yield {A} (a : A) (R : A -> Prop) : R a -> adapter (ret a) (yields R).
Proof. intros H. apply adapter_ret. exists a. auto. Qed.

Lemma with_notificationIds_same (t : Task) : with_notificationIds t (notificationIds t) = t.
Proof. destruct t; reflexivity. Qed.

Lemma with_calendarEventId_same (t : Task) : with_calendarEventId t (calendarEventId t) = t.
Proof. destruct t; reflexivity. Qed.

Lemma same_but_refs_refl (t : Task) : same_but_refs t t.
Proof.
  exists (notificationIds t), (calendarEventId t).
  now rewrite with_notificationIds_same, with_calendarEventId_same.
Qed.

Lemma same_but_refs_event (t : Task) n e :
  same_but_refs t (with_calendarEventId (with_notificationIds t n) e).
Proof. exists n, e. reflexivity. Qed.

Lemma same_but_refs_ids (t : Task) n : same_but_refs t (with_notificationIds t n).
Proof.
  exists n, (calendarEventId t). destruct t; reflexivity.
Qed.

(** The references a mutation sets are the only fields it changes. *)
Lemma same_but_refs_fields (t t' : Task) :
  same_but_refs t t' ->
  id t' = id t /\ updatedAt t' = updatedAt t /\ createdAt t' = createdAt t
  /\ deadline t' = deadline t /\ timeTracking t' = timeTracking t
  /\ title t' = title t /\ status t' = status t /\ priority t' = priority t
  /\ comments t' = comments t /\ completedAt t' = completedAt t.
Proof. intros (n & e & ->). destruct t; cbn. repeat split. Qed.

(** A mutation's shape: adapter work that produces the payload, then one
    dispatch; a failure would be logged and thrown again. *)
Lemma store_step {A} (m : M A) (R : A -> Prop) (k : A -> Action) (tag : string) :
  adapter m (yields R) ->
  forall w, exists a w',
    try_catch (bind m (fun a => dispatch (k a)))
              (fun error => console_error tag ;;; throw error) w = (Ok tt, w')
    /\ R a /\ tasks w' = tasks w /\ pending w' = (pending w ++ [k a])%list
    /\ file w' = file w /\ next_obj w' = next_obj w.
Proof.
  intros Hm w. unfold try_catch, bind.
  destruct (Hm w) as [(f1 & f2 & f3 & f4) (a & Ha & HR)].
  destruct (m w) as [r w1]. cbn in *. subst r. cbn.
  exists a. eexists. split; [reflexivity|]. cbn. repeat split; auto. congruence.
Qed.

Lemma try_catch_get {A} (f : World -> M A) (h : string -> M A) (w : World) :
  try_catch (bind get f) h w = try_catch (f w) h w.
Proof. reflexivity. Qed.

Lemma cancel_old_resolves (ids : option (list string)) :
  adapter (match nonempty_ids ids with
           | Some l => NotificationService.cancelTaskReminders P l
           | None => ret tt
           end) resolves.
Proof.
  destruct (nonempty_ids ids).
  - apply cancelTaskReminders_resolves.
  - apply adapter_ret. exists tt. reflexivity.
Qed.

Lemma updateTask_spec (task : Task) (w : World) :
  exists task3 w',
    updateTask P task w = (Ok tt, w')
    /\ same_but_refs task task3
    /\ tasks w' = tasks w /\ pending w' = (pending w ++ [UPDATE_TASK task3])%list
    /\ file w' = file w /\ next_obj w' = next_obj w.
Proof.
  unfold updateTask. rewrite try_catch_get.
  apply (store_step _ (same_but_refs task) UPDATE_TASK).
  destruct (getTaskById (tasks w) (id task)) as [oldTask |];
    [ | apply adapter_yield, same_but_refs_refl ].
  destruct (strict_neq (deadline task) (deadline oldTask));
    [ | apply adapter_yield, same_but_refs_refl ].
  apply adapter_bind_resolves; [apply cancel_old_resolves | intros _].
  apply (adapter_bind_yields _ _ (fun t1 => exists n, t1 = with_notificationIds task n)).
  - destruct (deadline task).
    + apply adapter_bind_resolves; [apply scheduleTaskReminder_resolves | intros ids].
      apply adapter_yield. destruct ids; eauto.
      exists (notificationIds task). now rewrite with_notificationIds_same.
    + apply adapter_yield. exists (notificationIds task).
      now rewrite with_notificationIds_same.
  - intros t1 (n & ->).
    destruct (deadline (with_notificationIds task n));
      destruct (truthy_opt (calendarEventId oldTask)).
    + apply adapter_bind_resolves; [apply updateTaskInCalendar_resolves | intros _].
      apply adapter_yield, same_but_refs_event.
    + apply adapter_bind_resolves; [apply addTaskToCalendar_resolves | intros e].
      apply adapter_yield. destruct (truthy_opt e).
      * apply same_but_refs_event.
      * apply same_but_refs_ids.
    + apply adapter_bind_resolves; [apply removeTaskFromCalendar_resolves | intros _].
      apply adapter_yield, same_but_refs_event.
    + apply adapter_yield, same_but_refs_ids.
Qed.

Lemma addTask_spec (task : Task) (w : World) :
  exists task2 w',
    addTask P task w = (Ok tt, w')
    /\ same_but_refs task task2
    /\ tasks w' = tasks w /\ pending w' = (pending w ++ [ADD_TASK task2])%list
    /\ file w' = file w /\ next_obj w' = next_obj w.
Proof.
  unfold addTask.
  apply (store_step _ (same_but_refs task) ADD_TASK).
  destruct (deadline task); [ | apply adapter_yield, same_but_refs_refl ].
  apply adapter_bind_resolves; [apply addTaskToCalendar_resolves | intros e].
  apply adapter_bind_resolves; [apply scheduleTaskReminder_resolves | intros ids].
  apply adapter_yield.
  destruct (truthy_opt e), ids.
  - exists (notificationIds task), e. destruct task; reflexivity.
  - exists (Some (s :: ids)), e. destruct task; reflexivity.
  - apply same_but_refs_refl.
  - apply same_but_refs_ids.
Qed.

Lemma deleteTask_spec (i : string) (w : World) :
  exists w',
    deleteTask P i w = (Ok tt, w')
    /\ tasks w' = tasks w /\ pending w' = (pending w ++ [DELETE_TASK i])%list
    /\ file w' = file w /\ next_obj w' = next_obj w.
Proof.
  unfold deleteTask. rewrite try_catch_get.
  destruct (store_step
              (match getTaskById (tasks w) i with
               | Some taskToDelete =>
                   match nonempty_ids taskToDelete.(notificationIds) with
                   | Some ids => NotificationService.cancelTaskReminders P ids
                   | None => ret tt
                   end ;;;
                   if truthy_opt taskToDelete.(calendarEventId) then
                     CalendarService.removeTaskFromCalendar P
                       (match taskToDelete.(calendarEventId) with
                        | Some e => e | None => EmptyString end) ;;;
                     ret tt
                   else ret tt
               | None => ret tt
               end)
              (fun _ => True) (fun _ => DELETE_TASK i) "Error deleting task:")
    with (w := w) as (a & w' & H).
  - destruct (getTaskById (tasks w) i) as [t |]; [ | apply adapter_yield; exact I ].
    apply adapter_bind_resolves; [apply cancel_old_resolves | intros _].
    destruct (truthy_opt (calendarEventId t)); [ | apply adapter_yield; exact I ].
    apply adapter_bind_resolves; [apply removeTaskFromCalendar_resolves | intros _].
    apply adapter_yield; exact I.
  - exists w'. tauto.
Qed.

End Store.

(* ================================================================== *)
(** ** Rendering and persistence *)
(* ================================================================== *)

Section Rendering.
Variable P : Platform.
Import TaskContext.

(** [saveTasks] absorbs every failure of the write. *)
Lemma saveTasks_absorbs (w : World) :
  exists w', saveTasks P w = (Ok tt, w')
             /\ tasks w' = tasks w /\ pending w' = pending w /\ trace w' = trace w
             /\ next_obj w' = next_obj w.
Proof.
  unfold saveTasks, bind, get, try_catch, writeAsStringAsync.
  destruct (fs_write P (JSON_stringify (tasks w))) as [[] | e]; cbn;
    eexists; (split; [reflexivity | cbn; repeat split]).
Qed.

Lemma saveEffect_absorbs (w : World) :
  exists w', saveEffect P w = (Ok tt, w')
             /\ tasks w' = tasks w /\ pending w' = pending w /\ trace w' = trace w
             /\ next_obj w' = next_obj w.
Proof.
  unfold saveEffect, bind, get.
  destruct (0 <? List.length (tasks w))%nat.
  - apply saveTasks_absorbs.
  - exists w. repeat split.
Qed.

Lemma render_spec (w : World) :
  tasks (render P w) = fold_left taskReducer (pending w) (tasks w)
  /\ pending (render P w) = []
  /\ trace (render P w) = trace w
  /\ next_obj (render P w) = next_obj w.
Proof.
  unfold render. destruct (pending w) as [| a rest] eqn:Hp.
  - cbn. auto.
  - destruct (saveEffect_absorbs
                (set_pending (set_tasks w (fold_left taskReducer (a :: rest) (tasks w))) []))
      as (w' & -> & Ht & Hq & Htr & Hn).
    cbn in *. auto.
Qed.

(** What a handler observes of a mutation that dispatches one action on
    a world at rest. *)
Lemma call_dispatching {A} (m : M A) (w w1 : World) (r : result A) (a : Action) :
  pending w = [] ->
  m w = (r, w1) ->
  tasks w1 = tasks w ->
  pending w1 = (pending w ++ [a])%list ->
  fst (call P m w) = r
  /\ tasks (snd (call P m w)) = taskReducer (tasks w) a
  /\ pending (snd (call P m w)) = []
  /\ trace (snd (call P m w)) = trace w1.
Proof.
  intros Hp Hm Ht Hq. unfold call. rewrite Hm. cbn.
  destruct (render_spec w1) as (R1 & R2 & R3 & _).
  rewrite R1, R2, R3, Hq, Hp, Ht. cbn. auto.
Qed.

Lemma call_silent {A} (m : M A) (w : World) (r : result A) :
  pending w = [] ->
  m w = (r, w) ->
  call P m w = (r, w).
Proof.
  intros Hp Hm. unfold call. rewrite Hm. unfold render. now rewrite Hp.
Qed.

End Rendering.

(* ================================================================== *)
(** ** Properties of the time-tracking module *)
(* ================================================================== *)

Section Timers.
Variable P : Platform.
Import TaskContext.

Lemma getTaskById_id (ts : list Task) (i : string) (t : Task) :
  getTaskById ts i = Some t -> id t = i.
Proof.
  intros H. apply find_some in H as [_ H]. now apply String.eqb_eq.
Qed.

Lemma getTaskById_In (ts : list Task) (i : string) (t : Task) :
  getTaskById ts i = Some t -> In t ts.
Proof. intros H. now apply find_some in H. Qed.

Lemma strict_neq_refl (d : option DateObj) : strict_neq d d = false.
Proof. destruct d as [[o t] |]; cbn; [ now rewrite Nat.eqb_refl | reflexivity ]. Qed.

(** When the new task carries the very [Date] object of the stored one
    (or neither has a deadline), [updateTask] goes straight to the
    dispatch. *)
Lemma updateTask_identical_deadline (task old : Task) (w : World) :
  getTaskById (tasks w) (id task) = Some old ->
  strict_neq (deadline task) (deadline old) = false ->
  updateTask P task w = (Ok tt, set_pending w (pending w ++ [UPDATE_TASK task])).
Proof.
  intros Hold Hsame. unfold updateTask. rewrite try_catch_get.
  rewrite Hold, Hsame. reflexivity.
Qed.

(** After a replacement, looking the id up gives the payload. *)
Lemma getTaskById_replaceById (ts : list Task) (payload old : Task) :
  getTaskById ts (id payload) = Some old ->
  getTaskById (replaceById payload ts) (id payload) = Some payload.
Proof.
  unfold getTaskById, replaceById, taskReducer.
  induction ts as [| t rest IH]; cbn; [discriminate |].
  destruct (String.eqb (id t) (id payload)) eqn:E.
  - intros _. cbn. now rewrite String.eqb_refl.
  - intros H. cbn. rewrite E. auto.
Qed.

Lemma In_replaceById (ts : list Task) (payload t : Task) :
  In t (replaceById payload ts) -> t = payload \/ In t ts.
Proof.
  unfold replaceById, taskReducer. rewrite in_map_iff.
  intros (x & Hx & Hin). destruct (String.eqb (id x) (id payload)); subst; auto.
Qed.


(** A payload built from the stored task keeps its id and its deadline
    object, so storing it takes no adapter work. *)
Lemma call_updateTask_derived (task payload : Task) (w : World) :
  pending w = [] ->
  getTaskById (tasks w) (id task) = Some task ->
  id payload = id task ->
  deadline payload = deadline task ->
  fst (call P (updateTask P payload) w) = Ok tt
  /\ tasks (snd (call P (updateTask P payload) w)) = replaceById payload (tasks w)
  /\ pending (snd (call P (updateTask P payload) w)) = []
  /\ trace (snd (call P (updateTask P payload) w)) = trace w.
Proof.
  intros Hp Hfind Hid Hdl.
  assert (Hu : updateTask P payload w
               = (Ok tt, set_pending w (pending w ++ [UPDATE_TASK payload]))).
  { apply updateTask_identical_deadline with (old := task).
    - now rewrite Hid.
    - rewrite Hdl. apply strict_neq_refl. }
  destruct (call_dispatching P (updateTask P payload) w _ _ (UPDATE_TASK payload) Hp Hu)
    as (C1 & C2 & C3 & C4); try reflexivity.
  repeat split; assumption.
Qed.

Lemma getTaskById_self (ts : list Task) (i : string) (t : Task) :
  getTaskById ts i = Some t -> getTaskById ts (id t) = Some t.
Proof. intros H. now rewrite (getTaskById_id _ _ _ H). Qed.

Lemma startTaskTimer_call (taskId : string) (now : Instant) (task : Task) (w : World) :
  pending w = [] ->
  getTaskById (tasks w) taskId = Some task ->
  let w' := snd (call P (startTaskTimer P taskId now) w) in
  fst (call P (startTaskTimer P taskId now) w) = Ok tt
  /\ tasks w' = replaceById (started task now) (tasks w)
  /\ pending w' = [] /\ trace w' = trace w.
Proof.
  intros Hp Hfind.
  assert (E : forall w0, w0 = w ->
                startTaskTimer P taskId now w0 = updateTask P (started task now) w0).
  { intros w0 ->. unfold startTaskTimer, bind, get. now rewrite Hfind. }
  unfold call. rewrite (E w eq_refl).
  apply (call_updateTask_derived task (started task now) w Hp
           (getTaskById_self _ _ _ Hfind)); destruct task; reflexivity.
Qed.

Lemma startTaskTimer_missing (taskId : string) (now : Instant) (w : World) :
  pending w = [] ->
  getTaskById (tasks w) taskId = None ->
  call P (startTaskTimer P taskId now) w = (Ok tt, w).
Proof.
  intros Hp Hfind. apply call_silent; [exact Hp |].
  unfold startTaskTimer, bind, get. now rewrite Hfind.
Qed.

Lemma stopped_fields (task u : Task) (now : Instant) :
  stopped task now = Some u ->
  id u = id task /\ deadline u = deadline task /\ updatedAt u = updatedAt task.
Proof.
  unfold stopped. destruct (timeTracking task) as [tr |]; [ | discriminate ].
  destruct (lastSession (sessions tr)) as [l |]; [ | discriminate ].
  destruct (s_endTime l); [ discriminate | ].
  intros [= <-]. destruct task; cbn. auto.
Qed.

Lemma stopTaskTimer_eq (taskId : string) (now : Instant) (task : Task) (w : World) :
  getTaskById (tasks w) taskId = Some task ->
  stopTaskTimer P taskId now w
  = match stopped task now with
    | Some u => updateTask P u w
    | None => (Ok tt, w)
    end.
Proof.
  intros Hfind. unfold stopTaskTimer, stopped, bind, get. rewrite Hfind.
  destruct (timeTracking task) as [tr |]; [ | reflexivity ].
  destruct (lastSession (sessions tr)) as [l |]; [ | reflexivity ].
  destruct (s_endTime l); reflexivity.
Qed.

Lemma stopTaskTimer_call (taskId : string) (now : Instant) (task u : Task) (w : World) :
  pending w = [] ->
  getTaskById (tasks w) taskId = Some task ->
  stopped task now = Some u ->
  let w' := snd (call P (stopTaskTimer P taskId now) w) in
  fst (call P (stopTaskTimer P taskId now) w) = Ok tt
  /\ tasks w' = replaceById u (tasks w)
  /\ pending w' = [] /\ trace w' = trace w.
Proof.
  intros Hp Hfind Hu.
  unfold call. rewrite (stopTaskTimer_eq _ _ _ _ Hfind), Hu.
  destruct (stopped_fields _ _ _ Hu) as (Hid & Hdl & _).
  apply (call_updateTask_derived task u w Hp (getTaskById_self _ _ _ Hfind) Hid Hdl).
Qed.

Lemma stopTaskTimer_guarded (taskId : string) (now : Instant) (w : World) :
  pending w = [] ->
  match getTaskById (tasks w) taskId with
  | Some task => stopped task now = None
  | None => True
  end ->
  call P (stopTaskTimer P taskId now) w = (Ok tt, w).
Proof.
  intros Hp H. apply call_silent; [exact Hp |].
  destruct (getTaskById (tasks w) taskId) as [task |] eqn:Hfind.
  - now rewrite (stopTaskTimer_eq _ _ _ _ Hfind), H.
  - unfold stopTaskTimer, bind, get. now rewrite Hfind.
Qed.

End Timers.

(* ================================================================== *)
(** ** Session lists *)
(* ================================================================== *)

Section Sessions.
Import TaskContext.

Lemma closed_no_open (l : list Session) :
  forallb (fun s => negb (isOpen s)) l = true <-> filter isOpen l = [].
Proof.
  induction l as [| s l IH]; cbn; [tauto |].
  destruct (isOpen s); cbn; [ split; discriminate | exact IH ].
Qed.

Lemma lastSession_snoc (l : list Session) (x : Session) :
  lastSession (l ++ [x]) = Some x.
Proof.
  unfold lastSession. rewrite length_app. cbn. rewrite Nat.add_1_r.
  rewrite nth_error_app2 by lia. now rewrite Nat.sub_diag.
Qed.

Lemma lastSession_split (l : list Session) (x : Session) :
  lastSession l = Some x -> l = (removelast l ++ [x])%list.
Proof.
  destruct l as [| a l'] using rev_ind; [discriminate |].
  rewrite lastSession_snoc. intros [= ->]. now rewrite removelast_last.
Qed.

Lemma setLast_removelast (l : list Session) (x : Session) :
  setLast l x = (removelast l ++ [x])%list.
Proof.
  unfold setLast. rewrite removelast_firstn_len.
  now replace (pred (List.length l)) with (List.length l - 1)%nat by lia.
Qed.

Lemma wellTracked_started (task : Task) (now : Instant) :
  openSessions task = [] -> wellTracked (started task now).
Proof.
  unfold openSessions, wellTracked, started. destruct task; cbn.
  destruct timeTracking0 as [tr |]; cbn.
  - intros H. rewrite removelast_last. now apply closed_no_open.
  - reflexivity.
Qed.

Lemma stopped_tracking (task u : Task) (now : Instant) :
  stopped task now = Some u ->
  exists tr last,
    timeTracking task = Some tr /\ lastSession (sessions tr) = Some last
    /\ s_endTime last = None
    /\ timeTracking u
       = Some (mkTimeTracking
                 (totalTimeSpent tr + round_div (now - s_startTime last) 60000)
                 (removelast (sessions tr)
                    ++ [mkSession (s_startTime last) (Some now)
                          (Some (round_div (now - s_startTime last) 60000))])).
Proof.
  unfold stopped. destruct (timeTracking task) as [tr |]; [ | discriminate ].
  destruct (lastSession (sessions tr)) as [l |] eqn:Hl; [ | discriminate ].
  destruct (s_endTime l) eqn:He; [ discriminate | ].
  intros [= <-]. exists tr, l. rewrite setLast_removelast.
  destruct task; cbn. auto.
Qed.

Lemma wellTracked_stopped (task u : Task) (now : Instant) :
  wellTracked task -> stopped task now = Some u -> wellTracked u.
Proof.
  intros Hwt Hu. destruct (stopped_tracking _ _ _ Hu) as (tr & l & Htr & _ & _ & Hu').
  unfold wellTracked in *. rewrite Hu'. rewrite Htr in Hwt. cbn.
  now rewrite removelast_last.
Qed.

Lemma open_sessions_of_closed_prefix (l : list Session) (x : Session) :
  forallb (fun s => negb (isOpen s)) (removelast l) = true ->
  lastSession l = Some x ->
  filter isOpen l = if isOpen x then [x] else [].
Proof.
  intros Hwt Hx. apply closed_no_open in Hwt.
  rewrite (lastSession_split _ _ Hx) at 1. rewrite filter_app, Hwt. reflexivity.
Qed.

Lemma lastSession_none (l : list Session) : lastSession l = None -> l = [].
Proof.
  destruct l as [| a l'] using rev_ind; [reflexivity |].
  now rewrite lastSession_snoc.
Qed.

Lemma wellTracked_atMostOneOpenAndLast (t : Task) :
  wellTracked t -> atMostOneOpenAndLast t.
Proof.
  unfold wellTracked, atMostOneOpenAndLast, openSessions.
  destruct (timeTracking t) as [tr |]; [ | intros _; split; [cbn; lia | discriminate] ].
  intros Hwt.
  destruct (lastSession (sessions tr)) as [x |] eqn:Hlast.
  - pose proof (open_sessions_of_closed_prefix _ _ Hwt Hlast) as Hf.
    split.
    + rewrite Hf. destruct (isOpen x); cbn; lia.
    + intros tr' s [= <-]. rewrite Hf.
      destruct (isOpen x); cbn; [ intros [<- | []]; exact Hlast | tauto ].
  - apply lastSession_none in Hlast. rewrite Hlast.
    split; [cbn; lia | intros tr' s [= <-]; rewrite Hlast; intros [] ].
Qed.

End Sessions.

(* ================================================================== *)
(** ** The time-tracking claims *)
(* ================================================================== *)

Section TimerClaims.
Variable P : Platform.
Import TaskContext.

Lemma timer_step_invariant (c : TimerCall) (w : World) :
  pending w = [] ->
  (forall t, In t (tasks w) -> wellTracked t) ->
  stopsBeforeStarting P [c] w ->
  pending (snd (call P (timerCall P c) w)) = []
  /\ forall t, In t (tasks (snd (call P (timerCall P c) w))) -> wellTracked t.
Proof.
  intros Hp Hall [Hguard _]. destruct c as [taskId now | taskId now]; cbn [timerCall].
  - destruct (getTaskById (tasks w) taskId) as [task |] eqn:Hfind.
    + destruct (startTaskTimer_call P taskId now task w Hp Hfind) as (_ & Ht & Hq & _).
      split; [exact Hq |]. intros t Hin. rewrite Ht in Hin.
      apply In_replaceById in Hin as [-> | Hin]; [ | auto ].
      now apply wellTracked_started.
    + rewrite (startTaskTimer_missing P taskId now w Hp Hfind). cbn. auto.
  - destruct (getTaskById (tasks w) taskId) as [task |] eqn:Hfind.
    + destruct (stopped task now) as [u |] eqn:Hu.
      * destruct (stopTaskTimer_call P taskId now task u w Hp Hfind Hu) as (_ & Ht & Hq & _).
        split; [exact Hq |]. intros t Hin. rewrite Ht in Hin.
        apply In_replaceById in Hin as [-> | Hin]; [ | auto ].
        apply (wellTracked_stopped task u now); [ | exact Hu ].
        apply Hall. eapply getTaskById_In; eauto.
      * rewrite (stopTaskTimer_guarded P taskId now w Hp); [cbn; auto |].
        now rewrite Hfind.
    + rewrite (stopTaskTimer_guarded P taskId now w Hp); [cbn; auto |].
      now rewrite Hfind.
Qed.

Lemma timers_keep_wellTracked (calls : list TimerCall) (w : World) :
  pending w = [] ->
  (forall t, In t (tasks w) -> wellTracked t) ->
  stopsBeforeStarting P calls w ->
  forall t, In t (tasks (run P calls w)) -> wellTracked t.
Proof.
  revert w. induction calls as [| c rest IH]; intros w Hp Hall Hguard; cbn.
  - exact Hall.
  - destruct Hguard as [Hc Hrest].
    destruct (timer_step_invariant c w Hp Hall (conj Hc I)) as [Hp' Hall'].
    apply IH; assumption.
Qed.

(** Claim C5.  Take a collection at rest in which every task has all its
    sessions closed except possibly the last.  After any finite sequence of
    [startTaskTimer] and [stopTaskTimer] calls in which the timer is never
    started on a task that has an open session, every task of the
    collection has at most one open session, and an open session is the
    last element of its session list. *)
Theorem timers_keep_at_most_one_open_session (calls : list TimerCall) (w : World) :
  pending w = [] ->
  (forall t, In t (tasks w) -> wellTracked t) ->
  stopsBeforeStarting P calls w ->
  forall t, In t (tasks (run P calls w)) -> atMostOneOpenAndLast t.
Proof.
  intros Hp Hall Hguard t Hin.
  apply wellTracked_atMostOneOpenAndLast.
  eapply timers_keep_wellTracked; eauto.
Qed.

Lemma round_div_nearest (n : Z) :
  2 * Z.abs (60000 * round_div n 60000 - n) <= 60000.
Proof.
  unfold round_div.
  pose proof (Z.div_mod (2 * n + 60000) (2 * 60000) ltac:(lia)) as Hdm.
  pose proof (Z.mod_pos_bound (2 * n + 60000) (2 * 60000) ltac:(lia)) as Hb.
  lia.
Qed.

(** Claim C6.  For a task of a collection at rest whose last session is
    open, [stopTaskTimer] at [now] stores the task with that session closed:
    its end is [now], its duration is the elapsed time in minutes rounded to
    the nearest integer, the total is increased by exactly that duration and
    the earlier sessions are untouched.  When 125 seconds have elapsed the
    duration is 2. *)
Theorem stopTaskTimer_closes_last_session
  (taskId : string) (now : Instant) (task : Task) (tr : TimeTracking)
  (last : Session) (w : World) :
  pending w = [] ->
  getTaskById (tasks w) taskId = Some task ->
  timeTracking task = Some tr ->
  lastSession (sessions tr) = Some last ->
  s_endTime last = None ->
  let elapsed := now - s_startTime last in
  let d := round_div elapsed 60000 in
  exists task',
    getTaskById (tasks (snd (call P (stopTaskTimer P taskId now) w))) taskId = Some task'
    /\ timeTracking task'
       = Some (mkTimeTracking (totalTimeSpent tr + d)
                 (removelast (sessions tr)
                    ++ [mkSession (s_startTime last) (Some now) (Some d)]))
    /\ 2 * Z.abs (60000 * d - elapsed) <= 60000
    /\ (elapsed = 125000 -> d = 2).
Proof.
  intros Hp Hfind Htr Hlast Hopen elapsed d.
  assert (Hu : exists u, stopped task now = Some u).
  { unfold stopped. rewrite Htr, Hlast, Hopen. eauto. }
  destruct Hu as [u Hu].
  destruct (stopTaskTimer_call P taskId now task u w Hp Hfind Hu) as (_ & Ht & _ & _).
  destruct (stopped_fields _ _ _ Hu) as (Hid & _ & _).
  pose proof (getTaskById_id _ _ _ Hfind) as Hid'.
  exists u. repeat split.
  - rewrite Ht. rewrite <- Hid', <- Hid.
    apply getTaskById_replaceById with (old := task).
    rewrite Hid, Hid'. exact Hfind.
  - destruct (stopped_tracking _ _ _ Hu) as (tr' & l' & Htr' & Hl' & _ & Hres).
    rewrite Htr in Htr'. injection Htr' as <-.
    rewrite Hlast in Hl'. injection Hl' as <-. exact Hres.
  - apply round_div_nearest.
  - intros He. subst d. rewrite He. reflexivity.
Qed.

End TimerClaims.

Import Samples.
Import TaskContext.

Lemma timers_keep_at_most_one_open_session_witness :
  stopsBeforeStarting device startStopStart (atRest [report])
  /\ Forall atMostOneOpenAndLast
       (tasks (run device startStopStart (atRest [report]))).
Proof.
  assert (G : stopsBeforeStarting device startStopStart (atRest [report])).
  { vm_compute. repeat split. }
  split; [exact G |].
  apply Forall_forall.
  apply (timers_keep_at_most_one_open_session device startStopStart (atRest [report])).
  - reflexivity.
  - intros t [<- | []]. exact I.
  - exact G.
Defined.

Lemma stopTaskTimer_closes_last_session_witness :
  lastSession [mkSession 1000000 None None] = Some (mkSession 1000000 None None)
  /\ exists task',
       getTaskById
         (tasks (snd (call device (stopTaskTimer device "t1" 1125000) timing))) "t1"
       = Some task'
       /\ timeTracking task'
          = Some (mkTimeTracking 2 [mkSession 1000000 (Some 1125000) (Some 2)]).
Proof.
  split; [reflexivity |].
  destruct (stopTaskTimer_closes_last_session device "t1" 1125000
              (started report 1000000)
              (mkTimeTracking 0 [mkSession 1000000 None None])
              (mkSession 1000000 None None) timing)
    as (task' & Hfind & Htr & _ & _); try reflexivity.
  exists task'. split; [exact Hfind | exact Htr].
Defined.

(* ================================================================== *)
(** ** What a reload gives back *)
(* ================================================================== *)

Section Reload.

Lemma format_stringify_sessions (l : list Session) :
  map format_session (map stringify_session l) = l.
Proof.
  induction l as [| s l IH]; cbn; [reflexivity |].
  rewrite IH. destruct s as [st [en |] du]; reflexivity.
Qed.

(** The fields [loadTasks] converts come back at their instant. *)
Lemma formatTask_stringify_converted (obj : nat) (t : Task) :
  let t' := formatTask obj (stringify_task t) in
  createdAt t' = createdAt t
  /\ updatedAt t' = updatedAt t
  /\ option_map time (deadline t') = option_map time (deadline t)
  /\ startTime t' = startTime t
  /\ timeTracking t' = timeTracking t
  /\ recurrence t' = recurrence t.
Proof.
  destruct t; cbn. repeat split.
  - now destruct deadline0.
  - now destruct startTime0.
  - destruct timeTracking0 as [[total l] |]; cbn; [ | reflexivity ].
    now rewrite format_stringify_sessions.
  - destruct recurrence0 as [[ty iv [en |] cn] |]; reflexivity.
Qed.

(** The date fields it does not list come back as the stored strings. *)
Lemma formatTask_stringify_passed_through (obj : nat) (t : Task) :
  let t' := formatTask obj (stringify_task t) in
  completedAt t' = option_map (fun d => IsString (toJSON_any d)) (completedAt t)
  /\ comments t'
     = option_map (map (fun c => mkComment (c_id c) (c_text c)
                                   (IsString (toJSON_any (c_createdAt c)))
                                   (c_userId c) (c_userName c)))
                  (comments t).
Proof.
  destruct t; cbn. split.
  - now destruct completedAt0.
  - destruct comments0 as [l |]; cbn; [ | reflexivity ].
    f_equal. rewrite map_map. reflexivity.
Qed.

End Reload.

(* ================================================================== *)
(** ** The task-store claims *)
(* ================================================================== *)

Section StoreClaims.
Variable P : Platform.

(** When the new task carries the very [Date] object of the stored one,
    or neither has a deadline, no adapter is called and the entity is
    replaced. *)
Lemma updateTask_same_object_no_adapter_work (task old : Task) (w : World) :
  pending w = [] ->
  getTaskById (tasks w) (id task) = Some old ->
  strict_neq (deadline task) (deadline old) = false ->
  fst (call P (updateTask P task) w) = Ok tt
  /\ trace (snd (call P (updateTask P task) w)) = trace w
  /\ tasks (snd (call P (updateTask P task) w)) = replaceById task (tasks w).
Proof.
  intros Hp Hold Hsame.
  pose proof (updateTask_identical_deadline P task old w Hold Hsame) as Hu.
  destruct (call_dispatching P (updateTask P task) w _ _ (UPDATE_TASK task) Hp Hu)
    as (C1 & C2 & _ & C4); try reflexivity.
  auto.
Qed.

Lemma call_fst {A} (m : M A) (w : World) : fst (call P m w) = fst (m w).
Proof. unfold call. now destruct (m w). Qed.

(** Claim C3, as the code has it.  Whatever the device answers, be it to
    the adapters or to the write of the collection, [addTask], [updateTask]
    and [deleteTask] resolve for their caller; [saveTasks] absorbs a failed
    write itself and leaves the collection as it is.  And the collection in
    memory keeps the change: on a collection at rest, after [addTask] it
    ends with the task, after [updateTask] the task replaces the stored one
    with its id (in both cases up to the two references the store
    maintains), and after [deleteTask] no task with the id is left while
    the others stay. *)
Theorem mutations_resolve_whatever_fails (w : World) :
  (forall task, fst (call P (addTask P task) w) = Ok tt)
  /\ (forall task, fst (call P (updateTask P task) w) = Ok tt)
  /\ (forall i, fst (call P (deleteTask P i) w) = Ok tt)
  /\ (exists w', saveTasks P w = (Ok tt, w') /\ tasks w' = tasks w)
  /\ (pending w = [] ->
      (forall task, exists stored,
         same_but_refs task stored
         /\ tasks (snd (call P (addTask P task) w)) = (tasks w ++ [stored])%list)
      /\ (forall task, exists stored,
            same_but_refs task stored
            /\ tasks (snd (call P (updateTask P task) w))
               = map (fun t => if String.eqb (id t) (id task) then stored else t)
                     (tasks w))
      /\ (forall i, tasks (snd (call P (deleteTask P i) w))
                    = filter (fun t => negb (String.eqb (id t) i)) (tasks w))).
Proof.
  split; [ | split; [ | split; [ | split ] ] ].
  - intros task. rewrite call_fst.
    destruct (addTask_spec P task w) as (t2 & w' & -> & _). reflexivity.
  - intros task. rewrite call_fst.
    destruct (updateTask_spec P task w) as (t3 & w' & -> & _). reflexivity.
  - intros i. rewrite call_fst.
    destruct (deleteTask_spec P i w) as (w' & -> & _). reflexivity.
  - destruct (saveTasks_absorbs P w) as (w' & H & Ht & _). eauto.
  - intros Hp. split; [ | split ].
    + intros task.
      destruct (addTask_spec P task w) as (stored & w' & Hm & Hs & Ht & Hq & _).
      exists stored. split; [exact Hs |].
      destruct (call_dispatching P (addTask P task) w w' (Ok tt) (ADD_TASK stored)
                  Hp Hm Ht Hq) as (_ & C & _).
      exact C.
    + intros task.
      destruct (updateTask_spec P task w) as (stored & w' & Hm & Hs & Ht & Hq & _).
      exists stored. split; [exact Hs |].
      destruct (call_dispatching P (updateTask P task) w w' (Ok tt) (UPDATE_TASK stored)
                  Hp Hm Ht Hq) as (_ & C & _).
      rewrite C. cbn [taskReducer].
      destruct (same_but_refs_fields task stored Hs) as (-> & _). reflexivity.
    + intros i.
      destruct (deleteTask_spec P i w) as (w' & Hm & Ht & Hq & _).
      destruct (call_dispatching P (deleteTask P i) w w' (Ok tt) (DELETE_TASK i)
                  Hp Hm Ht Hq) as (_ & C & _).
      exact C.
Qed.

(** Claim C8, as the code has it.  For a task stored in a collection at
    rest: after [updateTask] the stored task has the [updatedAt] of the
    replacement the caller supplied; after [startTaskTimer] and after
    [stopTaskTimer] its [updatedAt] is not lower than before. *)
Theorem updatedAt_after_mutations (taskId : string) (old : Task) (w : World) :
  pending w = [] ->
  getTaskById (tasks w) taskId = Some old ->
  (forall task, id task = taskId ->
     exists t', getTaskById (tasks (snd (call P (updateTask P task) w))) taskId = Some t'
                /\ updatedAt t' = updatedAt task)
  /\ (forall now,
        exists t', getTaskById (tasks (snd (call P (startTaskTimer P taskId now) w))) taskId
                   = Some t'
                   /\ updatedAt old <= updatedAt t')
  /\ (forall now,
        exists t', getTaskById (tasks (snd (call P (stopTaskTimer P taskId now) w))) taskId
                   = Some t'
                   /\ updatedAt old <= updatedAt t').
Proof.
  intros Hp Hfind. pose proof (getTaskById_id _ _ _ Hfind) as Hid.
  repeat split.
  - intros task Htask.
    destruct (updateTask_spec P task w) as (t3 & w1 & Hu & Hsim & Ht & Hq & _).
    destruct (call_dispatching P (updateTask P task) w _ _ (UPDATE_TASK t3) Hp Hu Ht Hq)
      as (_ & C2 & _).
    destruct (same_but_refs_fields _ _ Hsim) as (Hid3 & Hup & _).
    exists t3. split; [ | exact Hup ].
    rewrite C2. rewrite <- Htask, <- Hid3.
    apply (getTaskById_replaceById (tasks w) t3 old).
    now rewrite Hid3, Htask.
  - intros now.
    destruct (startTaskTimer_call P taskId now old w Hp Hfind) as (_ & Ht & _).
    exists (started old now). split.
    + rewrite Ht.
      assert (Hs : id (started old now) = taskId) by (destruct old; exact Hid).
      rewrite <- Hs.
      apply (getTaskById_replaceById (tasks w) (started old now) old).
      now rewrite Hs.
    + destruct old; cbn. lia.
  - intros now. destruct (stopped old now) as [u |] eqn:Hu.
    + destruct (stopTaskTimer_call P taskId now old u w Hp Hfind Hu) as (_ & Ht & _).
      destruct (stopped_fields _ _ _ Hu) as (Hidu & _ & Hup).
      exists u. split; [ | rewrite Hup; lia ].
      rewrite Ht. assert (Hs : id u = taskId) by congruence.
      rewrite <- Hs.
      apply (getTaskById_replaceById (tasks w) u old). now rewrite Hs.
    + rewrite (stopTaskTimer_guarded P taskId now w Hp); [ | now rewrite Hfind, Hu ].
      exists old. split; [exact Hfind | lia].
Qed.

End StoreClaims.

(** Claim C1, where the code departs from it.  The stored task and its
    replacement have deadlines at the same instant, held by two different
    [Date] objects; [updateTask] cancels the stored reminder, schedules two
    new ones and updates the calendar event. *)
Theorem updateTask_same_instant_other_object :
  option_map time (deadline reportSameInstant) = option_map time (deadline report)
  /\ trace (snd (call device (updateTask device reportSameInstant) (atRest [report])))
     = [ CancelScheduledNotification "n0";
         RequestNotificationPermissions;
         ScheduleNotification
           (mkNotification "Task Reminder"
              (dquote ++ "Write report" ++ dquote ++ " is due in 30 minutes") "t1" 3200000);
         ScheduleNotification
           (mkNotification "Task Due Now"
              (dquote ++ "Write report" ++ dquote ++ " is due now") "t1" 5000000);
         RequestCalendarPermissions;
         GetCalendars;
         UpdateEvent "ev0" (mkEvent "Write report" EmptyString 5000000 8600000 None []) ].
Proof. vm_compute. split; reflexivity. Qed.

(** Claim C2, where the code departs from it.  A task with a completion
    date and a comment is written to storage and loaded again: the
    completion date and the comment's timestamp come back as the stored
    strings, not as dates, while the dates [loadTasks] converts come back
    at their instant. *)
Theorem reload_leaves_unconverted_dates_as_strings :
  map completedAt (persistAndReload device [commented]) = [Some (IsString (Iso 20000))]
  /\ map comments (persistAndReload device [commented])
     = [Some [mkComment "c1" "done" (IsString (Iso 15000)) "current-user-id" "Me"]]
  /\ completedAt commented = Some (IsDate 20000)
  /\ comments commented
     = Some [mkComment "c1" "done" (IsDate 15000) "current-user-id" "Me"]
  /\ map createdAt (persistAndReload device [commented]) = [createdAt commented]
  /\ map updatedAt (persistAndReload device [commented]) = [updatedAt commented].
Proof. vm_compute. repeat split. Qed.

(** Claim C3, refuted as stated: the disk rejects the write that follows
    [addTask], and [addTask] has resolved for its caller; the failure is
    logged, the file is not written and the collection holds the task. *)
Lemma write_failure_does_not_reach_caller :
  let task := plain "t9" "Buy milk" TODO LOW None 10 in
  let after := call fullDisk (addTask fullDisk task) (atRest []) in
  fs_write fullDisk (JSON_stringify (tasks (snd after))) = Throw "ENOSPC"
  /\ fst after = Ok tt
  /\ tasks (snd after) = [task]
  /\ file (snd after) = None
  /\ console (snd after) = ["Error saving tasks:"].
Proof. vm_compute. repeat split. Qed.

Lemma mutations_resolve_whatever_fails_witness :
  pending (atRest [report; errand]) = []
  /\ fs_write fullDisk (JSON_stringify [errand]) = Throw "ENOSPC"
  /\ fst (call fullDisk (deleteTask fullDisk "t1") (atRest [report; errand])) = Ok tt
  /\ tasks (snd (call fullDisk (deleteTask fullDisk "t1") (atRest [report; errand])))
     = [errand].
Proof.
  assert (H : pending (atRest [report; errand]) = []) by reflexivity.
  split; [exact H | split; [reflexivity |]].
  destruct (mutations_resolve_whatever_fails fullDisk (atRest [report; errand]))
    as (_ & _ & R & _ & K).
  destruct (K H) as (_ & _ & D).
  split; [exact (R "t1") | exact (D "t1")].
Defined.

(** Claim C8, refuted as stated: [updateTask] with a replacement whose
    [updatedAt] is older lowers the stored [updatedAt] from 1000 to 500, and
    [startTaskTimer] at instant 2000 leaves it at 1000. *)
Lemma updatedAt_lowered_and_not_refreshed :
  option_map updatedAt (getTaskById (tasks (atRest [report])) "t1") = Some 1000
  /\ option_map updatedAt
       (getTaskById
          (tasks (snd (call device (updateTask device reportStale) (atRest [report]))))
          "t1") = Some 500
  /\ option_map updatedAt
       (getTaskById
          (tasks (snd (call device (startTaskTimer device "t1" 2000) (atRest [report]))))
          "t1") = Some 1000.
Proof. vm_compute. repeat split. Qed.

Lemma updatedAt_after_mutations_witness :
  getTaskById (tasks (atRest [report])) "t1" = Some report
  /\ exists t',
       getTaskById
         (tasks (snd (call device (updateTask device reportStale) (atRest [report]))))
         "t1" = Some t'
       /\ updatedAt t' = 500.
Proof.
  split; [reflexivity |].
  destruct (updatedAt_after_mutations device "t1" report (atRest [report]))
    as (Hupdate & _ & _); try reflexivity.
  exact (Hupdate reportStale eq_refl).
Defined.

(* ================================================================== *)
(** ** The AI gateway claims *)
(* ================================================================== *)

Section GatewayClaims.
Import AIService.

Lemma analysisFallback_not_json : parse (extractJson analysisFallback) = None.
Proof. vm_compute. reflexivity. Qed.

Lemma scheduleFallback_not_json : parse (extractJson scheduleFallback) = None.
Proof. vm_compute. reflexivity. Qed.

Lemma gatewaySubtasks_parse_back :
  parse (extractJson (stringify (JArray gatewaySubtasks))) = Some (JArray gatewaySubtasks).
Proof. vm_compute. reflexivity. Qed.

Lemma userMessage_decomposePrompt (taskTitle taskDescription : string) :
  userMessage (decomposePrompt taskTitle taskDescription)
  = "Break down this task into 4-7 actionable subtasks. Format as a JSON array of strings, nothing else." ++ nl ++
    indent ++ "Task title: " ++ taskTitle ++ nl ++
    indent ++ (if truthy taskDescription
               then "Task description: " ++ taskDescription
               else EmptyString).
Proof. reflexivity. Qed.

Lemma decomposePrompt_mentions_break_down (taskTitle taskDescription : string) :
  includes (toLowerCase (userMessage (decomposePrompt taskTitle taskDescription)))
           "break down" = true.
Proof. rewrite userMessage_decomposePrompt. reflexivity. Qed.

(** The list [decomposeTask] returns for a response text. *)
Lemma decomposeTask_of_response (cfg : Config) (fetch : list Message -> FetchOutcome)
      (taskTitle : string) (description : option string) (response : string) :
  fst (sendRequest cfg fetch
         (decomposePrompt taskTitle
            (match description with Some d => d | None => EmptyString end)))
  = Ok response ->
  fst (decomposeTask cfg fetch taskTitle description)
  = Ok (match parse (extractJson response) with
        | None => fallbackSubtasks
        | Some (JArray subtasks) => subtasks
        | Some _ => []
        end).
Proof.
  unfold decomposeTask.
  destruct (sendRequest cfg fetch _) as [[text | e] sent]; cbn; [ | discriminate ].
  intros [= ->]. unfold decomposeTask_try.
  destruct (parse (extractJson response)) as [[] |]; reflexivity.
Qed.

(** Claim C4, as the code has it.  [decomposeTask] never throws.  It
    returns the fixed five-item list when the cleaned response is not JSON,
    the empty list when the response parses to something that is not an
    array, and the parsed array otherwise.  When the transport throws, the
    response is the gateway's keyword fallback for the prompt: the result is
    the five-item list when the prompt mentions "analyze" or "schedule",
    and the gateway's own six subtasks otherwise. *)
Theorem decomposeTask_outcomes (cfg : Config) (fetch : list Message -> FetchOutcome)
        (taskTitle : string) (description : option string) :
  let prompt :=
    decomposePrompt taskTitle
      (match description with Some d => d | None => EmptyString end) in
  let lowered := toLowerCase (userMessage prompt) in
  exists response,
    fst (sendRequest cfg fetch prompt) = Ok response
    /\ fst (decomposeTask cfg fetch taskTitle description)
       = Ok (match parse (extractJson response) with
             | None => fallbackSubtasks
             | Some (JArray subtasks) => subtasks
             | Some _ => []
             end)
    /\ ((exists e, fst (sendRequest_try cfg fetch prompt) = Throw e) ->
        fst (decomposeTask cfg fetch taskTitle description)
        = Ok (if orb (includes lowered "analyze") (includes lowered "schedule")
              then fallbackSubtasks else gatewaySubtasks)).
Proof.
  intros prompt lowered.
  assert (Hsend : exists response, fst (sendRequest cfg fetch prompt) = Ok response
                    /\ ((exists e, fst (sendRequest_try cfg fetch prompt) = Throw e) ->
                        response = getFallbackResponse prompt)).
  { unfold sendRequest.
    destruct (sendRequest_try cfg fetch prompt) as [[text | e] sent]; cbn.
    - exists text. split; [reflexivity |]. intros [e He]. discriminate.
    - exists (getFallbackResponse prompt). auto. }
  destruct Hsend as (response & Hresp & Hthrow).
  exists response. split; [exact Hresp |].
  pose proof (decomposeTask_of_response cfg fetch taskTitle description response Hresp)
    as Hres.
  split; [exact Hres |].
  intros He. rewrite Hres, (Hthrow He). unfold getFallbackResponse.
  fold lowered.
  destruct (includes lowered "analyze"); cbn [orb].
  - now rewrite analysisFallback_not_json.
  - destruct (includes lowered "schedule").
    + now rewrite scheduleFallback_not_json.
    + unfold lowered, prompt. rewrite decomposePrompt_mentions_break_down. cbn [orb].
      now rewrite gatewaySubtasks_parse_back.
Qed.

Lemma disabled_sendRequest (cfg : Config) (fetch : list Message -> FetchOutcome)
      (messages : list Message) :
  disabled cfg ->
  sendRequest cfg fetch messages = (Ok (getFallbackResponse messages), []).
Proof.
  intros H. unfold sendRequest, sendRequest_try.
  assert (orb (negb (apiEnabled cfg)) (negb (truthy (apiKey cfg))) = true) as ->.
  { destruct H as [-> | ->]; [reflexivity | apply Bool.orb_true_r]. }
  reflexivity.
Qed.

(** Claim C9.  With the gateway disabled, or without a credential,
    [getAssistantResponse] on the query "please analyze my week" returns
    the canned analysis paragraph and sends nothing, whatever the task list
    and whatever the network would answer; two such calls return the
    same. *)
Theorem disabled_gateway_answers_analysis
        (cfg1 cfg2 : Config) (fetch1 fetch2 : list Message -> FetchOutcome)
        (tasks1 tasks2 : list Task) :
  disabled cfg1 -> disabled cfg2 ->
  getAssistantResponse cfg1 fetch1 "please analyze my week" tasks1
  = (Ok analysisFallback, [])
  /\ getAssistantResponse cfg2 fetch2 "please analyze my week" tasks2
     = getAssistantResponse cfg1 fetch1 "please analyze my week" tasks1.
Proof.
  intros H1 H2. unfold getAssistantResponse.
  rewrite !disabled_sendRequest by assumption.
  split; reflexivity.
Qed.

End GatewayClaims.

(** Claim C4, refuted as stated: a response that parses to a number gives
    the empty list, and a transport that throws gives the gateway's six
    subtasks; neither is the five-item list. *)
Lemma decomposeTask_not_always_the_fallback_list :
  parse (AIService.extractJson "42") = Some (JNumber "42")
  /\ fst (AIService.decomposeTask gatewayOn (answering "42") "Write report" None) = Ok []
  /\ fst (AIService.sendRequest_try gatewayOn offline
            (AIService.decomposePrompt "Write report" EmptyString))
     = Throw "Network request failed"
  /\ fst (AIService.decomposeTask gatewayOn offline "Write report" None)
     = Ok AIService.gatewaySubtasks
  /\ AIService.gatewaySubtasks <> AIService.fallbackSubtasks
  /\ AIService.fallbackSubtasks <> [].
Proof. vm_compute. repeat split; discriminate. Qed.

Lemma decomposeTask_outcomes_witness :
  (exists e, fst (AIService.sendRequest_try gatewayOn offline
                    (AIService.decomposePrompt "Write report" EmptyString)) = Throw e)
  /\ fst (AIService.decomposeTask gatewayOn offline "Write report" None)
     = Ok AIService.gatewaySubtasks.
Proof.
  assert (H : exists e, fst (AIService.sendRequest_try gatewayOn offline
                               (AIService.decomposePrompt "Write report" EmptyString))
                        = Throw e).
  { eexists. reflexivity. }
  split; [exact H |].
  destruct (decomposeTask_outcomes gatewayOn offline "Write report" None)
    as (response & _ & _ & Hthrow).
  exact (Hthrow H).
Defined.

Lemma disabled_gateway_answers_analysis_witness :
  disabled gatewayOff
  /\ AIService.getAssistantResponse gatewayOff offline "please analyze my week" threeTasks
     = (Ok AIService.analysisFallback, []).
Proof.
  assert (H : disabled gatewayOff) by (left; reflexivity).
  split; [exact H |].
  exact (proj1 (disabled_gateway_answers_analysis gatewayOff gatewayOff offline offline
                  threeTasks threeTasks H H)).
Defined.

(* ================================================================== *)
(** ** The recommendation engine claims *)
(* ================================================================== *)

Section EngineClaims.
Import TaskAssistantContext.

Lemma TaskStatus_eqb_eq (a b : TaskStatus) : TaskStatus_eqb a b = true <-> a = b.
Proof. destruct a, b; cbn; split; congruence. Qed.

Lemma Priority_eqb_eq (a b : Priority) : Priority_eqb a b = true <-> a = b.
Proof. destruct a, b; cbn; split; congruence. Qed.

Lemma isOverdueHighPriority_spec (now : Instant) (t : Task) :
  isOverdueHighPriority now t = true
  <-> status t <> COMPLETED
      /\ (exists d, deadline t = Some d /\ time d < now)
      /\ priority t = HIGH.
Proof.
  unfold isOverdueHighPriority. rewrite !Bool.andb_true_iff, Bool.negb_true_iff.
  rewrite Priority_eqb_eq. split.
  - intros [[Hs Hd] Hp]. repeat split; [ | | exact Hp ].
    + intros E. apply TaskStatus_eqb_eq in E. congruence.
    + destruct (deadline t) as [d |]; [ | discriminate ].
      exists d. split; [reflexivity | now apply Z.ltb_lt].
  - intros (Hs & (d & Hd & Hlt) & Hp). repeat split; [ | | exact Hp ].
    + destruct (TaskStatus_eqb (status t) COMPLETED) eqn:E; [ | reflexivity ].
      apply TaskStatus_eqb_eq in E. contradiction.
    + rewrite Hd. now apply Z.ltb_lt.
Qed.

Lemma nonempty_length {A} (l : list A) : l <> [] -> (0 <? List.length l)%nat = true.
Proof. destruct l; [congruence | reflexivity]. Qed.

Lemma generateOptimalSchedule_length (e : Env) (ts : list Task) :
  List.length (generateOptimalSchedule e ts) = 5%nat.
Proof. reflexivity. Qed.

(** The recommendations of one pass, piece by piece. *)
Lemma newRecommendations_pieces (e : Env) (ts : list Task) :
  exists ai,
    (ai = [] \/ ai = [aiRecommendation e ts])
    /\ fst (newRecommendations e ts)
       = (ai
          ++ (match filter (isOverdueHighPriority (now e)) ts with
              | [] => []
              | _ => [overdueRecommendation e (filter (isOverdueHighPriority (now e)) ts)]
              end)
          ++ (if (2 <? List.length (findSimilarTaskClusters ts))%nat
              then [batchRecommendation e (findSimilarTaskClusters ts)] else [])
          ++ [scheduleRecommendation e ts])%list.
Proof.
  unfold newRecommendations. cbn [fst].
  match goal with
  | |- context [match ?x with Some _ => [aiRecommendation e ts] | None => [] end] =>
      exists (match x with Some _ => [aiRecommendation e ts] | None => [] end);
      split; [ destruct x; auto | ]
  end.
  f_equal. f_equal.
  destruct (filter (isOverdueHighPriority (now e)) ts); reflexivity.
Qed.

Lemma onTasksChange_appends (e : Env) (ts : list Task) (a : Assistant) :
  ts <> [] ->
  recommendations (onTasksChange e ts a)
  = (recommendations a ++ fst (newRecommendations e ts))%list.
Proof.
  intros H. unfold onTasksChange. rewrite (nonempty_length ts H).
  unfold analyzeTasksAndGenerateRecommendations.
  destruct (newRecommendations e ts). reflexivity.
Qed.

(** Claim C7.  For a non-empty collection, one recomputation pass appends
    its recommendations to the list, and among them there is exactly one of
    type [prioritization] when some task is not completed, has a deadline
    in the past and has high priority, and none otherwise.  That
    recommendation refers to the ids of exactly those tasks and its message
    states how many they are. *)
Theorem recomputation_prioritization (e : Env) (ts : list Task) (a : Assistant) :
  ts <> [] ->
  let overdue := filter (isOverdueHighPriority (now e)) ts in
  (forall t, In t overdue
             <-> In t ts /\ status t <> COMPLETED
                 /\ (exists d, deadline t = Some d /\ time d < now e)
                 /\ priority t = HIGH)
  /\ exists fresh,
       recommendations (onTasksChange e ts a) = (recommendations a ++ fresh)%list
       /\ filter (ofType prioritization) fresh
          = match overdue with
            | [] => []
            | _ => [ mkRecommendation ("overdue-" ++ string_of_Z (now e)) prioritization
                       ("You have " ++ string_of_nat (List.length overdue)
                          ++ " overdue high-priority tasks that need immediate attention.")
                       "Focus on these first" true false (map id overdue) ]
            end.
Proof.
  intros Hne overdue. split.
  - intros t. unfold overdue. rewrite filter_In, isOverdueHighPriority_spec. tauto.
  - exists (fst (newRecommendations e ts)).
    split; [now apply onTasksChange_appends |].
    destruct (newRecommendations_pieces e ts) as (ai & Hai & ->).
    fold overdue. rewrite !filter_app.
    assert (filter (ofType prioritization) ai = []) as ->
      by (destruct Hai as [-> | ->]; reflexivity).
    assert (filter (ofType prioritization)
              (if (2 <? List.length (findSimilarTaskClusters ts))%nat
               then [batchRecommendation e (findSimilarTaskClusters ts)] else []) = [])
      as -> by (destruct (2 <? _)%nat; reflexivity).
    destruct overdue; reflexivity.
Qed.







End EngineClaims.

Lemma recomputation_prioritization_witness :
  threeTasks <> []
  /\ exists fresh,
       TaskAssistantContext.recommendations
         (TaskAssistantContext.onTasksChange engineEnv threeTasks emptyAssistant)
       = fresh
       /\ filter (ofType TaskAssistantContext.prioritization) fresh
          = [ TaskAssistantContext.mkRecommendation "overdue-100000000"
                TaskAssistantContext.prioritization
                "You have 1 overdue high-priority tasks that need immediate attention."
                "Focus on these first" true false ["a"] ].
Proof.
  assert (H : threeTasks <> []) by discriminate.
  split; [exact H |].
  destruct (recomputation_prioritization engineEnv threeTasks emptyAssistant H)
    as (_ & fresh & Hrecs & Hprio).
  exists fresh. split; [exact Hrecs | exact Hprio].
Defined.



(* ================================================================== *)
(** ** The reducer and the lookups *)
(* ================================================================== *)

Section Reducer.

Lemma getTaskById_None (ts : list Task) (i : string) :
  getTaskById ts i = None <-> forall t, In t ts -> id t <> i.
Proof.
  unfold getTaskById. split.
  - intros H t Hin E. apply (find_none _ _ H) in Hin. cbn in Hin.
    rewrite E, String.eqb_refl in Hin. discriminate.
  - intros H. induction ts as [| t rest IH]; cbn; [reflexivity |].
    destruct (String.eqb (id t) i) eqn:E.
    + apply String.eqb_eq in E. exfalso. apply (H t); [now left | exact E].
    + apply IH. intros t' Hin. apply H. now right.
Qed.

Lemma replaceById_unknown (payload : Task) (ts : list Task) :
  getTaskById ts (id payload) = None -> replaceById payload ts = ts.
Proof.
  intros H. unfold replaceById, taskReducer.
  rewrite <- (map_id ts) at 2. apply map_ext_in. intros t Hin.
  destruct (String.eqb (id t) (id payload)) eqn:E; [ | reflexivity ].
  apply String.eqb_eq in E. rewrite getTaskById_None in H. now apply H in Hin.
Qed.

Lemma delete_unknown (i : string) (ts : list Task) :
  getTaskById ts i = None -> taskReducer ts (DELETE_TASK i) = ts.
Proof.
  rewrite getTaskById_None. intros H. cbn.
  induction ts as [| t rest IH]; cbn; [reflexivity |].
  destruct (String.eqb (id t) i) eqn:E; cbn.
  - apply String.eqb_eq in E. exfalso. apply (H t); [now left | exact E].
  - f_equal. apply IH. intros t' Hin. apply H. now right.
Qed.

Lemma getTaskById_deleted (i : string) (ts : list Task) :
  getTaskById (taskReducer ts (DELETE_TASK i)) i = None.
Proof.
  apply getTaskById_None. cbn. intros t Hin E.
  apply filter_In in Hin as [_ Hin]. rewrite E, String.eqb_refl in Hin. discriminate.
Qed.

Lemma getTaskById_delete_other (i j : string) (ts : list Task) :
  j <> i -> getTaskById (taskReducer ts (DELETE_TASK i)) j = getTaskById ts j.
Proof.
  intros Hne. unfold getTaskById. cbn.
  induction ts as [| t rest IH]; cbn; [reflexivity |].
  destruct (String.eqb (id t) i) eqn:E; cbn.
  - apply String.eqb_eq in E.
    destruct (String.eqb (id t) j) eqn:E'; [ | exact IH ].
    apply String.eqb_eq in E'. congruence.
  - destruct (String.eqb (id t) j); [reflexivity | exact IH].
Qed.

Lemma delete_all (i : string) (ts : list Task) :
  (forall t, In t ts -> id t = i) -> taskReducer ts (DELETE_TASK i) = [].
Proof.
  intros Hall. cbn. induction ts as [| t l IH]; cbn; [reflexivity |].
  rewrite (Hall t (or_introl eq_refl)), String.eqb_refl. cbn.
  apply IH. intros t' Hin. apply Hall. now right.
Qed.

Lemma find_app_unfound {A} (f : A -> bool) (l l' : list A) :
  find f l = None -> find f (l ++ l') = find f l'.
Proof.
  induction l as [| a l IH]; cbn; [reflexivity |].
  destruct (f a); [discriminate | exact IH].
Qed.

(** An update never inserts and never reorders: the ids of the collection
    stay as they are, and an update for an id that is not stored changes
    nothing. *)
Theorem update_keeps_ids (payload : Task) (ts : list Task) :
  map id (taskReducer ts (UPDATE_TASK payload)) = map id ts
  /\ (getTaskById ts (id payload) = None -> taskReducer ts (UPDATE_TASK payload) = ts).
Proof.
  split; [ | apply replaceById_unknown ].
  cbn. rewrite map_map. apply map_ext. intros t.
  destruct (String.eqb (id t) (id payload)) eqn:E; [ | reflexivity ].
  symmetry. now apply String.eqb_eq.
Qed.

(** Adding a task whose id is new and deleting that id gives the
    collection back; a delete removes every task with the id, so that the
    id is not found afterwards. *)
Theorem add_then_delete (t : Task) (ts : list Task) :
  getTaskById ts (id t) = None ->
  taskReducer (taskReducer ts (ADD_TASK t)) (DELETE_TASK (id t)) = ts
  /\ getTaskById (taskReducer ts (ADD_TASK t)) (id t) = Some t.
Proof.
  intros H. split.
  - change (filter (fun task => negb (String.eqb (id task) (id t))) (ts ++ [t]) = ts).
    rewrite filter_app. cbn. rewrite String.eqb_refl. cbn. rewrite app_nil_r.
    apply (delete_unknown (id t) ts H).
  - unfold getTaskById in *. cbn. rewrite (find_app_unfound _ _ _ H). cbn.
    now rewrite String.eqb_refl.
Qed.

(** The date range is inclusive at both ends, tasks without a deadline are
    never in it, and a range that ends before it starts is empty. *)
Theorem getTasksByDateRange_bounds (ts : list Task) (startDate endDate : Instant) :
  (forall t, In t (getTasksByDateRange ts startDate endDate)
             <-> In t ts /\ exists d, deadline t = Some d
                                     /\ startDate <= time d <= endDate)
  /\ (endDate < startDate -> getTasksByDateRange ts startDate endDate = []).
Proof.
  assert (Hin : forall t, In t (getTasksByDateRange ts startDate endDate)
             <-> In t ts /\ exists d, deadline t = Some d
                                     /\ startDate <= time d <= endDate).
  { intros t. unfold getTasksByDateRange. rewrite filter_In. split.
    - intros [Hin H]. split; [exact Hin |].
      destruct (deadline t) as [d |]; [ | discriminate ].
      exists d. split; [reflexivity |].
      apply Bool.andb_true_iff in H as [H1 H2].
      apply Z.leb_le in H1. apply Z.leb_le in H2. lia.
    - intros [Hin (d & -> & H1 & H2)]. split; [exact Hin |].
      apply Bool.andb_true_iff. split; now apply Z.leb_le. }
  split; [exact Hin |].
  intros Hlt. destruct (getTasksByDateRange ts startDate endDate) as [| t l] eqn:E;
    [reflexivity |].
  exfalso. assert (Ht : In t (t :: l)) by now left.
  apply Hin in Ht as [_ (d & _ & H1 & H2)]. unfold Instant in *. lia.
Qed.

End Reducer.

Lemma add_then_delete_witness :
  getTaskById [commented] (id report) = None
  /\ taskReducer (taskReducer [commented] (ADD_TASK report)) (DELETE_TASK "t1")
     = [commented].
Proof.
  assert (H : getTaskById [commented] (id report) = None) by reflexivity.
  split; [exact H | exact (proj1 (add_then_delete report [commented] H))].
Defined.


(* ================================================================== *)
(** ** Local time *)
(* ================================================================== *)

Section LocalTime.
Variable z : Date.TimeZone.

(** The fields of a time value add up to it. *)
Lemma MakeDate_fields (t : Z) :
  Date.MakeDate (Date.Day t)
    (Date.MakeTime (Date.HourFromTime t) (Date.MinFromTime t)
       (Date.SecFromTime t) (Date.msFromTime t)) = t.
Proof.
  unfold Date.MakeDate, Date.MakeTime, Date.Day, Date.HourFromTime,
    Date.MinFromTime, Date.SecFromTime, Date.msFromTime.
  pose proof (Z.div_mod t 1000 ltac:(lia)) as E1.
  pose proof (Z.div_mod (t / 1000) 60 ltac:(lia)) as E2.
  pose proof (Z.div_mod (t / 60000) 60 ltac:(lia)) as E3.
  pose proof (Z.div_mod (t / 3600000) 24 ltac:(lia)) as E4.
  replace (t / 60000) with (t / 1000 / 60) in *
    by (rewrite Z.div_div by lia; reflexivity).
  replace (t / 3600000) with (t / 1000 / 60 / 60) in *
    by (rewrite !Z.div_div by lia; reflexivity).
  replace (t / 86400000) with (t / 1000 / 60 / 60 / 24)
    by (rewrite !Z.div_div by lia; reflexivity).
  lia.
Qed.

(** Setting the minutes to the current ones plus [k] moves the local time
    by [k] minutes; the instant is that local time read back. *)
Lemma setMinutes_shift (d : Instant) (k : Z) :
  Date.setMinutes z d (Date.getMinutes z d + k)
  = Date.UTC z (Date.LocalTime z d + k * 60000).
Proof.
  unfold Date.setMinutes, Date.getMinutes. cbv zeta. f_equal.
  pose proof (MakeDate_fields (Date.LocalTime z d)) as E.
  unfold Date.MakeDate, Date.MakeTime in *. lia.
Qed.

Lemma setHours_shift (d : Instant) (k : Z) :
  Date.setHours z d (Date.getHours z d + k)
  = Date.UTC z (Date.LocalTime z d + k * 3600000).
Proof.
  unfold Date.setHours, Date.getHours. cbv zeta. f_equal.
  pose proof (MakeDate_fields (Date.LocalTime z d)) as E.
  unfold Date.MakeDate, Date.MakeTime in *. lia.
Qed.

End LocalTime.

(** Away from a change of offset the two dates the adapters compute are
    thirty minutes before and one hour after the deadline. *)
Lemma thirtyMinBefore_kept (P : Platform) (d : Instant) :
  offsetKeptBefore (p_zone P) d ->
  NotificationService.thirtyMinBefore P d = d - 1800000.
Proof.
  unfold offsetKeptBefore, NotificationService.thirtyMinBefore. intros H.
  replace (Date.getMinutes (p_zone P) d - 30)
    with (Date.getMinutes (p_zone P) d + (-30)) by lia.
  rewrite setMinutes_shift. unfold Date.UTC, Date.LocalTime.
  replace (d + Date.utcOffset (p_zone P) d + -30 * 60000)
    with (d + Date.utcOffset (p_zone P) d - 1800000) by lia.
  rewrite H. unfold Instant in *. lia.
Qed.

Lemma plusOneHour_kept (P : Platform) (d : Instant) :
  offsetKeptAfter (p_zone P) d ->
  CalendarService.plusOneHour P d = d + 3600000.
Proof.
  unfold offsetKeptAfter, CalendarService.plusOneHour. intros H.
  rewrite setHours_shift. unfold Date.UTC, Date.LocalTime.
  replace (d + Date.utcOffset (p_zone P) d + 1 * 3600000)
    with (d + Date.utcOffset (p_zone P) d + 3600000) by lia.
  rewrite H. unfold Instant in *. lia.
Qed.

Lemma fixedZone_keeps (offset : Z) (d : Instant) :
  offsetKeptBefore (Date.fixedZone offset) d /\ offsetKeptAfter (Date.fixedZone offset) d.
Proof. split; reflexivity. Qed.

(** Across the end of daylight saving time they are not: for a deadline a
    quarter of an hour after the change, the reminder is set ninety minutes
    before the deadline and the event lasts one hour; for a deadline a
    quarter of an hour before the change, the event lasts two hours. *)
Lemma thirtyMinBefore_across_the_change :
  NotificationService.thirtyMinBefore inNewYork 1793513700000 = 1793513700000 - 5400000
  /\ CalendarService.plusOneHour inNewYork 1793513700000 = 1793513700000 + 3600000
  /\ CalendarService.plusOneHour inNewYork 1793511900000 = 1793511900000 + 7200000.
Proof. vm_compute. repeat split. Qed.

(* ================================================================== *)
(** ** The device calls of the adapters *)
(* ================================================================== *)

Section AdapterCalls.
Variable P : Platform.

Lemma advanced_refl (w : World) : advanced w w [].
Proof. unfold advanced. rewrite app_nil_r. repeat split. Qed.

Lemma advanced_trans (w1 w2 w3 : World) (l1 l2 : list PlatformCall) :
  advanced w1 w2 l1 -> advanced w2 w3 l2 -> advanced w1 w3 (l1 ++ l2).
Proof.
  unfold advanced. intros (a1 & a2 & a3 & a4 & a5 & a6) (b1 & b2 & b3 & b4 & b5 & b6).
  rewrite b1, a1, app_assoc. repeat split; congruence.
Qed.

Lemma runs_bind {A B} (m : M A) (k : A -> M B) (w w1 w2 : World) (a : A) (b : B) :
  runs m w a w1 -> runs (k a) w1 b w2 -> runs (bind m k) w b w2.
Proof. unfold runs, bind. intros -> H. exact H. Qed.

Lemma runs_try {A} (m : M A) (h : string -> M A) (w w1 : World) (a : A) :
  runs m w a w1 -> runs (try_catch m h) w a w1.
Proof. unfold runs, try_catch. now intros ->. Qed.

Lemma scheduleTaskReminder_runs (task : Task) (d : DateObj) (i1 i2 : string)
      (w : World) :
  deadline task = Some d ->
  notif_requestPermissions P = Ok true ->
  notif_schedule P (reminderBefore P task (time d)) = Ok i1 ->
  notif_schedule P (reminderDue task (time d)) = Ok i2 ->
  let early := (p_now P <? NotificationService.thirtyMinBefore P (time d))%Z in
  let due := (p_now P <? time d)%Z in
  exists w',
    runs (NotificationService.scheduleTaskReminder P task) w
         ((if early then [i1] else []) ++ (if due then [i2] else []))%list w'
    /\ advanced w w'
         ([RequestNotificationPermissions]
            ++ (if early then [ScheduleNotification (reminderBefore P task (time d))] else [])
            ++ (if due then [ScheduleNotification (reminderDue task (time d))] else []))%list.
Proof.
  intros Hd Hperm H1 H2 early due.
  unfold runs, NotificationService.scheduleTaskReminder. rewrite Hd.
  unfold NotificationService.requestPermissions,
    NotificationService.scheduleNotificationAsync, try_catch, bind, platform.
  rewrite Hperm. cbn [negb].
  fold (reminderBefore P task (time d)). fold (reminderDue task (time d)).
  fold early. fold due.
  rewrite H1, H2.
  destruct early, due; cbn; eexists; (split; [reflexivity |]);
    unfold advanced; cbn; rewrite <- ?app_assoc; repeat split.
Qed.

(** Which reminders are scheduled depends on the clock alone, once the
    permission is granted and the scheduler accepts them: the early one
    while the instant [thirtyMinBefore] computes is ahead, the one for the
    deadline while the deadline is ahead.  The early one is set for thirty
    minutes before the deadline on the local clock, which is thirty minutes
    before the deadline unless the offset of local time changes in
    between. *)
Theorem scheduleTaskReminder_by_clock (task : Task) (d : DateObj) (i1 i2 : string)
        (w : World) :
  deadline task = Some d ->
  notif_requestPermissions P = Ok true ->
  notif_schedule P (reminderBefore P task (time d)) = Ok i1 ->
  notif_schedule P (reminderDue task (time d)) = Ok i2 ->
  let early := (p_now P <? NotificationService.thirtyMinBefore P (time d))%Z in
  let due := (p_now P <? time d)%Z in
  (exists w',
    runs (NotificationService.scheduleTaskReminder P task) w
         ((if early then [i1] else []) ++ (if due then [i2] else []))%list w'
    /\ advanced w w'
         ([RequestNotificationPermissions]
            ++ (if early then [ScheduleNotification (reminderBefore P task (time d))] else [])
            ++ (if due then [ScheduleNotification (reminderDue task (time d))] else []))%list)
  /\ NotificationService.thirtyMinBefore P (time d)
     = Date.UTC (p_zone P) (Date.LocalTime (p_zone P) (time d) - 1800000)
  /\ (offsetKeptBefore (p_zone P) (time d) ->
      n_trigger (reminderBefore P task (time d)) = time d - 1800000).
Proof.
  intros Hd Hperm H1 H2 early due. split; [ | split ].
  - exact (scheduleTaskReminder_runs task d i1 i2 w Hd Hperm H1 H2).
  - unfold NotificationService.thirtyMinBefore.
    replace (Date.getMinutes (p_zone P) (time d) - 30)
      with (Date.getMinutes (p_zone P) (time d) + (-30)) by lia.
    rewrite setMinutes_shift. f_equal; lia.
  - intros K. cbn [reminderBefore n_trigger]. now apply thirtyMinBefore_kept.
Qed.

(** A reminder can be left behind: when the first reminder has been
    scheduled and the second scheduling call rejects, the result is the empty
    list, so that the caller holds no reference to the reminder that was
    scheduled. *)
Theorem scheduleTaskReminder_loses_first_reminder (task : Task) (d : DateObj)
        (i1 e : string) (w : World) :
  deadline task = Some d ->
  notif_requestPermissions P = Ok true ->
  p_now P < NotificationService.thirtyMinBefore P (time d) ->
  p_now P < time d ->
  notif_schedule P (reminderBefore P task (time d)) = Ok i1 ->
  notif_schedule P (reminderDue task (time d)) = Throw e ->
  exists w',
    runs (NotificationService.scheduleTaskReminder P task) w [] w'
    /\ advanced w w'
         [ RequestNotificationPermissions;
           ScheduleNotification (reminderBefore P task (time d));
           ScheduleNotification (reminderDue task (time d)) ].
Proof.
  intros Hd Hperm Hnow Hdue H1 H2.
  unfold runs, NotificationService.scheduleTaskReminder. rewrite Hd.
  unfold NotificationService.requestPermissions,
    NotificationService.scheduleNotificationAsync, try_catch, bind, platform.
  rewrite Hperm. cbn [negb].
  fold (reminderBefore P task (time d)). fold (reminderDue task (time d)).
  rewrite H1, H2.
  assert ((p_now P <? NotificationService.thirtyMinBefore P (time d))%Z = true) as ->
    by (apply Z.ltb_lt; exact Hnow).
  assert ((p_now P <? time d)%Z = true) as -> by (apply Z.ltb_lt; exact Hdue).
  cbn. eexists. split; [reflexivity |].
  unfold advanced; cbn; rewrite <- ?app_assoc; repeat split.
Qed.

(** Without the permission, be it refused or failing to be asked, no
    reminder is scheduled. *)
Theorem scheduleTaskReminder_without_permission (task : Task) (w : World) :
  (notif_requestPermissions P = Ok false
   \/ exists e, notif_requestPermissions P = Throw e) ->
  exists w',
    runs (NotificationService.scheduleTaskReminder P task) w [] w'
    /\ advanced w w'
         (match deadline task with
          | Some _ => [RequestNotificationPermissions]
          | None => []
          end).
Proof.
  intros Hperm.
  unfold runs, NotificationService.scheduleTaskReminder.
  destruct (deadline task) as [d |].
  - unfold NotificationService.requestPermissions, try_catch, bind, platform.
    destruct Hperm as [-> | [e ->]]; cbn; eexists; (split; [reflexivity |]);
      unfold advanced; cbn; repeat split.
  - exists w. split; [reflexivity | apply advanced_refl].
Qed.

Lemma scheduleTaskReminder_yields_at_most_two (task : Task) :
  adapter (NotificationService.scheduleTaskReminder P task)
          (yields (fun ids => (List.length ids <= 2)%nat)).
Proof.
  unfold NotificationService.scheduleTaskReminder.
  destruct (deadline task) as [d |]; [ | apply adapter_yield; cbn; lia ].
  eapply adapter_try_catch with
    (Q1 := fun r => match r with
                    | Ok ids => (List.length ids <= 2)%nat
                    | Throw _ => True
                    end).
  - apply adapter_bind_resolves; [apply requestPermissions_resolves | intros has].
    destruct (negb has); [apply adapter_ret; cbn; lia |].
    eapply adapter_bind with
      (Q1 := fun r => match r with
                      | Ok ids => (List.length ids <= 1)%nat
                      | Throw _ => True
                      end).
    + destruct (_ <? _)%Z; [ | apply adapter_ret; cbn; lia ].
      eapply adapter_bind; [apply adapter_platform | | auto].
      intros i _. apply adapter_ret. cbn. lia.
    + intros ids1 H1. cbn in H1.
      eapply adapter_bind with
        (Q1 := fun r => match r with
                        | Ok ids => (List.length ids <= 2)%nat
                        | Throw _ => True
                        end).
      * destruct (_ <? _)%Z; [ | apply adapter_ret; cbn; lia ].
        eapply adapter_bind; [apply adapter_platform | | auto].
        intros i _. apply adapter_ret. cbn. rewrite length_app. cbn. lia.
      * intros ids2 H2. apply adapter_ret. exact H2.
      * auto.
    + auto.
  - intros ids H. exists ids. auto.
  - intros e _. eapply adapter_bind; [apply adapter_console_error | | ].
    + intros _ _. apply adapter_yield. cbn. lia.
    + intros e' [x Hx]. discriminate.
Qed.

(** For every device, [scheduleTaskReminder] resolves with at most two
    reminder references. *)
Theorem scheduleTaskReminder_at_most_two (task : Task) (w : World) :
  exists ids w',
    runs (NotificationService.scheduleTaskReminder P task) w ids w'
    /\ (List.length ids <= 2)%nat.
Proof.
  destruct (scheduleTaskReminder_yields_at_most_two task w) as [_ (ids & Hr & Hlen)].
  exists ids, (snd (NotificationService.scheduleTaskReminder P task w)).
  split; [ | exact Hlen ].
  unfold runs. rewrite <- Hr. now destruct (NotificationService.scheduleTaskReminder P task w).
Qed.

Lemma cancelAll_trace (ids : list string) (w : World) :
  exists r, NotificationService.cancelAll P ids w
            = (r, set_trace w (trace w ++ map CancelScheduledNotification ids)).
Proof.
  revert w. induction ids as [| i rest IH]; intros w; cbn.
  - exists (Ok tt). unfold ret. rewrite app_nil_r. now destruct w.
  - unfold platform.
    destruct (IH (set_trace w (trace w ++ [CancelScheduledNotification i]))) as [rs ->].
    cbn. rewrite <- app_assoc. cbn. eexists. reflexivity.
Qed.

Lemma cancelTaskReminders_runs (ids : list string) (w : World) :
  exists w',
    runs (NotificationService.cancelTaskReminders P ids) w tt w'
    /\ advanced w w' (map CancelScheduledNotification ids).
Proof.
  unfold runs, NotificationService.cancelTaskReminders, try_catch.
  destruct (cancelAll_trace ids w) as [[[] | e] ->]; cbn;
    eexists; (split; [reflexivity |]); unfold advanced; cbn; repeat split.
Qed.

(** Every reminder of the list is cancelled, in order, also after a
    cancellation that failed, and the caller never sees a failure. *)
Theorem cancelTaskReminders_cancels_all (ids : list string) (w : World) :
  exists w',
    runs (NotificationService.cancelTaskReminders P ids) w tt w'
    /\ advanced w w' (map CancelScheduledNotification ids).
Proof. exact (cancelTaskReminders_runs ids w). Qed.

Lemma ensureCalendar_ready (w : World) :
  calendarReady w -> CalendarService.ensureCalendar P w = (Ok true, w).
Proof.
  unfold calendarReady, CalendarService.ensureCalendar, bind, get. now intros ->.
Qed.

Lemma addTaskToCalendar_runs (task : Task) (d : DateObj) (c : string) (w : World) :
  deadline task = Some d ->
  deviceCalendarId w = Some c ->
  truthy c = true ->
  exists w',
    runs (CalendarService.addTaskToCalendar P task) w
         (match cal_createEvent P c (eventCreated P task (time d)) with
          | Ok eventId => Some eventId
          | Throw _ => None
          end) w'
    /\ advanced w w' [CreateEvent c (eventCreated P task (time d))].
Proof.
  intros Hd Hc Htruthy.
  unfold runs, CalendarService.addTaskToCalendar. rewrite Hd.
  unfold try_catch, bind at 1. rewrite ensureCalendar_ready
    by (unfold calendarReady; rewrite Hc; exact Htruthy).
  cbn [negb]. unfold bind, get, platform, CalendarService.notes_of. rewrite Hc.
  fold (eventCreated P task (time d)).
  destruct (cal_createEvent P c (eventCreated P task (time d))); cbn;
    eexists; (split; [reflexivity |]); unfold advanced; cbn; repeat split.
Qed.

(** With a calendar set up, [addTaskToCalendar] makes one call: it creates
    on that calendar an event that starts at the deadline and has an alarm
    thirty minutes before.  The event ends one hour later on the local
    clock, which is one hour after the deadline unless the offset of local
    time changes in between.  It returns the reference the device gives,
    and none when the device rejects the call. *)
Theorem addTaskToCalendar_creates_one_event (task : Task) (d : DateObj) (c : string)
        (w : World) :
  deadline task = Some d ->
  deviceCalendarId w = Some c ->
  truthy c = true ->
  (exists w',
    runs (CalendarService.addTaskToCalendar P task) w
         (match cal_createEvent P c (eventCreated P task (time d)) with
          | Ok eventId => Some eventId
          | Throw _ => None
          end) w'
    /\ advanced w w' [CreateEvent c (eventCreated P task (time d))])
  /\ ev_startDate (eventCreated P task (time d)) = time d
  /\ ev_alarms (eventCreated P task (time d)) = [-30]
  /\ ev_endDate (eventCreated P task (time d))
     = Date.UTC (p_zone P) (Date.LocalTime (p_zone P) (time d) + 3600000)
  /\ (offsetKeptAfter (p_zone P) (time d) ->
      ev_endDate (eventCreated P task (time d)) = time d + 3600000).
Proof.
  intros Hd Hc Htruthy. split; [ | split; [ | split; [ | split ] ] ].
  - exact (addTaskToCalendar_runs task d c w Hd Hc Htruthy).
  - reflexivity.
  - reflexivity.
  - cbn [eventCreated ev_endDate]. unfold CalendarService.plusOneHour.
    rewrite setHours_shift. f_equal; lia.
  - intros K. cbn [eventCreated ev_endDate]. now apply plusOneHour_kept.
Qed.

Lemma updateTaskInCalendar_ready (task : Task) (d : DateObj) (eventId : string)
      (w : World) :
  deadline task = Some d -> truthy eventId = true -> calendarReady w ->
  exists b w',
    runs (CalendarService.updateTaskInCalendar P task eventId) w b w'
    /\ advanced w w' [UpdateEvent eventId (eventUpdated P task (time d))].
Proof.
  intros Hd He Hready.
  unfold runs, CalendarService.updateTaskInCalendar. rewrite Hd, He. cbn [negb].
  unfold try_catch, bind at 1. rewrite (ensureCalendar_ready w Hready).
  cbn [negb]. unfold bind, platform, CalendarService.notes_of.
  fold (eventUpdated P task (time d)).
  destruct (cal_updateEvent P eventId (eventUpdated P task (time d))); cbn;
    do 2 eexists; (split; [reflexivity |]); unfold advanced; cbn; repeat split.
Qed.

Lemma removeTaskFromCalendar_ready (eventId : string) (w : World) :
  calendarReady w ->
  exists b w',
    runs (CalendarService.removeTaskFromCalendar P eventId) w b w'
    /\ advanced w w' [DeleteEvent eventId].
Proof.
  intros Hready.
  unfold runs, CalendarService.removeTaskFromCalendar.
  unfold try_catch, bind at 1. rewrite (ensureCalendar_ready w Hready).
  cbn [negb]. unfold bind, platform.
  destruct (cal_deleteEvent P eventId); cbn;
    do 2 eexists; (split; [reflexivity |]); unfold advanced; cbn; repeat split.
Qed.

(** Without a calendar set up and without the calendar permission (refused,
    or failing to be asked), [addTaskToCalendar] shows the alert, creates no
    event, returns no reference and leaves the service without a
    calendar. *)
Theorem addTaskToCalendar_without_permission (task : Task) (d : DateObj) (w : World) :
  deadline task = Some d ->
  truthy_opt (deviceCalendarId w) = false ->
  (cal_requestPermissions P = Ok false
   \/ exists e, cal_requestPermissions P = Throw e) ->
  exists w',
    runs (CalendarService.addTaskToCalendar P task) w None w'
    /\ advanced w w' [RequestCalendarPermissions; AlertShown "Permission Required"].
Proof.
  intros Hd Hnone Hperm.
  unfold runs, CalendarService.addTaskToCalendar. rewrite Hd.
  unfold CalendarService.ensureCalendar, CalendarService.setupCalendar,
    CalendarService.requestCalendarPermissions, try_catch, bind, get, platform.
  rewrite Hnone.
  destruct Hperm as [-> | [e ->]]; cbn; eexists; (split; [reflexivity |]);
    unfold advanced; cbn; rewrite <- ?app_assoc; repeat split.
Qed.

(** [setupCalendar] takes the first calendar of the device that can be
    written (on iOS one that allows modifications, on Android one the user
    owns) and keeps its id; with that id kept, the next operation goes
    straight to its own call. *)
Theorem setupCalendar_keeps_first_writable (cals : list CalendarInfo)
        (cal : CalendarInfo) (w : World) :
  cal_requestPermissions P = Ok true ->
  cal_getCalendars P = Ok cals ->
  find (CalendarService.is_default_calendar P) cals = Some cal ->
  truthy (cal_id cal) = true ->
  exists w',
    runs (CalendarService.setupCalendar P) w true w'
    /\ deviceCalendarId w' = Some (cal_id cal)
    /\ trace w' = (trace w ++ [RequestCalendarPermissions; GetCalendars])%list
    /\ tasks w' = tasks w /\ pending w' = pending w /\ file w' = file w
    /\ CalendarService.ensureCalendar P w' = (Ok true, w').
Proof.
  intros Hperm Hcals Hfind Htruthy.
  unfold runs, CalendarService.setupCalendar,
    CalendarService.requestCalendarPermissions, try_catch, bind, platform.
  rewrite Hperm. cbn [negb]. rewrite Hcals, Hfind. cbn.
  eexists. split; [reflexivity |]. cbn. rewrite <- app_assoc. cbn.
  repeat split.
  now rewrite Htruthy.
Qed.

End AdapterCalls.

Lemma scheduleTaskReminder_by_clock_witness :
  notif_requestPermissions inNewYork = Ok true
  /\ (exists w',
        runs (NotificationService.scheduleTaskReminder inNewYork nightly)
             (atRest [nightly]) ["n1793513700000"] w'
        /\ trace w' = [ RequestNotificationPermissions;
                        ScheduleNotification (reminderDue nightly 1793513700000) ])
  /\ NotificationService.thirtyMinBefore inNewYork 1793513700000
     = 1793513700000 - 5400000.
Proof.
  split; [reflexivity |].
  destruct (scheduleTaskReminder_by_clock inNewYork nightly (mkDateObj 4 1793513700000)
              "n1793508300000" "n1793513700000" (atRest [nightly])
              eq_refl eq_refl eq_refl eq_refl)
    as ((w' & R & A & _) & T & _).
  split; [ | exact T ].
  exists w'. split; [exact R | exact A].
Defined.

Lemma scheduleTaskReminder_loses_first_reminder_witness :
  notif_schedule rejectingDue (reminderDue report 5000000) = Throw "scheduler"
  /\ exists w',
       runs (NotificationService.scheduleTaskReminder rejectingDue report)
            (atRest [report]) [] w'
       /\ trace w' = [ RequestNotificationPermissions;
                       ScheduleNotification (reminderBefore rejectingDue report 5000000);
                       ScheduleNotification (reminderDue report 5000000) ].
Proof.
  split; [reflexivity |].
  destruct (scheduleTaskReminder_loses_first_reminder rejectingDue report
              (mkDateObj 1 5000000) "n3200000" "scheduler" (atRest [report])
              eq_refl eq_refl eq_refl eq_refl eq_refl eq_refl)
    as (w' & R & A & _).
  exists w'. split; [exact R | exact A].
Defined.

Lemma scheduleTaskReminder_without_permission_witness :
  notif_requestPermissions refusing = Ok false
  /\ exists w',
       runs (NotificationService.scheduleTaskReminder refusing report)
            (atRest [report]) [] w'
       /\ trace w' = [RequestNotificationPermissions].
Proof.
  split; [reflexivity |].
  destruct (scheduleTaskReminder_without_permission refusing report (atRest [report])
              (or_introl eq_refl))
    as (w' & R & A & _).
  exists w'. split; [exact R | exact A].
Defined.

Lemma addTaskToCalendar_creates_one_event_witness :
  offsetKeptAfter newYork 1793513700000
  /\ (exists w',
        runs (CalendarService.addTaskToCalendar inNewYork nightly) (calendarSet [nightly])
             (Some "ev1") w'
        /\ trace w' = [CreateEvent "cal" (eventCreated inNewYork nightly 1793513700000)])
  /\ ev_endDate (eventCreated inNewYork nightly 1793513700000)
     = 1793513700000 + 3600000.
Proof.
  assert (K : offsetKeptAfter newYork 1793513700000) by reflexivity.
  split; [exact K |].
  destruct (addTaskToCalendar_creates_one_event inNewYork nightly
              (mkDateObj 4 1793513700000) "cal" (calendarSet [nightly])
              eq_refl eq_refl eq_refl)
    as ((w' & R & A & _) & _ & _ & _ & E).
  split; [ | exact (E K) ].
  exists w'. split; [exact R | exact A].
Defined.

Lemma addTaskToCalendar_without_permission_witness :
  cal_requestPermissions refusing = Ok false
  /\ exists w',
       runs (CalendarService.addTaskToCalendar refusing report) (atRest [report])
            None w'
       /\ trace w' = [RequestCalendarPermissions; AlertShown "Permission Required"]
       /\ deviceCalendarId w' = None.
Proof.
  split; [reflexivity |].
  destruct (addTaskToCalendar_without_permission refusing report (mkDateObj 1 5000000)
              (atRest [report]) eq_refl eq_refl (or_introl eq_refl))
    as (w' & R & A & _ & _ & _ & C & _).
  exists w'. split; [exact R | split; [exact A | exact C]].
Defined.

Lemma setupCalendar_keeps_first_writable_witness :
  find (CalendarService.is_default_calendar device) [mkCalendar "cal" true true]
  = Some (mkCalendar "cal" true true)
  /\ exists w',
       runs (CalendarService.setupCalendar device) (atRest []) true w'
       /\ deviceCalendarId w' = Some "cal"
       /\ CalendarService.ensureCalendar device w' = (Ok true, w').
Proof.
  split; [reflexivity |].
  destruct (setupCalendar_keeps_first_writable device [mkCalendar "cal" true true]
              (mkCalendar "cal" true true) (atRest [])
              eq_refl eq_refl eq_refl eq_refl)
    as (w' & R & C & _ & _ & _ & _ & E).
  exists w'. split; [exact R | split; [exact C | exact E]].
Defined.


(* ================================================================== *)
(** ** What the mutations do to the device and to the collection *)
(* ================================================================== *)

Section Mutations.
Variable P : Platform.

Lemma store_runs {A} (mut : M unit) (m : M A) (k : A -> Action) (tag : string)
      (w w1 : World) (a : A) (calls : list PlatformCall) :
  mut w = try_catch (bind m (fun a => dispatch (k a)))
                    (fun error => console_error tag ;;; throw error) w ->
  pending w = [] ->
  runs m w a w1 ->
  advanced w w1 calls ->
  fst (call P mut w) = Ok tt
  /\ tasks (snd (call P mut w)) = taskReducer (tasks w) (k a)
  /\ trace (snd (call P mut w)) = (trace w ++ calls)%list
  /\ pending (snd (call P mut w)) = [].
Proof.
  intros Hmut Hp Hruns (Htr & Ht & Hq & _).
  assert (Hm : mut w = (Ok tt, set_pending w1 (pending w1 ++ [k a]))).
  { rewrite Hmut. unfold try_catch, bind. rewrite Hruns. reflexivity. }
  destruct (call_dispatching P mut w _ _ (k a) Hp Hm) as (C1 & C2 & C3 & C4).
  - exact Ht.
  - cbn. now rewrite Hq.
  - repeat split; try assumption. rewrite C4. exact Htr.
Qed.

Lemma cancel_old_runs (ids : option (list string)) (w : World) :
  exists w',
    runs (match nonempty_ids ids with
          | Some l => NotificationService.cancelTaskReminders P l
          | None => ret tt
          end) w tt w'
    /\ advanced w w' (cancellations ids).
Proof.
  destruct ids as [[| i l] |]; cbn [nonempty_ids].
  - exists w. split; [reflexivity | apply advanced_refl].
  - apply cancelTaskReminders_runs.
  - exists w. split; [reflexivity | apply advanced_refl].
Qed.

(** Deleting an id that is not stored calls nothing on the device and
    leaves the collection as it is. *)
Theorem deleteTask_unknown_id (i : string) (w : World) :
  pending w = [] ->
  getTaskById (tasks w) i = None ->
  fst (call P (deleteTask P i) w) = Ok tt
  /\ tasks (snd (call P (deleteTask P i) w)) = tasks w
  /\ trace (snd (call P (deleteTask P i) w)) = trace w.
Proof.
  intros Hp Hfind.
  destruct (store_runs (deleteTask P i) (ret tt) (fun _ => DELETE_TASK i)
              "Error deleting task:" w w tt [])
    as (C1 & C2 & C3 & _); try assumption.
  - unfold deleteTask. rewrite try_catch_get, Hfind. reflexivity.
  - reflexivity.
  - apply advanced_refl.
  - rewrite C2, C3, app_nil_r. rewrite (delete_unknown i (tasks w) Hfind). auto.
Qed.

(** Deleting a stored task that has reminders and a calendar event, with a
    calendar set up: every reminder is cancelled, then the event is deleted,
    and whatever the device answers to these calls the task is removed, so
    that its id is not found afterwards. *)
Theorem deleteTask_releases_then_removes (i e : string) (t : Task) (w : World) :
  pending w = [] ->
  getTaskById (tasks w) i = Some t ->
  calendarEventId t = Some e -> truthy e = true ->
  calendarReady w ->
  let after := call P (deleteTask P i) w in
  fst after = Ok tt
  /\ trace (snd after)
     = (trace w ++ cancellations (notificationIds t) ++ [DeleteEvent e])%list
  /\ getTaskById (tasks (snd after)) i = None
  /\ forall j, j <> i -> getTaskById (tasks (snd after)) j = getTaskById (tasks w) j.
Proof.
  intros Hp Hfind He Htruthy Hready after.
  destruct (cancel_old_runs (notificationIds t) w) as (w1 & Hc & Hadv1).
  assert (Hready1 : calendarReady w1).
  { unfold calendarReady in *. destruct Hadv1 as (_ & _ & _ & _ & -> & _). exact Hready. }
  destruct (removeTaskFromCalendar_ready P e w1 Hready1) as (b & w2 & Hr & Hadv2).
  destruct (store_runs (deleteTask P i)
              (match nonempty_ids (notificationIds t) with
               | Some ids => NotificationService.cancelTaskReminders P ids
               | None => ret tt
               end ;;;
               CalendarService.removeTaskFromCalendar P e ;;; ret tt)
              (fun _ => DELETE_TASK i) "Error deleting task:" w w2 tt
              (cancellations (notificationIds t) ++ [DeleteEvent e]))
    as (C1 & C2 & C3 & _); try assumption.
  - unfold deleteTask. rewrite try_catch_get, Hfind, He. cbn [truthy_opt].
    rewrite Htruthy. reflexivity.
  - eapply runs_bind; [exact Hc |]. eapply runs_bind; [exact Hr | reflexivity].
  - eapply advanced_trans; eassumption.
  - subst after. rewrite C1, C2, C3. repeat split.
    + apply getTaskById_deleted.
    + intros j Hj. now apply getTaskById_delete_other.
Qed.

(** An update for an id that is not stored calls nothing on the device and
    leaves the collection as it is: the task is not inserted. *)
Theorem updateTask_unknown_id (task : Task) (w : World) :
  pending w = [] ->
  getTaskById (tasks w) (id task) = None ->
  fst (call P (updateTask P task) w) = Ok tt
  /\ tasks (snd (call P (updateTask P task) w)) = tasks w
  /\ trace (snd (call P (updateTask P task) w)) = trace w.
Proof.
  intros Hp Hfind.
  destruct (store_runs (updateTask P task) (ret task) UPDATE_TASK
              "Error updating task:" w w task [])
    as (C1 & C2 & C3 & _); try assumption.
  - unfold updateTask. rewrite try_catch_get, Hfind. reflexivity.
  - reflexivity.
  - apply advanced_refl.
  - rewrite C2, C3, app_nil_r.
    pose proof (replaceById_unknown task (tasks w) Hfind) as Hsame.
    unfold replaceById in Hsame. rewrite Hsame. auto.
Qed.

(** Removing the deadline of a stored task that has a calendar event, with
    a calendar set up: the stored reminders are cancelled, the event is
    deleted, and the task is stored with its event reference cleared,
    whatever the device answers.  Its [notificationIds] are those of the
    replacement. *)
Theorem updateTask_deadline_removed (task old : Task) (e : string) (w : World) :
  pending w = [] ->
  getTaskById (tasks w) (id task) = Some old ->
  deadline old <> None -> deadline task = None ->
  calendarEventId old = Some e -> truthy e = true ->
  calendarReady w ->
  let after := call P (updateTask P task) w in
  fst after = Ok tt
  /\ trace (snd after)
     = (trace w ++ cancellations (notificationIds old) ++ [DeleteEvent e])%list
  /\ getTaskById (tasks (snd after)) (id task) = Some (with_calendarEventId task None)
  /\ notificationIds (with_calendarEventId task None) = notificationIds task.
Proof.
  intros Hp Hfind Hold Hnone He Htruthy Hready after.
  destruct (cancel_old_runs (notificationIds old) w) as (w1 & Hc & Hadv1).
  assert (Hready1 : calendarReady w1).
  { unfold calendarReady in *. destruct Hadv1 as (_ & _ & _ & _ & -> & _). exact Hready. }
  destruct (removeTaskFromCalendar_ready P e w1 Hready1) as (b & w2 & Hr & Hadv2).
  assert (Hstrict : strict_neq (deadline task) (deadline old) = true).
  { rewrite Hnone. destruct (deadline old); [reflexivity | contradiction]. }
  assert (C : fst (call P (updateTask P task) w) = Ok tt
              /\ tasks (snd (call P (updateTask P task) w))
                 = taskReducer (tasks w) (UPDATE_TASK (with_calendarEventId task None))
              /\ trace (snd (call P (updateTask P task) w))
                 = (trace w ++ cancellations (notificationIds old) ++ [DeleteEvent e])%list
              /\ pending (snd (call P (updateTask P task) w)) = []).
  { eapply store_runs with (k := UPDATE_TASK) (a := with_calendarEventId task None)
                           (tag := "Error updating task:") (w1 := w2).
    - unfold updateTask. rewrite try_catch_get, Hfind, Hstrict. reflexivity.
    - exact Hp.
    - eapply runs_bind; [exact Hc |]. rewrite Hnone.
      eapply runs_bind; [reflexivity |]. rewrite Hnone, He. cbn [truthy_opt].
      rewrite Htruthy.
      eapply runs_bind; [exact Hr | reflexivity].
    - eapply advanced_trans; eassumption. }
  destruct C as (C1 & C2 & C3 & _).
  subst after. rewrite C1, C2, C3.
  split; [reflexivity |]. split; [reflexivity |]. split; [ | reflexivity ].
  change (getTaskById (replaceById (with_calendarEventId task None) (tasks w)) (id task)
          = Some (with_calendarEventId task None)).
  assert (Hid : id (with_calendarEventId task None) = id task) by reflexivity.
  rewrite <- Hid. apply getTaskById_replaceById with (old := old).
  now rewrite Hid.
Qed.

Lemma calendarReady_advanced (w w' : World) (calls : list PlatformCall) :
  advanced w w' calls -> calendarReady w -> calendarReady w'.
Proof. unfold calendarReady. intros (_ & _ & _ & _ & -> & _). auto. Qed.

(** Moving the deadline of a stored task that has a calendar event to
    another date, with both reminder instants ahead of the clock, on a
    device that grants the permission and accepts the reminders: the stored
    reminders are cancelled, two new ones are scheduled, the event is
    updated in place, and the task is stored with the new reminder
    references and the event reference it had.  The early reminder and the
    end of the event are the dates [thirtyMinBefore] and [plusOneHour]
    compute on the local clock. *)
Theorem updateTask_deadline_moved (task old : Task) (d : DateObj) (e i1 i2 : string)
        (w : World) :
  pending w = [] ->
  getTaskById (tasks w) (id task) = Some old ->
  deadline task = Some d ->
  strict_neq (deadline task) (deadline old) = true ->
  calendarEventId old = Some e -> truthy e = true ->
  calendarReady w ->
  notif_requestPermissions P = Ok true ->
  notif_schedule P (reminderBefore P task (time d)) = Ok i1 ->
  notif_schedule P (reminderDue task (time d)) = Ok i2 ->
  p_now P < NotificationService.thirtyMinBefore P (time d) ->
  p_now P < time d ->
  let stored := with_calendarEventId (with_notificationIds task (Some [i1; i2])) (Some e) in
  let after := call P (updateTask P task) w in
  fst after = Ok tt
  /\ trace (snd after)
     = (trace w ++ cancellations (notificationIds old)
          ++ [ RequestNotificationPermissions;
               ScheduleNotification (reminderBefore P task (time d));
               ScheduleNotification (reminderDue task (time d));
               UpdateEvent e (eventUpdated P task (time d)) ])%list
  /\ getTaskById (tasks (snd after)) (id task) = Some stored.
Proof.
  intros Hp Hfind Hd Hstrict He Htruthy Hready Hperm H1 H2 Hnow Hdue stored after.
  destruct (cancel_old_runs (notificationIds old) w) as (w1 & Hc & Hadv1).
  destruct (scheduleTaskReminder_runs P task d i1 i2 w1 Hd Hperm H1 H2)
    as (w2 & Hs & Hadv2).
  assert (E1 : (p_now P <? NotificationService.thirtyMinBefore P (time d))%Z = true)
    by (now apply Z.ltb_lt).
  assert (E2 : (p_now P <? time d)%Z = true) by (now apply Z.ltb_lt).
  cbv zeta in Hs, Hadv2. rewrite E1, E2 in Hs, Hadv2. cbn [app] in Hs, Hadv2.
  assert (Hready2 : calendarReady w2)
    by (eapply calendarReady_advanced; [exact Hadv2 |];
        eapply calendarReady_advanced; eassumption).
  destruct (updateTaskInCalendar_ready P (with_notificationIds task (Some [i1; i2]))
              d e w2 Hd Htruthy Hready2) as (b & w3 & Hu & Hadv3).
  assert (C : fst (call P (updateTask P task) w) = Ok tt
              /\ tasks (snd (call P (updateTask P task) w))
                 = taskReducer (tasks w) (UPDATE_TASK stored)
              /\ trace (snd (call P (updateTask P task) w))
                 = (trace w ++ (cancellations (notificationIds old)
                       ++ [ RequestNotificationPermissions;
                            ScheduleNotification (reminderBefore P task (time d));
                            ScheduleNotification (reminderDue task (time d)) ])
                       ++ [UpdateEvent e (eventUpdated P task (time d))])%list
              /\ pending (snd (call P (updateTask P task) w)) = []).
  { eapply store_runs with (k := UPDATE_TASK) (a := stored)
                           (tag := "Error updating task:") (w1 := w3).
    - unfold updateTask. rewrite try_catch_get, Hfind, Hstrict. reflexivity.
    - exact Hp.
    - eapply runs_bind; [exact Hc |]. rewrite Hd.
      eapply runs_bind; [eapply runs_bind; [exact Hs | reflexivity] |].
      cbn [deadline with_notificationIds]. rewrite Hd, He. cbn [truthy_opt].
      rewrite Htruthy.
      eapply runs_bind; [exact Hu | reflexivity].
    - eapply advanced_trans; [eapply advanced_trans; eassumption | exact Hadv3]. }
  destruct C as (C1 & C2 & C3 & _).
  subst after. rewrite C1, C2, C3.
  split; [reflexivity |]. split; [now rewrite <- !app_assoc |].
  change (getTaskById (replaceById stored (tasks w)) (id task) = Some stored).
  assert (Hid : id stored = id task) by reflexivity.
  rewrite <- Hid. apply getTaskById_replaceById with (old := old).
  now rewrite Hid.
Qed.

(** Adding a task with both reminder instants ahead of the clock, with a
    calendar set up, on a device that creates the event, grants the
    permission and accepts the reminders: one event is created, two
    reminders are scheduled, and the task enters the collection with both
    references.  The early reminder and the end of the event are the dates
    [thirtyMinBefore] and [plusOneHour] compute on the local clock. *)
Theorem addTask_with_deadline (task : Task) (d : DateObj) (c ev i1 i2 : string)
        (w : World) :
  pending w = [] ->
  deadline task = Some d ->
  deviceCalendarId w = Some c -> truthy c = true ->
  cal_createEvent P c (eventCreated P task (time d)) = Ok ev -> truthy ev = true ->
  notif_requestPermissions P = Ok true ->
  notif_schedule P (reminderBefore P task (time d)) = Ok i1 ->
  notif_schedule P (reminderDue task (time d)) = Ok i2 ->
  p_now P < NotificationService.thirtyMinBefore P (time d) ->
  p_now P < time d ->
  let stored := with_notificationIds (with_calendarEventId task (Some ev)) (Some [i1; i2]) in
  let after := call P (addTask P task) w in
  fst after = Ok tt
  /\ trace (snd after)
     = (trace w ++ [ CreateEvent c (eventCreated P task (time d));
                     RequestNotificationPermissions;
                     ScheduleNotification (reminderBefore P task (time d));
                     ScheduleNotification (reminderDue task (time d)) ])%list
  /\ tasks (snd after) = (tasks w ++ [stored])%list.
Proof.
  intros Hp Hd Hc Htc Hev Htev Hperm H1 H2 Hnow Hdue stored after.
  destruct (addTaskToCalendar_runs P task d c w Hd Hc Htc) as (w1 & Ha & Hadv1).
  rewrite Hev in Ha.
  destruct (scheduleTaskReminder_runs P (with_calendarEventId task (Some ev))
              d i1 i2 w1 Hd Hperm H1 H2) as (w2 & Hs & Hadv2).
  assert (E1 : (p_now P <? NotificationService.thirtyMinBefore P (time d))%Z = true)
    by (now apply Z.ltb_lt).
  assert (E2 : (p_now P <? time d)%Z = true) by (now apply Z.ltb_lt).
  cbv zeta in Hs, Hadv2. rewrite E1, E2 in Hs, Hadv2. cbn [app] in Hs, Hadv2.
  assert (C : fst (call P (addTask P task) w) = Ok tt
              /\ tasks (snd (call P (addTask P task) w))
                 = taskReducer (tasks w) (ADD_TASK stored)
              /\ trace (snd (call P (addTask P task) w))
                 = (trace w ++ [CreateEvent c (eventCreated P task (time d))]
                       ++ [ RequestNotificationPermissions;
                            ScheduleNotification (reminderBefore P task (time d));
                            ScheduleNotification (reminderDue task (time d)) ])%list
              /\ pending (snd (call P (addTask P task) w)) = []).
  { eapply store_runs with (k := ADD_TASK) (a := stored)
                           (tag := "Error adding task:") (w1 := w2).
    - unfold addTask. rewrite Hd. reflexivity.
    - exact Hp.
    - eapply runs_bind; [exact Ha |]. cbn [truthy_opt]. rewrite Htev.
      eapply runs_bind; [exact Hs | reflexivity].
    - eapply advanced_trans; eassumption. }
  destruct C as (C1 & C2 & C3 & _).
  subst after. rewrite C1, C2, C3. repeat split.
Qed.

(** Adding a task without a deadline calls nothing on the device, and the
    task enters the collection as it was given. *)
Theorem addTask_without_deadline (task : Task) (w : World) :
  pending w = [] ->
  deadline task = None ->
  let after := call P (addTask P task) w in
  fst after = Ok tt
  /\ trace (snd after) = trace w
  /\ tasks (snd after) = (tasks w ++ [task])%list.
Proof.
  intros Hp Hd after.
  destruct (store_runs (addTask P task) (ret task) ADD_TASK
              "Error adding task:" w w task [])
    as (C1 & C2 & C3 & _); try assumption.
  - unfold addTask. rewrite Hd. reflexivity.
  - reflexivity.
  - apply advanced_refl.
  - subst after. rewrite C1, C2, C3, app_nil_r. repeat split.
Qed.

End Mutations.

Lemma deleteTask_releases_then_removes_witness :
  getTaskById [report; commented] "t1" = Some report
  /\ trace (snd (call device (deleteTask device "t1") (calendarSet [report; commented])))
     = [CancelScheduledNotification "n0"; DeleteEvent "ev0"]
  /\ getTaskById
       (tasks (snd (call device (deleteTask device "t1")
                      (calendarSet [report; commented])))) "t1" = None.
Proof.
  split; [reflexivity |].
  pose proof (deleteTask_releases_then_removes device "t1" "ev0" report
                (calendarSet [report; commented])
                eq_refl eq_refl eq_refl eq_refl eq_refl) as H.
  cbv zeta in H. destruct H as (_ & T & G & _).
  split; [exact T | exact G].
Defined.

Lemma updateTask_unknown_id_witness :
  getTaskById [report] (id errand) = None
  /\ tasks (snd (call device (updateTask device errand) (atRest [report]))) = [report]
  /\ trace (snd (call device (updateTask device errand) (atRest [report]))) = [].
Proof.
  split; [reflexivity |].
  destruct (updateTask_unknown_id device errand (atRest [report]) eq_refl eq_refl)
    as (_ & T & C).
  split; [exact T | exact C].
Defined.

Lemma updateTask_deadline_removed_witness :
  deadline reportUndated = None
  /\ trace (snd (call device (updateTask device reportUndated) (calendarSet [report])))
     = [CancelScheduledNotification "n0"; DeleteEvent "ev0"]
  /\ getTaskById
       (tasks (snd (call device (updateTask device reportUndated)
                      (calendarSet [report])))) "t1"
     = Some reportUndated.
Proof.
  split; [reflexivity |].
  assert (Hd : deadline report <> None) by discriminate.
  pose proof (updateTask_deadline_removed device reportUndated report "ev0"
                (calendarSet [report])
                eq_refl eq_refl Hd eq_refl eq_refl eq_refl eq_refl) as H.
  cbv zeta in H. destruct H as (_ & T & G & _).
  split; [exact T | exact G].
Defined.

Lemma updateTask_deadline_moved_witness :
  strict_neq (deadline reportMoved) (deadline report) = true
  /\ trace (snd (call device (updateTask device reportMoved) (calendarSet [report])))
     = [ CancelScheduledNotification "n0";
         RequestNotificationPermissions;
         ScheduleNotification (reminderBefore device reportMoved 9000000);
         ScheduleNotification (reminderDue reportMoved 9000000);
         UpdateEvent "ev0" (eventUpdated device reportMoved 9000000) ]
  /\ getTaskById
       (tasks (snd (call device (updateTask device reportMoved)
                      (calendarSet [report])))) "t1"
     = Some (with_calendarEventId
               (with_notificationIds reportMoved (Some ["n7200000"; "n9000000"]))
               (Some "ev0")).
Proof.
  split; [reflexivity |].
  pose proof (updateTask_deadline_moved device reportMoved report (mkDateObj 2 9000000)
                "ev0" "n7200000" "n9000000" (calendarSet [report])
                eq_refl eq_refl eq_refl eq_refl eq_refl eq_refl eq_refl
                eq_refl eq_refl eq_refl eq_refl eq_refl) as H.
  cbv zeta in H. destruct H as (_ & T & G).
  split; [exact T | exact G].
Defined.

Lemma addTask_with_deadline_witness :
  deadline errand = Some (mkDateObj 3 7000000)
  /\ trace (snd (call device (addTask device errand) (calendarSet [report])))
     = [ CreateEvent "cal" (eventCreated device errand 7000000);
         RequestNotificationPermissions;
         ScheduleNotification (reminderBefore device errand 7000000);
         ScheduleNotification (reminderDue errand 7000000) ]
  /\ tasks (snd (call device (addTask device errand) (calendarSet [report])))
     = [ report;
         with_notificationIds (with_calendarEventId errand (Some "ev1"))
           (Some ["n5200000"; "n7000000"]) ].
Proof.
  split; [reflexivity |].
  pose proof (addTask_with_deadline device errand (mkDateObj 3 7000000)
                "cal" "ev1" "n5200000" "n7000000" (calendarSet [report])
                eq_refl eq_refl eq_refl eq_refl eq_refl eq_refl eq_refl
                eq_refl eq_refl eq_refl eq_refl) as H.
  cbv zeta in H. destruct H as (_ & T & G).
  split; [exact T | exact G].
Defined.


(* ================================================================== *)
(** ** The stored file *)
(* ================================================================== *)

Section StoredFile.
Variable P : Platform.

Lemma stringify_format_sessions (l : list Session) :
  map stringify_session (map format_session (map stringify_session l))
  = map stringify_session l.
Proof. now rewrite format_stringify_sessions. Qed.

Lemma stringify_formatTask (obj : nat) (t : Task) :
  stringify_task (formatTask obj (stringify_task t)) = stringify_task t.
Proof.
  destruct t. unfold stringify_task, formatTask. cbn. f_equal.
  - destruct deadline0; reflexivity.
  - destruct startTime0; reflexivity.
  - destruct comments0 as [l |]; cbn; [ | reflexivity ].
    f_equal. rewrite !map_map. apply map_ext. intros c. reflexivity.
  - destruct timeTracking0 as [[total l] |]; cbn; [ | reflexivity ].
    now rewrite stringify_format_sessions.
  - destruct recurrence0 as [[ty iv [en |] cn] |]; reflexivity.
  - destruct completedAt0; reflexivity.
Qed.

Lemma stringify_formatTasks (n : nat) (ts : list Task) :
  JSON_stringify (formatTasks n (JSON_stringify ts)) = JSON_stringify ts.
Proof.
  revert n. induction ts as [| t rest IH]; intros n; cbn; [reflexivity |].
  rewrite stringify_formatTask. f_equal. apply IH.
Qed.

Lemma formatTask_only_converted (obj : nat) (t : Task) :
  onlyConvertedDates t -> formatTask obj (stringify_task t) = with_deadline_object t obj.
Proof.
  intros [Hc Hcs]. pose proof (formatTask_stringify_converted obj t) as H.
  cbv zeta in H. destruct H as (H1 & H2 & H3 & H4 & H5 & H6).
  destruct t; cbn in *. subst completedAt0.
  unfold with_deadline_object, formatTask, stringify_task. cbn.
  f_equal; try assumption.
  - now destruct deadline0.
  - destruct Hcs as [-> | ->]; reflexivity.
Qed.

Lemma formatTasks_only_converted (n : nat) (ts : list Task) :
  (forall t, In t ts -> onlyConvertedDates t) ->
  Forall2 (fun t t' => exists obj, t' = with_deadline_object t obj)
          ts (formatTasks n (JSON_stringify ts)).
Proof.
  revert n. induction ts as [| t rest IH]; intros n H; cbn; constructor.
  - exists n. apply formatTask_only_converted. apply H. now left.
  - apply IH. intros t' Hin. apply H. now right.
Qed.

Lemma formatTasks_ids (n : nat) (ts : list Task) :
  map id (formatTasks n (JSON_stringify ts)) = map id ts.
Proof.
  revert n. induction ts as [| t rest IH]; intros n; cbn; [reflexivity |].
  f_equal. apply IH.
Qed.

(** What a launch finds: the formatted tasks of the file when it is there
    and can be read, and nothing otherwise. *)
Lemma relaunch_tasks (w : World) :
  tasks (relaunch P w)
  = match file w, fs_read P with
    | Some loaded, Ok _ => formatTasks (next_obj w) loaded
    | _, _ => []
    end.
Proof.
  unfold relaunch, loadTasks, try_catch, bind, get. cbn.
  destruct (file w) as [loaded |]; cbn; [ | reflexivity ].
  destruct (fs_read P) as [[] | e]; cbn; [ | reflexivity ].
  unfold render. cbn.
  destruct (saveEffect_absorbs P
              (set_pending
                 (set_tasks
                    (set_pending
                       (set_next_obj (mkWorld [] [] (Some loaded) None [] [] (next_obj w))
                          (next_obj w + List.length loaded)%nat)
                       [SET_TASKS (formatTasks (next_obj w) loaded)])
                    (formatTasks (next_obj w) loaded)) []))
    as (w' & Hw & Ht & _).
  cbn in Hw. rewrite Hw. cbn. exact Ht.
Qed.

Lemma persistAndReload_ok (ts : list Task) :
  (forall content, fs_write P content = Ok tt) ->
  fs_read P = Ok tt ->
  persistAndReload P ts = formatTasks 0 (JSON_stringify ts).
Proof.
  intros Hw Hr. destruct ts as [| t rest]; [reflexivity |].
  unfold persistAndReload.
  assert (Hsaved : file (snd (saveEffect P (mkWorld (t :: rest) [] None None [] [] 0)))
                   = Some (JSON_stringify (t :: rest))).
  { unfold saveEffect, saveTasks, bind, get, try_catch, writeAsStringAsync. cbn.
    rewrite Hw. reflexivity. }
  rewrite Hsaved.
  change (tasks (relaunch P (mkWorld [] [] (Some (JSON_stringify (t :: rest))) None [] [] 0))
          = formatTasks 0 (JSON_stringify (t :: rest))).
  rewrite relaunch_tasks. cbn [file next_obj]. now rewrite Hr.
Qed.

(** On a device that writes and reads the file, saving a collection and
    loading it gives a collection that is saved as the same document: a
    second cycle changes nothing. *)
Theorem reload_then_save_is_stable (ts : list Task) :
  (forall content, fs_write P content = Ok tt) ->
  fs_read P = Ok tt ->
  JSON_stringify (persistAndReload P ts) = JSON_stringify ts
  /\ map id (persistAndReload P ts) = map id ts.
Proof.
  intros Hw Hr. rewrite (persistAndReload_ok ts Hw Hr).
  split; [apply stringify_formatTasks | apply formatTasks_ids].
Qed.

(** On such a device, tasks without comments and without completion date
    come back from storage field for field, with their deadlines held by new
    [Date] objects at the same instants. *)
Theorem reload_restores_tasks_without_comments (ts : list Task) :
  (forall content, fs_write P content = Ok tt) ->
  fs_read P = Ok tt ->
  (forall t, In t ts -> onlyConvertedDates t) ->
  Forall2 (fun t t' => exists obj, t' = with_deadline_object t obj)
          ts (persistAndReload P ts).
Proof.
  intros Hw Hr H. rewrite (persistAndReload_ok ts Hw Hr).
  now apply formatTasks_only_converted.
Qed.

(** A launch fails soft: without a file, or with a file that cannot be
    read, the collection is empty and the file is left as it is. *)
Theorem relaunch_fails_soft (w : World) :
  (file w = None \/ exists e, fs_read P = Throw e) ->
  tasks (relaunch P w) = [] /\ file (relaunch P w) = file w.
Proof.
  intros H. split.
  - rewrite relaunch_tasks. destruct H as [-> | [e ->]]; [reflexivity |].
    now destruct (file w).
  - unfold relaunch, loadTasks, try_catch, bind, get. cbn.
    destruct H as [-> | [e ->]]; [reflexivity |].
    destruct (file w); reflexivity.
Qed.

(** What the render after a dispatch leaves in the file. *)
Lemma render_file (w : World) :
  pending w <> [] ->
  file (render P w)
  = match fold_left taskReducer (pending w) (tasks w) with
    | [] => file w
    | ts => match fs_write P (JSON_stringify ts) with
            | Ok _ => Some (JSON_stringify ts)
            | Throw _ => file w
            end
    end.
Proof.
  intros Hp. unfold render. destruct (pending w) as [| a rest] eqn:E; [congruence |].
  unfold saveEffect, saveTasks, bind, get, try_catch, writeAsStringAsync. cbn.
  destruct (fold_left taskReducer rest (taskReducer (tasks w) a)) as [| t l]; cbn;
    [reflexivity |].
  destruct (fs_write P _) as [[] | e]; reflexivity.
Qed.

Lemma call_file {A} (m : M A) (w w1 : World) (r : result A) (a : Action) :
  pending w = [] ->
  m w = (r, w1) ->
  tasks w1 = tasks w -> pending w1 = (pending w ++ [a])%list -> file w1 = file w ->
  file (snd (call P m w))
  = match taskReducer (tasks w) a with
    | [] => file w
    | ts => match fs_write P (JSON_stringify ts) with
            | Ok _ => Some (JSON_stringify ts)
            | Throw _ => file w
            end
    end.
Proof.
  intros Hp Hm Ht Hq Hf. unfold call. rewrite Hm. cbn.
  rewrite render_file by (rewrite Hq, Hp; discriminate).
  rewrite Hq, Hp, Ht, Hf. reflexivity.
Qed.

(** After each mutation the whole collection is written: on a device that
    accepts the writes, the file holds the document of the collection the
    mutation left, as long as that collection is not empty. *)
Theorem mutations_write_the_collection (w : World) :
  pending w = [] ->
  (forall content, fs_write P content = Ok tt) ->
  forall mutation,
    (exists task, mutation = addTask P task)
    \/ (exists task, mutation = updateTask P task)
    \/ (exists i, mutation = deleteTask P i) ->
    tasks (snd (call P mutation w)) <> [] ->
    file (snd (call P mutation w)) = Some (JSON_stringify (tasks (snd (call P mutation w)))).
Proof.
  intros Hp Hw mutation Hm.
  assert (H : exists r w1 a, mutation w = (r, w1) /\ tasks w1 = tasks w
                             /\ pending w1 = (pending w ++ [a])%list /\ file w1 = file w).
  { destruct Hm as [[task ->] | [[task ->] | [i ->]]].
    - destruct (addTask_spec P task w) as (t2 & w1 & E & _ & Ht & Hq & Hf & _).
      exists (Ok tt), w1, (ADD_TASK t2). auto.
    - destruct (updateTask_spec P task w) as (t3 & w1 & E & _ & Ht & Hq & Hf & _).
      exists (Ok tt), w1, (UPDATE_TASK t3). auto.
    - destruct (deleteTask_spec P i w) as (w1 & E & Ht & Hq & Hf & _).
      exists (Ok tt), w1, (DELETE_TASK i). auto. }
  destruct H as (r & w1 & a & E & Ht & Hq & Hf).
  destruct (call_dispatching P mutation w w1 r a Hp E Ht Hq) as (_ & C2 & _).
  rewrite (call_file mutation w w1 r a Hp E Ht Hq Hf), C2.
  destruct (taskReducer (tasks w) a) as [| t l]; [congruence |].
  intros _. cbv zeta. now rewrite Hw.
Qed.

(** An empty collection is never written.  So deleting the only stored id
    leaves the file as it was: when the file held the collection, the next
    launch brings the deleted tasks back. *)
Theorem deleting_the_last_task_keeps_the_file (i : string) (w : World) :
  pending w = [] ->
  (forall t, In t (tasks w) -> id t = i) ->
  let after := snd (call P (deleteTask P i) w) in
  tasks after = [] /\ file after = file w
  /\ (file w = Some (JSON_stringify (tasks w)) -> fs_read P = Ok tt ->
      map id (tasks (relaunch P after)) = map id (tasks w)).
Proof.
  intros Hp Hall after.
  destruct (deleteTask_spec P i w) as (w1 & E & Ht & Hq & Hf & _).
  destruct (call_dispatching P (deleteTask P i) w w1 (Ok tt) (DELETE_TASK i) Hp E Ht Hq)
    as (_ & C2 & _).
  pose proof (delete_all i (tasks w) Hall) as Hempty.
  assert (Hfile : file after = file w).
  { subst after. rewrite (call_file (deleteTask P i) w w1 (Ok tt) (DELETE_TASK i)
                            Hp E Ht Hq Hf), Hempty. reflexivity. }
  split; [subst after; now rewrite C2 |]. split; [exact Hfile |].
  intros Hsaved Hr. rewrite relaunch_tasks, Hfile, Hsaved, Hr.
  apply formatTasks_ids.
Qed.

End StoredFile.

Lemma reload_then_save_is_stable_witness :
  fs_read device = Ok tt
  /\ JSON_stringify (persistAndReload device [report; commented])
     = JSON_stringify [report; commented].
Proof.
  split; [reflexivity |].
  exact (proj1 (reload_then_save_is_stable device [report; commented]
                  (fun _ => eq_refl) eq_refl)).
Defined.

Lemma reload_restores_tasks_without_comments_witness :
  onlyConvertedDates report
  /\ Forall2 (fun t t' => exists obj, t' = with_deadline_object t obj)
             [report] (persistAndReload device [report]).
Proof.
  assert (H : onlyConvertedDates report) by (split; [reflexivity | left; reflexivity]).
  split; [exact H |].
  apply (reload_restores_tasks_without_comments device [report]
           (fun _ => eq_refl) eq_refl).
  intros t [<- | []]. exact H.
Defined.

Lemma mutations_write_the_collection_witness :
  tasks (snd (call device (addTask device errand) (atRest [report]))) <> []
  /\ file (snd (call device (addTask device errand) (atRest [report])))
     = Some (JSON_stringify
               (tasks (snd (call device (addTask device errand) (atRest [report]))))).
Proof.
  assert (H : tasks (snd (call device (addTask device errand) (atRest [report]))) <> [])
    by (vm_compute; discriminate).
  split; [exact H |].
  exact (mutations_write_the_collection device (atRest [report]) eq_refl
           (fun _ => eq_refl) (addTask device errand)
           (or_introl (ex_intro _ errand eq_refl)) H).
Defined.

Lemma deleting_the_last_task_keeps_the_file_witness :
  (forall t, In t [report] -> id t = "t1")
  /\ tasks (snd (call device (deleteTask device "t1") (saved [report]))) = []
  /\ map id (tasks (relaunch device
                      (snd (call device (deleteTask device "t1") (saved [report])))))
     = ["t1"].
Proof.
  assert (H : forall t, In t [report] -> id t = "t1")
    by (intros t [<- | []]; reflexivity).
  split; [exact H |].
  pose proof (deleting_the_last_task_keeps_the_file device "t1" (saved [report])
                eq_refl H) as K.
  cbv zeta in K. destruct K as (T & _ & R).
  split; [exact T | exact (R eq_refl eq_refl)].
Defined.


(* ================================================================== *)
(** ** The gateway's transport and its other calls *)
(* ================================================================== *)

Section Gateway.
Import AIService.
Variable cfg : Config.
Variable fetch : list Message -> FetchOutcome.

(** The transport never throws.  It asks the endpoint once when the
    gateway is enabled and has a credential, and not at all otherwise; it
    returns the completion of an answer with a success status, and in every
    other case (no request, network failure, status 401 or any other
    failure status, a body without completion) the keyword fallback for the
    messages. *)
Theorem sendRequest_outcomes (messages : list Message) :
  let usable := andb (apiEnabled cfg) (truthy (apiKey cfg)) in
  sendRequest cfg fetch messages
  = (Ok (match usable, fetch messages with
         | true, Response status (Completion text) =>
             if response_ok status then text else getFallbackResponse messages
         | _, _ => getFallbackResponse messages
         end),
     if usable then [messages] else []).
Proof.
  unfold sendRequest, sendRequest_try.
  destruct (apiEnabled cfg), (truthy (apiKey cfg)); cbn; try reflexivity.
  destruct (fetch messages) as [| status body]; [reflexivity |].
  destruct (status =? 401)%Z eqn:E.
  - apply Z.eqb_eq in E. subst status. cbn. now destruct body.
  - destruct (response_ok status), body; reflexivity.
Qed.

Lemma sendRequest_text (messages : list Message) :
  exists text,
    fst (sendRequest cfg fetch messages) = Ok text
    /\ (text = getFallbackResponse messages
        \/ exists status, fetch messages = Response status (Completion text)
                          /\ response_ok status = true).
Proof.
  rewrite sendRequest_outcomes. cbn [fst].
  destruct (andb (apiEnabled cfg) (truthy (apiKey cfg))); [ | eauto ].
  destruct (fetch messages) as [| status [| text]] eqn:F; [eauto | eauto |].
  destruct (response_ok status) eqn:E; [ | eauto ].
  exists text. split; [reflexivity |]. right. exists status. auto.
Qed.

Lemma patternSummaries_resolve (ts : list Task) :
  completionsAreDates ts -> exists summaries, patternSummaries ts = Ok summaries.
Proof.
  unfold completionsAreDates. induction ts as [| t rest IH]; intros H; cbn; [eauto |].
  destruct IH as [ss ->]; [intros t' s Hin; apply H; now right |].
  unfold patternSummary, completedAt_summary.
  destruct (completedAt t) as [[d | s] |] eqn:E; eauto.
  exfalso. apply (H t s); [now left | exact E].
Qed.

Lemma analyze_prompt_fallback (summaries : list json) :
  getFallbackResponse
    [ mkMessage "system"
        "You are a productivity assistant that analyzes task data to find patterns and optimization opportunities. Provide insightful analysis in a conversational tone.";
      mkMessage "user"
        ("Analyze these tasks and provide insights on productivity patterns, optimization opportunities, and recommendations: "
           ++ stringify (JArray summaries)) ]
  = analysisFallback.
Proof. reflexivity. Qed.

(** When every completion date is a [Date], [analyzeTaskPatterns]
    resolves, and with the text of a successful remote completion or else
    with the canned analysis paragraph: its prompt starts with "Analyze", so
    no other fallback can be chosen. *)
Theorem analyzeTaskPatterns_falls_back_to_analysis (ts : list Task) :
  completionsAreDates ts ->
  exists text,
    fst (analyzeTaskPatterns cfg fetch ts) = Ok text
    /\ (text = analysisFallback
        \/ exists messages status,
             fetch messages = Response status (Completion text)
             /\ response_ok status = true).
Proof.
  intros H. unfold analyzeTaskPatterns.
  destruct (patternSummaries_resolve ts H) as [summaries ->].
  match goal with
  | |- context [sendRequest cfg fetch ?m] =>
      destruct (sendRequest_text m) as (text & Htext & Hcase)
  end.
  exists text. split; [exact Htext |].
  destruct Hcase as [-> | (status & Hf & Hok)].
  - left. apply analyze_prompt_fallback.
  - right. eauto.
Qed.

Lemma patternSummaries_reject (ts : list Task) (t : Task) (s : IsoString) :
  In t ts -> completedAt t = Some (IsString s) ->
  patternSummaries ts
  = Throw "TypeError: task.completedAt.toISOString is not a function".
Proof.
  induction ts as [| t' rest IH]; intros Hin Hc; [contradiction |].
  cbn. unfold patternSummary at 1, completedAt_summary.
  destruct Hin as [-> | Hin].
  - now rewrite Hc.
  - rewrite (IH Hin Hc).
    destruct (completedAt t') as [[d | s'] |]; reflexivity.
Qed.

Lemma includes_schedule_prompt (ts : list Task) :
  includes (toLowerCase (userMessage (schedulePrompt ts))) "schedule" = true.
Proof. reflexivity. Qed.

(** [suggestOptimalSchedule] never throws; what it returns, apart from a
    successful remote completion, is the canned schedule, or the canned
    analysis when the serialized tasks mention "analyze": never the generic
    sentence nor the subtask array. *)
Theorem suggestOptimalSchedule_fallbacks (ts : list Task) :
  exists text,
    fst (suggestOptimalSchedule cfg fetch ts) = Ok text
    /\ (text = (if includes (toLowerCase (userMessage (schedulePrompt ts))) "analyze"
                then analysisFallback else scheduleFallback)
        \/ exists status,
             fetch (schedulePrompt ts) = Response status (Completion text)
             /\ response_ok status = true).
Proof.
  unfold suggestOptimalSchedule.
  destruct (sendRequest_text (schedulePrompt ts)) as (text & Htext & Hcase).
  exists text. split; [exact Htext |].
  destruct Hcase as [-> | H]; [left | now right].
  unfold getFallbackResponse. rewrite includes_schedule_prompt. reflexivity.
Qed.

Lemma prefix_other_char (c : ascii) (lit s : string) :
  Nat.eqb (nat_of_ascii c) 96 = false ->
  String.prefix (String (ascii_of_nat 96) lit) (String c s) = false.
Proof.
  intros H.
  change (match ascii_dec (ascii_of_nat 96) c with
          | left _ => String.prefix lit s
          | right _ => false
          end = false).
  destruct (ascii_dec (ascii_of_nat 96) c) as [E | E]; [ | reflexivity ].
  subst c. cbn in H. discriminate.
Qed.

Lemma strip_fences_plain (s rest : string) :
  noBacktick s = true ->
  strip_fences 0 (s ++ rest) = s ++ strip_fences 0 rest.
Proof.
  induction s as [| c r IH]; intros H; [reflexivity |].
  cbn in H. apply Bool.andb_true_iff in H as [Hc Hr].
  apply Bool.negb_true_iff in Hc.
  change (String c r ++ rest) with (String c (r ++ rest)).
  cbn [strip_fences].
  change "```json" with (String (ascii_of_nat 96) "``json").
  change "```" with (String (ascii_of_nat 96) "``").
  rewrite !prefix_other_char by exact Hc.
  cbn. now rewrite IH.
Qed.

Lemma prefix_nil (s : string) : String.prefix EmptyString s = true.
Proof. now destruct s. Qed.

Lemma strip_fences_opening (rest : string) :
  strip_fences 0 ("```json" ++ rest) = strip_fences 0 rest.
Proof.
  change ("```json" ++ rest)
    with (String (ascii_of_nat 96) ("``json" ++ rest)).
  cbn [strip_fences].
  assert (E : String.prefix "```json" (String (ascii_of_nat 96) ("``json" ++ rest)) = true)
    by (change (String.prefix EmptyString rest = true); apply prefix_nil).
  rewrite E. reflexivity.
Qed.

Lemma append_nil (s : string) : s ++ EmptyString = s.
Proof. induction s as [| c r IH]; [reflexivity | cbn; now rewrite IH]. Qed.

(** A response wrapped in a JSON code fence is read as what is inside the
    fence, and a response without backticks as it is, each trimmed. *)
Theorem extractJson_strips_the_fence (text : string) :
  noBacktick text = true ->
  extractJson ("```json" ++ text ++ "```") = trim text
  /\ extractJson text = trim text.
Proof.
  intros H. unfold extractJson. split.
  - rewrite strip_fences_opening, (strip_fences_plain text "```" H).
    change (strip_fences 0 "```") with EmptyString.
    now rewrite append_nil.
  - rewrite <- (append_nil text) at 1.
    rewrite (strip_fences_plain text EmptyString H).
    change (strip_fences 0 EmptyString) with EmptyString.
    now rewrite append_nil.
Qed.

(** [decomposeTask] reads a fenced array: when the response is a JSON
    array of subtasks inside a JSON code fence, the result is that
    array. *)
Theorem decomposeTask_reads_fenced_array (taskTitle : string)
        (description : option string) (text : string) (subtasks : list json) :
  fst (sendRequest cfg fetch
         (decomposePrompt taskTitle
            (match description with Some d => d | None => EmptyString end)))
  = Ok ("```json" ++ text ++ "```") ->
  noBacktick text = true ->
  parse (trim text) = Some (JArray subtasks) ->
  fst (decomposeTask cfg fetch taskTitle description) = Ok subtasks.
Proof.
  intros Hresp Hplain Hparse.
  rewrite (decomposeTask_of_response cfg fetch taskTitle description _ Hresp).
  rewrite (proj1 (extractJson_strips_the_fence text Hplain)), Hparse. reflexivity.
Qed.

Lemma decomposeTask_resolves (taskTitle : string) (description : option string) :
  exists subtasks, fst (decomposeTask cfg fetch taskTitle description) = Ok subtasks.
Proof.
  unfold decomposeTask.
  match goal with
  | |- context [sendRequest cfg fetch ?m] =>
      destruct (sendRequest_text m) as (text & Htext & _);
      destruct (sendRequest cfg fetch m) as [r sent]
  end.
  cbn in Htext. subst r. cbn.
  destruct (decomposeTask_try text); eauto.
Qed.

End Gateway.

(** A response with white space outside the ASCII range around the array
    is read as the array. *)
Lemma decomposeTask_reads_past_unicode_white_space :
  fst (AIService.decomposeTask gatewayOn (answering (nbsp ++ twoSubtasks ++ bom))
         "Launch" None)
  = Ok [JString "Plan"; JString "Ship"].
Proof. vm_compute. reflexivity. Qed.

Lemma analyzeTaskPatterns_falls_back_to_analysis_witness :
  completionsAreDates threeTasks
  /\ fst (AIService.analyzeTaskPatterns gatewayOff offline threeTasks)
     = Ok AIService.analysisFallback.
Proof.
  assert (H : completionsAreDates threeTasks).
  { intros t s [<- | [<- | [<- | []]]]; discriminate. }
  split; [exact H |].
  destruct (analyzeTaskPatterns_falls_back_to_analysis gatewayOff offline threeTasks H)
    as (text & E & [-> | (messages & status & F & _)]).
  - exact E.
  - discriminate F.
Defined.

Lemma decomposeTask_reads_fenced_array_witness :
  Json.parse (trim fencedLines) = Some (JArray [JString "Plan"; JString "Ship"])
  /\ fst (AIService.decomposeTask gatewayOn (answering ("```json" ++ fencedLines ++ "```"))
            "Launch" None)
     = Ok [JString "Plan"; JString "Ship"].
Proof.
  assert (H : Json.parse (trim fencedLines)
              = Some (JArray [JString "Plan"; JString "Ship"])) by reflexivity.
  split; [exact H |].
  exact (decomposeTask_reads_fenced_array gatewayOn
           (answering ("```json" ++ fencedLines ++ "```")) "Launch" None fencedLines
           [JString "Plan"; JString "Ship"] eq_refl eq_refl H).
Defined.


(* ================================================================== *)
(** ** The engine's other operations *)
(* ================================================================== *)

Section Engine.
Import TaskAssistantContext.

Lemma In_firstn_any {A} (n : nat) (l : list A) (x : A) : In x (firstn n l) -> In x l.
Proof.
  revert l. induction n as [| n IH]; intros [| y l]; cbn; try tauto.
  intros [-> | H]; [now left | right; now apply IH].
Qed.

Lemma formatTasks_completed (n : nat) (ts : list Task) (t : Task) :
  In t ts -> completedAt t <> None ->
  exists t' s, In t' (formatTasks n (JSON_stringify ts))
               /\ completedAt t' = Some (IsString s).
Proof.
  revert n. induction ts as [| x rest IH]; intros n Hin Hc; [contradiction |].
  destruct Hin as [-> | Hin].
  - destruct (completedAt t) as [c |] eqn:E; [ | contradiction ].
    exists (formatTask n (stringify_task t)), (toJSON_any c).
    split; [now left |].
    destruct (formatTask_stringify_passed_through n t) as [H _].
    rewrite H, E. reflexivity.
  - destruct (IH (S n) Hin Hc) as (t' & s & Hin' & Hs).
    exists t', s. split; [now right | exact Hs].
Qed.

(** A completion date that went through storage stops the pattern
    analysis: on a device that writes and reads the file, once a task with a
    completion date has been saved and loaded, [analyzeTaskPatterns] throws
    before it sends anything, and the pass gets no insight from it. *)
Theorem reloaded_completion_date_stops_the_insight
        (P : Platform) (e : Env) (ts : list Task) (t : Task) :
  (forall content, fs_write P content = Ok tt) ->
  fs_read P = Ok tt ->
  In t ts -> completedAt t <> None ->
  AIService.analyzeTaskPatterns (cfg e) (fetch e) (persistAndReload P ts)
  = (Throw "TypeError: task.completedAt.toISOString is not a function", [])
  /\ snd (newRecommendations e (persistAndReload P ts)) = None.
Proof.
  intros Hw Hr Hin Hc. rewrite (persistAndReload_ok P ts Hw Hr).
  destruct (formatTasks_completed 0 ts t Hin Hc) as (t' & s & Hin' & Hs).
  assert (Hthrow : AIService.analyzeTaskPatterns (cfg e) (fetch e)
                     (formatTasks 0 (JSON_stringify ts))
                   = (Throw "TypeError: task.completedAt.toISOString is not a function", [])).
  { unfold AIService.analyzeTaskPatterns.
    now rewrite (patternSummaries_reject _ t' s Hin' Hs). }
  split; [exact Hthrow |].
  unfold newRecommendations. cbn [snd]. rewrite Hthrow. cbn [fst].
  now destruct (3 <=? _)%nat.
Qed.

(** The fallback lists of [generateTaskDecomposition] are never returned:
    for a task of the collection the result is the one of the gateway's
    [decomposeTask], which never throws; for an unknown id it is the empty
    list and nothing is sent. *)
Theorem generateTaskDecomposition_never_uses_its_fallback (e : Env) (ts : list Task)
        (taskId : string) :
  generateTaskDecomposition e ts taskId
  = match getTaskById ts taskId with
    | Some task => AIService.decomposeTask (cfg e) (fetch e) (title task) (description task)
    | None => (Ok [], [])
    end.
Proof.
  unfold generateTaskDecomposition, getTaskById.
  destruct (find (fun t => String.eqb (id t) taskId) ts) as [task |]; [ | reflexivity ].
  destruct (decomposeTask_resolves (cfg e) (fetch e) (title task) (description task))
    as [subtasks H].
  destruct (AIService.decomposeTask (cfg e) (fetch e) (title task) (description task))
    as [r sent].
  cbn in H. now subst r.
Qed.

(** Dismissing removes every recommendation with the id and nothing else;
    the time slots and the insight stay. *)
Theorem dismissRecommendation_removes (i : string) (a : Assistant) :
  (forall r, In r (recommendations (dismissRecommendation i a))
             <-> In r (recommendations a) /\ rec_id r <> i)
  /\ optimalTimeSlots (dismissRecommendation i a) = optimalTimeSlots a
  /\ aiInsights (dismissRecommendation i a) = aiInsights a
  /\ ((forall r, In r (recommendations a) -> rec_id r <> i) ->
      dismissRecommendation i a = a).
Proof.
  unfold dismissRecommendation. cbn. repeat split.
  - apply filter_In in H. tauto.
  - apply filter_In in H as [_ H]. intros E. subst i.
    rewrite String.eqb_refl in H. discriminate.
  - intros [Hin Hne]. apply filter_In. split; [exact Hin |].
    destruct (String.eqb (rec_id r) i) eqn:E; [ | reflexivity ].
    apply String.eqb_eq in E. contradiction.
  - intros H. destruct a as [recs slots insight]. cbn in *. f_equal.
    induction recs as [| r l IH]; cbn; [reflexivity |].
    destruct (String.eqb (rec_id r) i) eqn:E.
    + apply String.eqb_eq in E. exfalso. apply (H r); [now left | exact E].
    + cbn. f_equal. apply IH. intros r' Hin. apply H. now right.
Qed.

(** Applying never removes or reorders a recommendation: the ids stay as
    they are, every recommendation with the id is marked applied, the others
    are untouched, and applying twice is applying once. *)
Theorem applyRecommendation_marks (i : string) (a : Assistant) :
  map rec_id (recommendations (applyRecommendation i a)) = map rec_id (recommendations a)
  /\ (forall r, In r (recommendations (applyRecommendation i a)) -> rec_id r = i ->
                applied r = true)
  /\ (forall r, rec_id r <> i ->
                (In r (recommendations (applyRecommendation i a))
                 <-> In r (recommendations a)))
  /\ applyRecommendation i (applyRecommendation i a) = applyRecommendation i a.
Proof.
  unfold applyRecommendation. cbn. repeat split.
  - rewrite map_map. apply map_ext. intros r.
    destruct (String.eqb (rec_id r) i); reflexivity.
  - intros r Hin Hid. apply in_map_iff in Hin as (x & Hx & _).
    destruct (String.eqb (rec_id x) i) eqn:E; subst r; [reflexivity |].
    apply String.eqb_neq in E. contradiction.
  - intros Hin. apply in_map_iff in Hin as (x & Hx & Hin).
    destruct (String.eqb (rec_id x) i) eqn:E; subst r; [ | exact Hin ].
    apply String.eqb_eq in E. cbn in H. contradiction.
  - intros Hin. apply in_map_iff. exists r. split; [ | exact Hin ].
    apply String.eqb_neq in H. now rewrite H.
  - f_equal. rewrite map_map. apply map_ext. intros r.
    destruct (String.eqb (rec_id r) i) eqn:E; cbn; rewrite E; reflexivity.
Qed.

(** [similarTaskHistory] returns at most three tasks, all of the
    collection and none with the id asked for; for an unknown id it returns
    nothing. *)
Theorem similarTaskHistory_bounds (ts : list Task) (taskId : string) :
  (List.length (similarTaskHistory ts taskId) <= 3)%nat
  /\ (forall t, In t (similarTaskHistory ts taskId) -> In t ts /\ id t <> taskId)
  /\ (getTaskById ts taskId = None -> similarTaskHistory ts taskId = []).
Proof.
  unfold similarTaskHistory, getTaskById.
  destruct (find (fun t => String.eqb (id t) taskId) ts) as [task |].
  - split; [apply firstn_le_length |]. split; [ | discriminate ].
    intros t Hin. apply In_firstn_any in Hin. apply filter_In in Hin as [Hin H].
    split; [exact Hin |]. apply Bool.andb_true_iff in H as [H _].
    apply Bool.negb_true_iff in H. now apply String.eqb_neq.
  - split; [cbn; lia |]. split; [intros t [] | reflexivity].
Qed.

Lemma Qfloor_between (x : Q) (lo hi : Z) :
  (inject_Z lo <= x)%Q -> (x < inject_Z hi)%Q -> lo <= Qfloor x < hi.
Proof.
  intros Hlo Hhi. split.
  - rewrite <- (Qfloor_Z lo). now apply Qfloor_resp_le.
  - rewrite Zlt_Qlt. eapply Qle_lt_trans; [apply Qfloor_le | exact Hhi].
Qed.

(** The suggestion of a slot is decided by the random value drawn for it:
    simple tasks below one fifth, complex tasks from four fifths on, and
    moderate tasks in between. *)
Theorem slot_suggestion_by_random (tz now i : Z) (r : Q) :
  (0 <= r)%Q -> (r < 1)%Q ->
  ((r < 1 # 5)%Q -> suggestion (slot tz now i r) = "Best for simple tasks")
  /\ ((1 # 5 <= r)%Q -> (r < 4 # 5)%Q ->
      suggestion (slot tz now i r) = "Good for moderate difficulty tasks")
  /\ ((4 # 5 <= r)%Q -> suggestion (slot tz now i r) = "Focus on complex tasks").
Proof.
  intros H0 H1. unfold slot. cbn [suggestion].
  remember (Qfloor (r * 5)) as k eqn:Hk.
  assert (B : forall lo hi : Z,
             (inject_Z lo <= r * 5)%Q -> (r * 5 < inject_Z hi)%Q -> lo <= k < hi)
    by (intros; subst k; now apply Qfloor_between).
  clear Hk. unfold suggestionFor.
  split; [ | split ].
  - intros H. assert (0 <= k < 1) as Hk.
    { apply B; destruct r as [a b]; unfold Qle, Qlt in *; cbn in *; lia. }
    destruct (Z.ltb_spec 8 (Z.min 10 (Z.max 1 (5 + k)))); [lia |].
    destruct (Z.ltb_spec 5 (Z.min 10 (Z.max 1 (5 + k)))); [lia | reflexivity].
  - intros Hlo Hhi. assert (1 <= k < 4) as Hk.
    { apply B; destruct r as [a b]; unfold Qle, Qlt in *; cbn in *; lia. }
    destruct (Z.ltb_spec 8 (Z.min 10 (Z.max 1 (5 + k)))); [lia |].
    destruct (Z.ltb_spec 5 (Z.min 10 (Z.max 1 (5 + k)))); [reflexivity | lia].
  - intros H. assert (4 <= k < 5) as Hk.
    { apply B; destruct r as [a b]; unfold Qle, Qlt in *; cbn in *; lia. }
    destruct (Z.ltb_spec 8 (Z.min 10 (Z.max 1 (5 + k)))); [reflexivity | lia].
Qed.

(** The cluster list is made of tasks of the collection, and it never has
    exactly one element: a keyword contributes its matches only when there
    are at least two. *)
Theorem findSimilarTaskClusters_never_single (ts : list Task) :
  (forall t, In t (findSimilarTaskClusters ts) -> In t ts)
  /\ List.length (findSimilarTaskClusters ts) <> 1%nat.
Proof.
  unfold findSimilarTaskClusters. split.
  - intros t Hin. apply in_flat_map in Hin as (k & _ & Hin).
    destruct (2 <=? _)%nat; [ | contradiction ].
    now apply filter_In in Hin.
  - match goal with |- List.length (flat_map ?F _) <> _ => set (f := F) end.
    assert (G : forall ks, List.length (flat_map f ks) = 0%nat
                           \/ (2 <= List.length (flat_map f ks))%nat).
    { induction ks as [| k ks IH]; [now left |].
      cbn [flat_map]. rewrite length_app.
      assert (List.length (f k) = 0%nat \/ (2 <= List.length (f k))%nat) as Hk.
      { subst f. cbv beta zeta.
        destruct (Nat.leb_spec 2 (List.length (filter (fun task => mentions task k) ts)));
          [now right | now left]. }
      lia. }
    destruct (G keywords); lia.
Qed.

(** A pass over a non-empty collection keeps every earlier recommendation
    and adds between one and four, so the list grows at each pass. *)
Theorem pass_adds_one_to_four (e : Env) (ts : list Task) (a : Assistant) :
  ts <> [] ->
  exists fresh,
    recommendations (onTasksChange e ts a) = (recommendations a ++ fresh)%list
    /\ (1 <= List.length fresh <= 4)%nat.
Proof.
  intros H. exists (fst (newRecommendations e ts)).
  split; [now apply onTasksChange_appends |].
  destruct (newRecommendations_pieces e ts) as (ai & Hai & ->).
  rewrite !length_app.
  destruct Hai as [-> | ->];
    destruct (filter (isOverdueHighPriority (now e)) ts);
    destruct (2 <? _)%nat; cbn; lia.
Qed.

(** On an empty collection the pass does not run: the state is left as it
    is. *)
Lemma onTasksChange_empty (e : Env) (a : Assistant) : onTasksChange e [] a = a.
Proof. reflexivity. Qed.

End Engine.

Lemma reloaded_completion_date_stops_the_insight_witness :
  completedAt commented <> None
  /\ snd (TaskAssistantContext.newRecommendations engineEnv
            (persistAndReload device [commented])) = None.
Proof.
  assert (H : completedAt commented <> None) by discriminate.
  split; [exact H |].
  exact (proj2 (reloaded_completion_date_stops_the_insight device engineEnv
                  [commented] commented (fun _ => eq_refl) eq_refl
                  (or_introl eq_refl) H)).
Defined.

Lemma slot_suggestion_by_random_witness :
  (1 # 5 <= 1 # 2)%Q /\ (1 # 2 < 4 # 5)%Q
  /\ TaskAssistantContext.suggestion (TaskAssistantContext.slot 0 100000000 0 (1 # 2))
     = "Good for moderate difficulty tasks".
Proof.
  assert (H0 : (0 <= 1 # 2)%Q) by (unfold Qle; cbn; lia).
  assert (H1 : (1 # 2 < 1)%Q) by (unfold Qlt; cbn; lia).
  assert (Hlo : (1 # 5 <= 1 # 2)%Q) by (unfold Qle; cbn; lia).
  assert (Hhi : (1 # 2 < 4 # 5)%Q) by (unfold Qlt; cbn; lia).
  split; [exact Hlo | split; [exact Hhi |]].
  exact (proj1 (proj2 (slot_suggestion_by_random 0 100000000 0 (1 # 2) H0 H1)) Hlo Hhi).
Defined.

Lemma pass_adds_one_to_four_witness :
  threeTasks <> []
  /\ exists fresh,
       TaskAssistantContext.recommendations
         (TaskAssistantContext.onTasksChange engineEnv threeTasks emptyAssistant)
       = fresh
       /\ (1 <= List.length fresh <= 4)%nat.
Proof.
  assert (H : threeTasks <> []) by discriminate.
  split; [exact H |].
  destruct (pass_adds_one_to_four engineEnv threeTasks emptyAssistant H)
    as (fresh & E & B).
  exists fresh. split; [exact E | exact B].
Defined.

(* ================================================================== *)
(** ** The handlers of the task detail screen *)
(* ================================================================== *)

Section Screen.
Variable P : Platform.
Import TaskDetailScreen.

(** [trim] strips the white space outside the ASCII range too: a comment
    made of a no-break space, a line separator and a byte order mark is
    blank. *)
Lemma trim_strips_unicode_white_space :
  trim (nbsp ++ String (ascii_of_nat 226) (String (ascii_of_nat 128)
                  (String (ascii_of_nat 168) EmptyString)) ++ " " ++ bom) = EmptyString
  /\ trim (bom ++ "a" ++ nbsp ++ "b " ++ nbsp) = "a" ++ nbsp ++ "b".
Proof. vm_compute. split; reflexivity. Qed.

Lemma TaskStatus_eqb_neq (a b : TaskStatus) : a <> b -> TaskStatus_eqb a b = false.
Proof. destruct a, b; cbn; congruence. Qed.

Lemma TaskStatus_eqb_refl (a : TaskStatus) : TaskStatus_eqb a a = true.
Proof. now destruct a. Qed.

(** Changing the status on the detail screen stores the task with the new
    status and the handler's clock reading as [updatedAt], and nothing
    else: no device call is made, so the reminders and the calendar event of
    a task marked completed stay, and its completion date is not set. *)
Theorem handleUpdateStatus_changes_status_only
        (taskId : string) (newStatus : TaskStatus) (now : Instant)
        (task : Task) (w : World) :
  pending w = [] ->
  getTaskById (tasks w) taskId = Some task ->
  status task <> newStatus ->
  let w' := snd (call P (handleUpdateStatus P taskId newStatus now) w) in
  getTaskById (tasks w') taskId = Some (with_status task newStatus now)
  /\ tasks w' = replaceById (with_status task newStatus now) (tasks w)
  /\ trace w' = trace w
  /\ completedAt (with_status task newStatus now) = completedAt task
  /\ notificationIds (with_status task newStatus now) = notificationIds task
  /\ calendarEventId (with_status task newStatus now) = calendarEventId task.
Proof.
  intros Hp Hfind Hne.
  assert (E : forall w0, w0 = w ->
                handleUpdateStatus P taskId newStatus now w0
                = updateTask P (with_status task newStatus now) w0).
  { intros w0 ->. unfold handleUpdateStatus, bind, get. rewrite Hfind.
    now rewrite (TaskStatus_eqb_neq _ _ Hne). }
  unfold call. rewrite (E w eq_refl).
  destruct (call_updateTask_derived P task (with_status task newStatus now) w Hp
              (getTaskById_self _ _ _ Hfind) eq_refl eq_refl) as (_ & C2 & _ & C4).
  unfold call in C2, C4. cbv zeta.
  split; [ | repeat split; assumption ].
  rewrite C2. rewrite <- (getTaskById_id _ _ _ Hfind).
  change (id task) with (id (with_status task newStatus now)).
  apply getTaskById_replaceById with (old := task).
  cbn [with_status id]. exact (getTaskById_self _ _ _ Hfind).
Qed.

(** Choosing the status the task already has changes nothing. *)
Theorem handleUpdateStatus_same_status
        (taskId : string) (now : Instant) (task : Task) (w : World) :
  pending w = [] ->
  getTaskById (tasks w) taskId = Some task ->
  call P (handleUpdateStatus P taskId (status task) now) w = (Ok tt, w).
Proof.
  intros Hp Hfind. apply call_silent; [exact Hp |].
  unfold handleUpdateStatus, bind, get. rewrite Hfind.
  now rewrite TaskStatus_eqb_refl.
Qed.

(** A comment that is empty once trimmed is not added. *)
Theorem handleAddComment_blank
        (taskId comment : string) (now : Instant) (w : World) :
  pending w = [] ->
  trim comment = EmptyString ->
  call P (handleAddComment P taskId comment now) w = (Ok tt, w).
Proof.
  intros Hp Hblank. apply call_silent; [exact Hp |].
  unfold handleAddComment, bind, get. rewrite Hblank.
  now destruct (getTaskById (tasks w) taskId).
Qed.

(** Adding a comment appends it, trimmed, after the earlier comments of the
    stored task, with the clock reading as its id and its date, and makes
    no device call. *)
Theorem handleAddComment_appends
        (taskId comment : string) (now : Instant) (task : Task) (w : World) :
  pending w = [] ->
  getTaskById (tasks w) taskId = Some task ->
  trim comment <> EmptyString ->
  let w' := snd (call P (handleAddComment P taskId comment now) w) in
  exists stored,
    getTaskById (tasks w') taskId = Some stored
    /\ comments stored
       = Some ((match comments task with Some cs => cs | None => [] end)
               ++ [mkComment (string_of_Z now) (trim comment) (IsDate now)
                             "current-user-id" "Me"])%list
    /\ updatedAt stored = now
    /\ tasks w' = replaceById stored (tasks w)
    /\ trace w' = trace w.
Proof.
  intros Hp Hfind Hne.
  set (payload := with_comments task
                    ((match comments task with Some cs => cs | None => [] end)
                     ++ [mkComment (string_of_Z now) (trim comment) (IsDate now)
                                   "current-user-id" "Me"])%list now).
  assert (Ht : truthy (trim comment) = true).
  { destruct (trim comment); [contradiction | reflexivity]. }
  assert (E : forall w0, w0 = w ->
                handleAddComment P taskId comment now w0 = updateTask P payload w0).
  { intros w0 ->. unfold handleAddComment, bind, get. rewrite Hfind, Ht. reflexivity. }
  unfold call. rewrite (E w eq_refl).
  destruct (call_updateTask_derived P task payload w Hp
              (getTaskById_self _ _ _ Hfind) eq_refl eq_refl) as (_ & C2 & _ & C4).
  unfold call in C2, C4. cbv zeta. exists payload.
  split; [ | repeat split; assumption ].
  rewrite C2. rewrite <- (getTaskById_id _ _ _ Hfind).
  change (id task) with (id payload).
  apply getTaskById_replaceById with (old := task).
  exact (getTaskById_self _ _ _ Hfind).
Qed.

End Screen.

Lemma handleUpdateStatus_changes_status_only_witness :
  status report <> COMPLETED
  /\ getTaskById
       (tasks (snd (call device
                      (TaskDetailScreen.handleUpdateStatus device "t1" COMPLETED 3000)
                      (atRest [report])))) "t1"
     = Some (TaskDetailScreen.with_status report COMPLETED 3000)
  /\ completedAt (TaskDetailScreen.with_status report COMPLETED 3000) = None.
Proof.
  assert (H : status report <> COMPLETED) by discriminate.
  split; [exact H |].
  pose proof (handleUpdateStatus_changes_status_only device "t1" COMPLETED 3000 report
                (atRest [report]) eq_refl eq_refl H) as K.
  cbv zeta in K. destruct K as (G & _ & _ & C & _).
  split; [exact G | exact C].
Defined.

Lemma handleAddComment_appends_witness :
  trim (nbsp ++ " looks good " ++ bom) <> EmptyString
  /\ exists stored,
       getTaskById
         (tasks (snd (call device
                        (TaskDetailScreen.handleAddComment device "t2"
                           (nbsp ++ " looks good " ++ bom) 30000)
                        (atRest [commented])))) "t2"
       = Some stored
       /\ comments stored
          = Some [ mkComment "c1" "done" (IsDate 15000) "current-user-id" "Me";
                   mkComment "30000" "looks good" (IsDate 30000) "current-user-id" "Me" ].
Proof.
  assert (H : trim (nbsp ++ " looks good " ++ bom) <> EmptyString)
    by (vm_compute; discriminate).
  split; [exact H |].
  pose proof (handleAddComment_appends device "t2" (nbsp ++ " looks good " ++ bom)
                30000 commented (atRest [commented]) eq_refl eq_refl H) as K.
  cbv zeta in K. destruct K as (stored & G & C & _).
  exists stored. split; [exact G | exact C].
Defined.
